(** * AutoStuffing: consolidation of invoice sheets into shipment workbooks

    A shallow embedding of [AutoStuffing.py] and the properties of its
    consolidation core.

    Modelling conventions.
    - A Python [str] is a [list ascii]; the embedding covers ASCII text: the
      character classes used by [str.strip], [str.isdigit], [str.upper] and
      by the regular expressions are the ASCII ones, and a character above
      127 belongs to none of them.
    - A Python [int] is an [N] (only non-negative integers occur).
    - The compiled regular expressions are values of a small pattern type
      run by a backtracking matcher with Python's greedy, first-match
      semantics, including the behaviour of [$] before a final line break.
    - A workbook is the ordered list of its worksheets (chart sheets are
      not modelled), a sheet being its title, the document it was copied
      from and the cells written by the summary computation. Of the
      spreadsheet library only this is used:
      [wb.worksheets] lists the sheets in order, and
      [create_sheet(title=name)] appends a sheet; its title is [name],
      unless a sheet of the workbook has that title up to the case of
      letters: then the library appends a number to it
      ([avoid_duplicate_name]); an empty [name] stands for the library's
      default title. The title of the first sheet of a document is a title
      the library accepts when it loads the file: it is not empty and has
      none of the characters the library refuses in a title, so that
      [create_sheet] does not raise on the titles the program computes
      from it. Cell styles and page settings are not part of the
      embedding.
    - A folder is a record of what [rglob] and [iterdir] enumerate in it,
      in their order; the output directory is an association list from
      file name to workbook, extended by [wb.save].
    - A [try]/[except] around a call is modelled by the outcome recorded
      for that call: a document carries whether its first sheet can be
      read and whether copying it raises, before or after the target sheet
      was created. Opening an existing output workbook and copying the
      template are taken to succeed.
    - Of [main] the loop over the groups is embedded; the dialogue, the
      printed summary and the renaming of the files are not. *)

From Stdlib Require Import List Ascii Bool Arith NArith Lia.
From Stdlib Require Import Permutation Sorted DecimalString DecimalN.
From Stdlib Require String.
Import ListNotations String.StringSyntax.

Local Open Scope list_scope.
Local Open Scope bool_scope.

(** ** Strings *)

Definition str := list ascii.

(** String literals of the source, written as [txt "..."]. *)
Definition txt (x : String.string) : str := String.list_ascii_of_string x.
Arguments txt x%_string_scope.

Module Py.

Definition code (c : ascii) : nat := nat_of_ascii c.

(** [str.isspace] on one ASCII character. *)
Definition is_space (c : ascii) : bool :=
  let n := code c in
  ((9 <=? n) && (n <=? 13)) || ((28 <=? n) && (n <=? 32)).

(** [str.isdigit] on one ASCII character; also the class [\d]. *)
Definition is_digit (c : ascii) : bool :=
  let n := code c in (48 <=? n) && (n <=? 57).

Definition is_upper (c : ascii) : bool :=
  let n := code c in (65 <=? n) && (n <=? 90).

Definition is_lower (c : ascii) : bool :=
  let n := code c in (97 <=? n) && (n <=? 122).

(** The class [\w]. *)
Definition is_word (c : ascii) : bool :=
  is_digit c || is_upper c || is_lower c || (c =? "_")%char.

Definition lower_char (c : ascii) : ascii :=
  if is_upper c then ascii_of_nat (code c + 32) else c.

Definition upper_char (c : ascii) : ascii :=
  if is_lower c then ascii_of_nat (code c - 32) else c.

(** [s.upper()] *)
Definition upper (x : str) : str := map upper_char x.

(** [s.lower()] *)
Definition lower (x : str) : str := map lower_char x.

Fixpoint eqb (x y : str) : bool :=
  match x, y with
  | [], [] => true
  | a :: x', b :: y' => (a =? b)%char && eqb x' y'
  | _, _ => false
  end.

(** [x in xs] for a list, tuple or set of strings. *)
Definition mem (x : str) (xs : list str) : bool := existsb (eqb x) xs.

Fixpoint drop_while (p : ascii -> bool) (x : str) : str :=
  match x with
  | c :: x' => if p c then drop_while p x' else x
  | [] => []
  end.

Fixpoint take_while (p : ascii -> bool) (x : str) : str :=
  match x with
  | c :: x' => if p c then c :: take_while p x' else []
  | [] => []
  end.

Definition lstrip_by (p : ascii -> bool) (x : str) : str := drop_while p x.
Definition rstrip_by (p : ascii -> bool) (x : str) : str :=
  rev (drop_while p (rev x)).

(** [s.strip()] *)
Definition strip (x : str) : str := rstrip_by is_space (lstrip_by is_space x).

(** [s.strip(chars)] *)
Definition strip_chars (chars : str) (x : str) : str :=
  let p c := existsb (Ascii.eqb c) chars in
  rstrip_by p (lstrip_by p x).

(** [s.split(sep)] for a one-character separator. *)
Fixpoint split (sep : ascii) (x : str) : list str :=
  match x with
  | [] => [[]]
  | c :: x' =>
      if (c =? sep)%char then [] :: split sep x'
      else match split sep x' with
           | seg :: segs => (c :: seg) :: segs
           | [] => [[c]]
           end
  end.

(** [sep.join(parts)] *)
Fixpoint join (sep : str) (parts : list str) : str :=
  match parts with
  | [] => []
  | [p] => p
  | p :: ps => p ++ sep ++ join sep ps
  end.

(** [s.startswith(prefix)] *)
Fixpoint startswith (prefix x : str) : bool :=
  match prefix, x with
  | [], _ => true
  | a :: p', b :: x' => (a =? b)%char && startswith p' x'
  | _ :: _, [] => false
  end.

(** [s.isdigit()]: non-empty and all digits. *)
Definition isdigit (x : str) : bool :=
  match x with [] => false | _ => forallb is_digit x end.

Definition digit_val (c : ascii) : N := N.of_nat (code c - 48).

(** [int(s)] for a string of digits. *)
Definition int (x : str) : N :=
  fold_left (fun acc c => (10 * acc + digit_val c)%N) x 0%N.

(** [str(n)] for a non-negative integer. *)
Definition of_int (n : N) : str :=
  String.list_ascii_of_string (NilZero.string_of_uint (N.to_uint n)).

(** [s[:n]] *)
Definition take (n : nat) (x : str) : str := firstn n x.

(** [s[:-n]] *)
Definition drop_last (n : nat) (x : str) : str := firstn (length x - n) x.

End Py.

(** ** Regular expressions

    The patterns of the source quantify single character classes only, and
    every capturing group wraps one such quantified class; a pattern is a
    sequence of items. *)

Module Re.

Inductive atom :=
| One (p : ascii -> bool)      (* one character of a class, or a literal *)
| Star (p : ascii -> bool)     (* [p*], greedy *)
| Plus (p : ascii -> bool)     (* [p+], greedy *)
| Opt (p : ascii -> bool)      (* [p?], greedy *)
| Eol.                         (* [$]: end of string, or before a final line break *)

Inductive item :=
| Plain (a : atom)
| Group (a : atom).            (* [( a )] *)

Definition pattern := list item.

Section Matcher.
Context {R : Type}.

(** Greedy repetition: take as many characters as possible, give back
    one at a time while the continuation fails. *)
Fixpoint greedy (p : ascii -> bool) (k : str -> str -> option R)
         (taken : str) (x : str) : option R :=
  match x with
  | c :: x' =>
      if p c then
        match greedy p k (taken ++ [c]) x' with
        | Some r => Some r
        | None => k taken x
        end
      else k taken x
  | [] => k taken []
  end.

Definition match_atom (a : atom) (k : str -> str -> option R) (x : str) : option R :=
  match a with
  | One p =>
      match x with
      | c :: x' => if p c then k [c] x' else None
      | [] => None
      end
  | Star p => greedy p k [] x
  | Plus p =>
      match x with
      | c :: x' => if p c then greedy p k [c] x' else None
      | [] => None
      end
  | Opt p =>
      match x with
      | c :: x' =>
          if p c then
            match k [c] x' with
            | Some r => Some r
            | None => k [] x
            end
          else k [] x
      | [] => k [] []
      end
  | Eol =>
      match x with
      | [] => k [] []
      | [c] => if (c =? "010")%char then k [] x else None
      | _ => None
      end
  end.
End Matcher.

(** Match the pattern at the start of [x]: the captured groups and the
    unconsumed rest. *)
Fixpoint match_here (pat : pattern) (x : str) : option (list str * str) :=
  match pat with
  | [] => Some ([], x)
  | Plain a :: pat' => match_atom a (fun _ rest => match_here pat' rest) x
  | Group a :: pat' =>
      match_atom a
        (fun t rest =>
           match match_here pat' rest with
           | Some (gs, r) => Some (t :: gs, r)
           | None => None
           end) x
  end.

(** [pattern.match(x)]: the groups of a match anchored at the start. *)
Definition match_ (pat : pattern) (x : str) : option (list str) :=
  match match_here pat x with
  | Some (gs, _) => Some gs
  | None => None
  end.

(** [pattern.sub("", x)]: delete every leftmost non-overlapping match.
    [skip] counts the characters of the current match still to delete. *)
Fixpoint sub_empty_from (pat : pattern) (skip : nat) (x : str) : str :=
  match x with
  | [] => []
  | c :: x' =>
      match skip with
      | S n => sub_empty_from pat n x'
      | O =>
          match match_here pat x with
          | Some (_, rest) =>
              match length x - length rest with
              | O => c :: sub_empty_from pat 0 x'
              | S n => sub_empty_from pat n x'
              end
          | None => c :: sub_empty_from pat 0 x'
          end
      end
  end.

Definition sub_empty (pat : pattern) (x : str) : str := sub_empty_from pat 0 x.

(** [pattern.findall(x)]: the groups of every leftmost non-overlapping
    match, an empty match included. [skip] counts the characters of the
    current match still to pass. *)
Fixpoint findall_from (pat : pattern) (skip : nat) (x : str) : list (list str) :=
  match skip, x with
  | S n, _ :: x' => findall_from pat n x'
  | S _, [] => []
  | O, _ =>
      match match_here pat x with
      | Some (gs, rest) =>
          gs :: match x with
                | [] => []
                | _ :: x' => findall_from pat (length x - length rest - 1) x'
                end
      | None =>
          match x with
          | [] => []
          | _ :: x' => findall_from pat 0 x'
          end
      end
  end.

Definition findall (pat : pattern) (x : str) : list (list str) := findall_from pat 0 x.

(** Items of the concrete syntax. *)
Definition lit (c : ascii) : item := Plain (One (Ascii.eqb c)).
(** A literal letter under [re.IGNORECASE]. *)
Definition lit_i (c : ascii) : item :=
  Plain (One (fun d => Ascii.eqb (Py.lower_char d) (Py.lower_char c))).
Definition lits_i (x : str) : pattern := map lit_i x.

End Re.

(** ** Grouping of folders *)

(** [re.compile(r"^\d+\s*pack$", re.IGNORECASE)] *)
Definition _PACK_PATTERN : Re.pattern :=
  [Re.Plain (Re.Plus Py.is_digit); Re.Plain (Re.Star Py.is_space)]
    ++ Re.lits_i (txt "pack") ++ [Re.Plain Re.Eol].

(** [re.compile(r"\s+\d+\s*pack\s*$", re.IGNORECASE)] *)
Definition _PACK_SUFFIX_PATTERN : Re.pattern :=
  [Re.Plain (Re.Plus Py.is_space); Re.Plain (Re.Plus Py.is_digit);
   Re.Plain (Re.Star Py.is_space)]
    ++ Re.lits_i (txt "pack") ++ [Re.Plain (Re.Star Py.is_space); Re.Plain Re.Eol].

Definition _strip_pack_suffix (x : str) : str :=
  match x with
  | [] => x
  | _ => Py.strip (Re.sub_empty _PACK_SUFFIX_PATTERN x)
  end.

Definition parse_name_by_commas (name : str) : list str :=
  map Py.strip (Py.split "," name).

Definition is_some {A} (o : option A) : bool :=
  match o with Some _ => true | None => false end.

(** Truthiness of a string. *)
Definition nonempty (x : str) : bool :=
  match x with [] => false | _ => true end.

Definition get_group_key (folder_name : str) : str :=
  let parts := parse_name_by_commas folder_name in
  if length parts <? 3 then []
  else
    let app := if 3 <? length parts then nth 3 parts [] else folder_name in
    let key_parts := [app] in
    let key_parts :=
      if 4 <? length parts then key_parts ++ [Py.strip (nth 4 parts [])]
      else key_parts in
    let key_parts :=
      if 5 <? length parts then
        let product := _strip_pack_suffix (Py.strip (nth 5 parts [])) in
        if nonempty product && negb (is_some (Re.match_ _PACK_PATTERN product))
        then key_parts ++ [product] else key_parts
      else key_parts in
    Py.join (txt " | ") key_parts.

Definition show (x : str) : String.string := String.string_of_list_ascii x.

(** ** Sorting

    [sorted(xs, key=k)] and [xs.sort(key=k)] are stable; insertion of each
    element before the first one that does not have a smaller key keeps
    equal keys in their original order. *)

Section Sorting.
Context {A : Type} (key : A -> N).

Fixpoint insert_by (x : A) (l : list A) : list A :=
  match l with
  | [] => [x]
  | y :: l' => if (key x <=? key y)%N then x :: l else y :: insert_by x l'
  end.

Definition sorted_by (l : list A) : list A := fold_right insert_by [] l.
End Sorting.

(** ** Range strings *)

(** The inner loop of the encoder: from the run's last number so far,
    advance over the numbers that continue the run; returns the end of the
    run and the numbers after it. *)
Fixpoint run_end (prev : N) (rest : list N) : N * list N :=
  match rest with
  | y :: rest' => if (y =? prev + 1)%N then run_end y rest' else (prev, rest)
  | [] => (prev, [])
  end.

Definition range_token (start end_ : N) : str :=
  if (start =? end_)%N then Py.of_int start
  else Py.of_int start ++ txt "-" ++ Py.of_int end_.

(** The outer loop: one token per run. Every iteration consumes at least
    one number, so [length nums] iterations are enough. *)
Fixpoint range_parts (fuel : nat) (nums : list N) : list str :=
  match fuel with
  | O => []
  | S fuel' =>
      match nums with
      | [] => []
      | start :: rest =>
          let '(end_, rest') := run_end start rest in
          range_token start end_ :: range_parts fuel' rest'
      end
  end.

Definition _invoice_numbers_to_range_string (numbers : list str) : str :=
  let nums := map Py.int (filter Py.isdigit (map Py.strip numbers)) in
  let nums := sorted_by (fun n => n) nums in
  match nums with
  | [] => txt "()"
  | _ => txt "(" ++ Py.join (txt ";") (range_parts (length nums) nums) ++ txt ")"
  end.

(** ** Name of the shipment workbook *)

(** The characters replaced in file names: backslash, slash, colon, star,
    question mark, double quote (code 34), angle brackets and bar. *)
Definition illegal_char (c : ascii) : bool :=
  existsb (Ascii.eqb c) ("034"%char :: txt "\/:*?<>|").

Definition build_upload_table_filename
    (template_name invoice_folder_name : str)
    (invoice_numbers : option (list str)) : str :=
  let t_parts := parse_name_by_commas template_name in
  let i_parts :=
    flat_map
      (fun p =>
         let p := Py.strip p in
         if is_some (Re.match_ _PACK_PATTERN p) then []
         else
           let p := _strip_pack_suffix p in
           if nonempty p then [p] else [])
      (parse_name_by_commas invoice_folder_name) in
  let first_part :=
    match invoice_numbers with
    | Some ((_ :: _) as numbers) =>
        _invoice_numbers_to_range_string numbers
          ++ txt " " ++ Py.of_int (N.of_nat (length numbers)) ++ txt " pcs."
    | _ =>
        match t_parts with
        | t0 :: _ => t0
        | [] => txt "() pcs."
        end
    end in
  let result :=
    [first_part]
      ++ (if 1 <? length t_parts then firstn 1 (skipn 1 t_parts) else [])
      ++ skipn 2 i_parts in
  let name_parts := filter nonempty result in
  let raw := Py.join (txt ", ") name_parts in
  let cleaned :=
    Py.strip_chars (txt ",_")
      (map (fun c => if illegal_char c then "_"%char else c) raw) in
  match cleaned with
  | [] => txt "upload_table"
  | _ => cleaned
  end.

(** ** Invoice numbers as sort keys *)

Definition _invoice_number_sort_key (x : str) : N :=
  let x := Py.strip x in
  if Py.isdigit x then Py.int x else 0%N.

Definition _sort_invoice_numbers_as_int (numbers : list str) : list str :=
  sorted_by _invoice_number_sort_key numbers.

(** ** Workbooks, documents and folders *)

(** What happens when the first sheet of a document is copied: the copy
    succeeds, or [load_workbook] raises before the target is touched, or an
    exception is raised after the target sheet was created. *)
Inductive copy_outcome := CopyOk | FailsOnLoad | FailsAfterCreate.

(** An [.xlsx] file: its name, the title of its first sheet when
    [get_first_sheet_name] can read it, and how copying it goes. *)
Record document := mk_document {
  doc_name : str;
  doc_sheet : option str;
  doc_copy : copy_outcome
}.

(** A sheet: its title, the invoice document its content was copied from
    (none for the sheets of the template), and the cell values written by
    the summary computation, latest first, as (row, column, value). *)
Record sheet := mk_sheet {
  title : str;
  copied_from : option document;
  written : list (nat * nat * str)
}.

(** [wb.worksheets] *)
Definition workbook := list sheet.

Definition titles (wb : workbook) : list str := map title wb.

(** A folder of invoices: [xlsx] is what [folder.rglob("*.xlsx")]
    enumerates, [children] what [folder.iterdir()] enumerates, each entry
    with the result of [is_file()]. *)
Record folder := mk_folder {
  folder_name : str;
  is_dir : bool;
  xlsx : list document;
  children : list (str * bool)
}.

(** ** Copying a sheet *)

Definition suffixed (base : str) (n : nat) : str :=
  base ++ txt "_" ++ Py.of_int (N.of_nat n).

(** [while f"{base}_{n}" in existing: n += 1]. The candidates are pairwise
    different, so the loop leaves after at most [length existing] steps. *)
Fixpoint next_free (existing : list str) (base : str) (n : nat) (fuel : nat) : nat :=
  match fuel with
  | O => n
  | S fuel' =>
      if Py.mem (suffixed base n) existing
      then next_free existing base (S n) fuel'
      else n
  end.

(** The title computed for the new sheet. *)
Definition new_sheet_title (desired : str) (existing : list str) : str :=
  let name := Py.take 31 desired in
  if Py.mem name existing then
    let n := next_free existing name 1 (length existing) in
    Py.take 31 (suffixed name n)
  else name.

(** [new_sheet_name or ws_src.title] *)
Definition or_else (a : option str) (b : str) : str :=
  match a with
  | Some x => if nonempty x then x else b
  | None => b
  end.

(** The pattern the spreadsheet library looks for taken titles with: the
    title [value], escaped, then the group [count] of digits [\d*] and an
    optional comma, under [re.I]. Of its two groups the library uses
    [count] alone, and that one is captured here. *)
Definition sheet_title_regex (value : str) : Re.pattern :=
  Re.lits_i value ++ [Re.Group (Re.Star Py.is_digit); Re.Plain (Re.Opt (Ascii.eqb ","))].

(** [avoid_duplicate_name(names, value)] of the spreadsheet library, which
    the setter of a sheet title calls with the titles of the workbook.
    When a title equals [value] up to the case of letters, the titles are
    joined with commas, every place where [value] stands in that text, in
    any case, gives the digits that follow it, and [value] gets the
    highest of these numbers plus one appended; the places without digits
    count as zero. *)
Definition avoid_duplicate_name (names : list str) (value : str) : str :=
  if existsb (fun n => Py.eqb (Py.lower n) (Py.lower value)) names then
    match Re.findall (sheet_title_regex value) (Py.join (txt ",") names) with
    | [] => value
    | matches =>
        let counts :=
          map Py.int (filter Py.isdigit (map (fun gs => nth 0 gs []) matches)) in
        let highest := fold_right N.max 0%N counts in
        value ++ Py.of_int (highest + 1)
    end
  else value.

(** The title [target_wb.create_sheet(title=name)] gives the new sheet:
    [name], or the library's default title in place of an empty one, made
    different from the titles of the workbook. *)
Definition create_sheet_title (target_wb : workbook) (name : str) : str :=
  avoid_duplicate_name (titles target_wb) (if nonempty name then name else txt "Sheet").

(** Returns the target workbook and whether the call returned normally. *)
Definition copy_first_sheet_to_workbook
    (source : document) (target_wb : workbook) (new_sheet_name : option str)
  : workbook * bool :=
  match doc_copy source, doc_sheet source with
  | FailsOnLoad, _ | _, None => (target_wb, false)
  | outcome, Some src_title =>
      let name := new_sheet_title (or_else new_sheet_name src_title) (titles target_wb) in
      let ws_tgt := mk_sheet (create_sheet_title target_wb name) (Some source) [] in
      let wb := target_wb ++ [ws_tgt] in
      match outcome with
      | CopyOk => (wb, true)
      | _ => (wb, false)
      end
  end.

(** ** Supporting documents *)

Definition word_or_dash (c : ascii) : bool := Py.is_word c || (c =? "-")%char.

(** [re.compile(r"^([\w-]+)\.pdf$", re.IGNORECASE)] *)
Definition _ESD_PATTERN : Re.pattern :=
  [Re.Group (Re.Plus word_or_dash); Re.lit "."]
    ++ Re.lits_i (txt "pdf") ++ [Re.Plain Re.Eol].

(** [re.compile(r"^GTD_(\d+)_(\d+)_(\d+)\.pdf$", re.IGNORECASE)] *)
Definition _GTD_PATTERN : Re.pattern :=
  Re.lits_i (txt "GTD_")
    ++ [Re.Group (Re.Plus Py.is_digit); Re.lit "_";
        Re.Group (Re.Plus Py.is_digit); Re.lit "_";
        Re.Group (Re.Plus Py.is_digit); Re.lit "."]
    ++ Re.lits_i (txt "pdf") ++ [Re.Plain Re.Eol].

Definition _COL_ESD : nat := 10.
Definition _COL_GTD : nat := 15.
(** The dash written for an empty category (U+2014, as its UTF-8 bytes). *)
Definition _EMPTY_PASS : str := map ascii_of_nat [226; 128; 148].
Definition _SKIP_SHEET_TITLES : list str := [txt "TOTAL"; txt "CONSOLIDATED INVOICE"].

(** One iteration of the scanner's loop over [folder.iterdir()]. *)
Definition scan_step (acc : list str * list str) (f : str * bool) : list str * list str :=
  let '(esd_list, gtd_list) := acc in
  let '(name, is_file) := f in
  if negb is_file then acc
  else if Py.startswith (txt "GTD_") name then
    match Re.match_ _GTD_PATTERN name with
    | Some [a; b; c] => (esd_list, gtd_list ++ [a ++ txt "/" ++ b ++ txt "/" ++ c])
    | _ => acc
    end
  else
    match Re.match_ _ESD_PATTERN name with
    | Some _ => (esd_list ++ [Py.drop_last 4 name], gtd_list)
    | None => acc
    end.

Definition _collect_esd_and_gtd_from_one_folder (fd : folder) : list str * list str :=
  if negb (is_dir fd) then ([], [])
  else fold_left scan_step (children fd) ([], []).

(** ** The summary sheet *)

Definition is_total (sh : sheet) : bool :=
  Py.eqb (Py.upper (Py.strip (title sh))) (txt "TOTAL").

Definition _find_total_sheet (wb : workbook) : option sheet := find is_total wb.

Definition _get_sorted_invoice_numbers_from_wb (wb : workbook) : list str :=
  let names :=
    map title
      (filter (fun sh => negb (Py.mem (Py.upper (Py.strip (title sh))) _SKIP_SHEET_TITLES))
              (skipn 1 wb)) in
  match names with
  | [] => []
  | _ => _sort_invoice_numbers_as_int names
  end.

(** [target.cell(row=r, column=c, value=v)] *)
Definition set_cell (r c : nat) (v : str) (sh : sheet) : sheet :=
  mk_sheet (title sh) (copied_from sh) ((r, c, v) :: written sh).

(** The value last written to a cell, if any. *)
Definition cell_value (sh : sheet) (r c : nat) : option str :=
  match find (fun w => (fst (fst w) =? r) && (snd (fst w) =? c)) (written sh) with
  | Some w => Some (snd w)
  | None => None
  end.

(** [dict.get] on a dictionary kept as the list of its assignments, latest
    first. *)
Definition dict_get {V} (d : list (str * V)) (k : str) : option V :=
  match find (fun kv => Py.eqb k (fst kv)) d with
  | Some kv => Some (snd kv)
  | None => None
  end.

Definition dict_set {V} (d : list (str * V)) (k : str) (v : V) : list (str * V) :=
  (k, v) :: d.

Definition or_dash (l : list str) : str :=
  match l with
  | [] => _EMPTY_PASS
  | _ => Py.join (txt ", ") l
  end.

(** The writes of [_fill_total_sheet] on the summary sheet. *)
Definition fill_rows (sorted_numbers : list str) (inv_to_folder : list (str * folder))
    (target : sheet) : sheet :=
  let n := length sorted_numbers in
  let cleared :=
    fold_left
      (fun t r => set_cell r _COL_GTD [] (set_cell r _COL_ESD [] (set_cell r 2 [] t)))
      (seq 4 n) target in
  fold_left
    (fun t '(i, inv_num) =>
       let t := set_cell (4 + i) 2 inv_num t in
       match dict_get inv_to_folder inv_num with
       | None =>
           set_cell (4 + i) _COL_GTD _EMPTY_PASS (set_cell (4 + i) _COL_ESD _EMPTY_PASS t)
       | Some fd =>
           let '(esd_list, gtd_list) := _collect_esd_and_gtd_from_one_folder fd in
           set_cell (4 + i) _COL_GTD (or_dash gtd_list)
             (set_cell (4 + i) _COL_ESD (or_dash esd_list) t)
       end)
    (combine (seq 0 n) sorted_numbers) cleared.

(** The summary sheet is the first sheet found by [_find_total_sheet]; it
    is updated in place. *)
Fixpoint update_first (p : sheet -> bool) (f : sheet -> sheet) (wb : workbook) : workbook :=
  match wb with
  | [] => []
  | sh :: wb' => if p sh then f sh :: wb' else sh :: update_first p f wb'
  end.

Definition _fill_total_sheet (wb : workbook) (inv_to_folder : list (str * folder)) : workbook :=
  match _find_total_sheet wb with
  | None => wb
  | Some _ =>
      match _get_sorted_invoice_numbers_from_wb wb with
      | [] => update_first is_total (set_cell 4 2 []) wb
      | sorted_numbers => update_first is_total (fill_rows sorted_numbers inv_to_folder) wb
      end
  end.

(** ** Processing one group *)

(** The template file: stem and suffix of its path, and its content. *)
Record template := mk_template {
  template_stem : str;
  template_suffix : str;
  template_book : workbook
}.

(** The output directory: the workbooks saved in it, by file name. *)
Definition directory := list (str * workbook).

(** Every [.xlsx] of every folder that is a directory, lock files left
    out, with its folder, in the order of the two nested loops. *)
Definition all_paths (invoice_folders : list folder) : list (document * folder) :=
  flat_map
    (fun fd =>
       if is_dir fd then
         map (fun d => (d, fd))
             (filter (fun d => negb (Py.startswith (txt "~$") (doc_name d))) (xlsx fd))
       else [])
    invoice_folders.

(** The discovery loop of the update branch. *)
Fixpoint discover_new (existing_sheet_names : list str) (paths : list (document * folder))
    (inv_to_folder : list (str * folder)) (new_paths : list (document * str))
  : list (str * folder) * list (document * str) :=
  match paths with
  | [] => (inv_to_folder, new_paths)
  | (path, fd) :: paths' =>
      match doc_sheet path with
      | Some sheet_name =>
          discover_new existing_sheet_names paths'
            (dict_set inv_to_folder sheet_name fd)
            (if Py.mem sheet_name existing_sheet_names then new_paths
             else new_paths ++ [(path, sheet_name)])
      | None => discover_new existing_sheet_names paths' inv_to_folder new_paths
      end
  end.

(** The copy loop of the update branch. *)
Fixpoint copy_new (new_paths : list (document * str)) (wb : workbook) (added : nat)
  : workbook * nat :=
  match new_paths with
  | [] => (wb, added)
  | (path, _) :: rest =>
      let '(wb', ok) := copy_first_sheet_to_workbook path wb None in
      copy_new rest wb' (if ok then S added else added)
  end.

(** The documents whose first sheet can be read, with its title. *)
Definition with_name (paths : list (document * folder)) : list (document * folder * str) :=
  flat_map
    (fun '(path, fd) =>
       match doc_sheet path with
       | Some sn => [(path, fd, sn)]
       | None => []
       end)
    paths.

(** The copy loop of the creation branch. *)
Fixpoint copy_all (all_with_name : list (document * folder * str)) (wb : workbook)
    (inv_to_folder : list (str * folder)) (copied : nat)
  : workbook * list (str * folder) * nat :=
  match all_with_name with
  | [] => (wb, inv_to_folder, copied)
  | (path, fd, _) :: rest =>
      let '(wb', ok) := copy_first_sheet_to_workbook path wb None in
      if ok then
        copy_all rest wb' (dict_set inv_to_folder (last (titles wb') []) fd) (S copied)
      else copy_all rest wb' inv_to_folder copied
  end.

(** Returns [None] where the source raises (an empty list of folders);
    otherwise the count, the output path and the directory after
    [wb.save]. *)
Definition process_application (app_name : str) (invoice_folders : list folder)
    (template_path : template) (output_dir : directory)
  : option (nat * str * directory) :=
  match invoice_folders with
  | [] => None
  | first_folder :: _ =>
      let template_name := template_stem template_path in
      let first_folder_name := folder_name first_folder in
      let ext := Py.lower (template_suffix template_path) in
      let file_base := build_upload_table_filename template_name first_folder_name None in
      let out_path := file_base ++ ext in
      match dict_get output_dir out_path with
      | Some wb =>
          let existing_sheet_names := titles wb in
          let '(inv_to_folder, new_paths) :=
            discover_new existing_sheet_names (all_paths invoice_folders) [] [] in
          let new_paths :=
            sorted_by (fun x => _invoice_number_sort_key (snd x)) new_paths in
          let '(wb, added) := copy_new new_paths wb 0 in
          let wb := _fill_total_sheet wb inv_to_folder in
          Some (added, out_path, dict_set output_dir out_path wb)
      | None =>
          let all_with_name := with_name (all_paths invoice_folders) in
          let all_with_name :=
            sorted_by (fun x => _invoice_number_sort_key (snd x)) all_with_name in
          let wb := template_book template_path in
          let '(wb, inv_to_folder, copied) := copy_all all_with_name wb [] 0 in
          let wb := _fill_total_sheet wb inv_to_folder in
          Some (copied, out_path, dict_set output_dir out_path wb)
      end
  end.

(** ** Grouping the folders *)

(** [by_group[key].append(item)] on a dictionary of lists that keeps the
    order in which its keys were first seen. *)
Fixpoint group_append (key : str) (item : folder) (by_group : list (str * list folder))
  : list (str * list folder) :=
  match by_group with
  | [] => [(key, [item])]
  | (k, items) :: rest =>
      if Py.eqb k key then (k, items ++ [item]) :: rest
      else (k, items) :: group_append key item rest
  end.

(** [base_is_dir] is [base_path.is_dir()], [entries] what
    [base_path.iterdir()] enumerates. *)
Definition analyze_and_group_invoice_folders (base_is_dir : bool) (entries : list folder)
  : list (str * list folder) :=
  if negb base_is_dir then []
  else
    fold_left
      (fun by_group item =>
         if is_dir item && negb (Py.startswith (txt ".") (folder_name item)) then
           let parts := parse_name_by_commas (folder_name item) in
           if length parts <? 3 then by_group
           else
             let key := get_group_key (folder_name item) in
             if negb (nonempty key) then by_group
             else group_append key item by_group
         else by_group)
      entries [].

(** ** The application of a folder *)

(** The fourth segment of the folder name, or the whole name when there
    is none. *)
Definition get_application_name (folder_name : str) : str :=
  let parts := parse_name_by_commas folder_name in
  if 3 <? length parts then nth 3 parts [] else folder_name.

(** ** Counts of the final summary *)

(** One is counted for every [.xlsx] that [rglob] enumerates in a folder,
    lock files left out; the folder is not asked whether it is a
    directory. *)
Definition count_invoices_in_folders (folders : list folder) : nat :=
  list_sum
    (flat_map
       (fun folder =>
          flat_map
            (fun p => if negb (Py.startswith (txt "~$") (doc_name p)) then [1] else [])
            (xlsx folder))
       folders).

(** The directories in which [rglob] finds no [.xlsx] other than lock
    files, in the order of [folders]. *)
Definition _folders_without_xlsx (folders : list folder) : list folder :=
  fold_left
    (fun empty folder =>
       if negb (is_dir folder) then empty
       else
         let has_xlsx :=
           existsb (fun p => negb (Py.startswith (txt "~$") (doc_name p))) (xlsx folder) in
         if negb has_xlsx then empty ++ [folder] else empty)
    folders [].

(** One iteration of the counting loop over [folder.iterdir()]. *)
Definition count_step (acc : nat * nat) (f : str * bool) : nat * nat :=
  let '(esd_count, gtd_count) := acc in
  let '(name, is_file) := f in
  if negb is_file then acc
  else if Py.startswith (txt "GTD_") name then
    if is_some (Re.match_ _GTD_PATTERN name) then (esd_count, S gtd_count) else acc
  else if is_some (Re.match_ _ESD_PATTERN name) then (S esd_count, gtd_count) else acc.

(** The numbers of generic records and of declarations in the
    folders. *)
Definition _count_esd_gtd_in_folders (folders : list folder) : nat * nat :=
  fold_left
    (fun acc folder =>
       if negb (is_dir folder) then acc
       else fold_left count_step (children folder) acc)
    folders (0, 0).

(** ** The run over all groups

    The loop of [main] over [by_app.items()], from the totals set to zero
    to the end of the loop: a group whose processing raises is reported
    and skipped; every other group adds its count to the total and an
    entry, with the name of its first folder, to the list of files that
    may be renamed. The prompts, the printed summary and the renaming of
    the files are not part of the embedding. *)
Fixpoint main_process_groups (by_app : list (str * list folder)) (template_path : template)
    (output_dir : directory) (total_processed : nat) (rename_list : list (str * str * str))
  : nat * list (str * str * str) * directory :=
  match by_app with
  | [] => (total_processed, rename_list, output_dir)
  | (app_name, folders) :: by_app' =>
      match process_application app_name folders template_path output_dir, folders with
      | Some (count, out_path, output_dir'), first_folder :: _ =>
          main_process_groups by_app' template_path output_dir'
            (total_processed + count)
            (rename_list
               ++ [(out_path, template_stem template_path, folder_name first_folder)])
      | _, _ =>
          main_process_groups by_app' template_path output_dir total_processed rename_list
      end
  end.

(** * Vocabulary of the properties *)

(** The order of a sort by key. *)
Definition key_le {A : Type} (key : A -> N) (a b : A) : Prop :=
  (key a <= key b)%N.

(** ** Group keys *)

(** Every folder of a group has the key of the group. *)
Definition keyed (by_group : list (str * list folder)) : Prop :=
  forall key items item,
    In (key, items) by_group -> In item items ->
    get_group_key (folder_name item) = key.

(** The part of the key contributed by the sixth segment. *)
Definition product_part (segment : str) : list str :=
  let product := _strip_pack_suffix (Py.strip segment) in
  if nonempty product && negb (is_some (Re.match_ _PACK_PATTERN product))
  then [product] else [].

(** ** The invoice list of the summary sheet *)

Definition reserved_title (t : str) : bool :=
  Py.mem (Py.upper (Py.strip t)) _SKIP_SHEET_TITLES.

(** The list as the specification words it: every sheet of the workbook
    whose title is not reserved, whatever its position. *)
Definition invoice_titles_any_position (wb : workbook) : list str :=
  _sort_invoice_numbers_as_int
    (map title (filter (fun sh => negb (reserved_title (title sh))) wb)).

Definition plain_sheet (t : str) : sheet := mk_sheet t None [].

(** ** Patterns and shapes of file names *)

(** The pattern cannot match a string that starts with a character of
    the class [p]. *)
Definition rejects (p : ascii -> bool) (pat : Re.pattern) : Prop :=
  forall c y, p c = true -> Re.match_here pat (c :: y) = None.

Definition newline : ascii := "010"%char.

(** Where [$] matches: at the end, or before a final line break. *)
Definition at_eol (nl : str) : Prop := nl = [] \/ nl = [newline].

(** A case variant of the extension. *)
Definition pdf_ext (e : str) : Prop := Py.lower e = txt ".pdf".

(** [GTD_<a>_<b>_<c>.pdf], the marker and the extension in any case. *)
Definition gtd_shape (name a b c : str) : Prop :=
  exists g e nl,
    name = g ++ a ++ "_"%char :: b ++ "_"%char :: c ++ e ++ nl
    /\ Py.lower g = txt "gtd_"
    /\ Py.isdigit a = true /\ Py.isdigit b = true /\ Py.isdigit c = true
    /\ pdf_ext e /\ at_eol nl.

(** [<token>.pdf], the token made of letters, digits, [_] and [-]. *)
Definition esd_shape (name token : str) : Prop :=
  exists e nl,
    name = token ++ e ++ nl
    /\ token <> [] /\ forallb word_or_dash token = true
    /\ pdf_ext e /\ at_eol nl.

(** The tail [\.pdf$] of both patterns. *)
Definition ext_tail : Re.pattern :=
  Re.lit "." :: Re.lits_i (txt "pdf") ++ [Re.Plain Re.Eol].

(** ** Classification of supporting documents *)

Inductive record_kind :=
| Generic (identifier : str)
| Declaration (identifier : str)
| Unclassified.

(** What the scanner's loop does with one file name. *)
Definition classify (name : str) : record_kind :=
  if Py.startswith (txt "GTD_") name then
    match Re.match_ _GTD_PATTERN name with
    | Some [a; b; c] => Declaration (a ++ txt "/" ++ b ++ txt "/" ++ c)
    | _ => Unclassified
    end
  else
    match Re.match_ _ESD_PATTERN name with
    | Some _ => Generic (Py.drop_last 4 name)
    | None => Unclassified
    end.

Definition generic_ids (f : str * bool) : list str :=
  if snd f then
    match classify (fst f) with Generic i => [i] | _ => [] end
  else [].

Definition declaration_ids (f : str * bool) : list str :=
  if snd f then
    match classify (fst f) with Declaration i => [i] | _ => [] end
  else [].

Definition sample_scan_folder : folder :=
  mk_folder (txt "f") true []
    [(txt "GTD_1_2_3.pdf", true); (txt "GTD_x.pdf", true);
     (txt "ab-1.PDF", true); (txt "notes.txt", true); (txt "sub.pdf", false)].

(** ** Runs of consecutive numbers *)

(** A run: each number is the one before it plus one. *)
Inductive consecutive : list N -> Prop :=
| consecutive_one (a : N) : consecutive [a]
| consecutive_cons (a : N) (l : list N) :
    consecutive ((a + 1)%N :: l) -> consecutive (a :: (a + 1)%N :: l).

(** A list of runs none of which continues into the next one. *)
Inductive maximal_runs : list (list N) -> Prop :=
| maximal_nil : maximal_runs []
| maximal_one (seg : list N) : consecutive seg -> maximal_runs [seg]
| maximal_cons (seg seg' : list N) (rest : list (list N)) :
    consecutive seg ->
    hd 0%N seg' <> (last seg 0 + 1)%N ->
    maximal_runs (seg' :: rest) ->
    maximal_runs (seg :: seg' :: rest).

(** The token of a run: its first number, and its last one when the run
    has more than one number. *)
Definition token_of (seg : list N) : str := range_token (hd 0%N seg) (last seg 0%N).

(** The members of the run after [prev], and the numbers after the run. *)
Fixpoint run_split (prev : N) (rest : list N) : list N * list N :=
  match rest with
  | y :: rest' =>
      if (y =? prev + 1)%N then
        let '(r, rem) := run_split y rest' in (y :: r, rem)
      else ([], rest)
  | [] => ([], [])
  end.

Fixpoint runs_of (fuel : nat) (nums : list N) : list (list N) :=
  match fuel with
  | O => []
  | S fuel' =>
      match nums with
      | [] => []
      | start :: rest =>
          let '(r, rem) := run_split start rest in
          (start :: r) :: runs_of fuel' rem
      end
  end.

(** ** Documents and their copies *)

Definition str_eq_dec : forall x y : str, {x = y} + {x <> y} :=
  list_eq_dec ascii_dec.

(** A title of 31 characters, the longest a sheet title may be. *)
Definition title31 : str := repeat "A"%char 31.

(** The invoice number of a document: the title of its first sheet. *)
Definition invoice_number (d : document) : str :=
  match doc_sheet d with Some t => t | None => [] end.

Definition invoice_key (d : document) : N :=
  _invoice_number_sort_key (invoice_number d).

(** Copying the document creates a sheet in the target. *)
Definition creates_sheet (d : document) : bool :=
  match doc_copy d, doc_sheet d with
  | FailsOnLoad, _ | _, None => false
  | _, Some _ => true
  end.

(** Copying the document returns without an exception. *)
Definition copy_succeeds (d : document) : bool :=
  match doc_copy d, doc_sheet d with
  | CopyOk, Some _ => true
  | _, _ => false
  end.

(** The title the new sheet gets when the document is copied into the
    workbook: the title the program computes, as the library applies it. *)
Definition applied_title (d : document) (wb : workbook) : str :=
  create_sheet_title wb (new_sheet_title (invoice_number d) (titles wb)).

(** A string of ASCII characters without letters: it has one spelling
    only, whatever the case of letters. *)
Definition uncased (t : str) : bool :=
  forallb (fun c => (Py.code c <? 128) && negb (Py.is_upper c || Py.is_lower c)) t.

(** The invoice number of a document with its letters in lower case. *)
Definition folded_number (d : document) : str := Py.lower (invoice_number d).

(** The workbook after the documents were copied one after the other. *)
Fixpoint transplant (docs : list document) (wb : workbook) : workbook :=
  match docs with
  | [] => wb
  | d :: rest => transplant rest (fst (copy_first_sheet_to_workbook d wb None))
  end.

(** The update branch keeps the documents whose invoice number is not a
    title of the workbook as it was opened. *)
Definition is_missing (existing : list str) (d : document) : bool :=
  match doc_sheet d with
  | Some sn => negb (Py.mem sn existing)
  | None => false
  end.

Definition is_readable (d : document) : bool := is_some (doc_sheet d).

Definition out_path_of (first_folder : folder) (template_path : template) : str :=
  build_upload_table_filename (template_stem template_path)
    (folder_name first_folder) None
  ++ Py.lower (template_suffix template_path).

Definition to_copy_update (existing : list str) (invoice_folders : list folder)
  : list document :=
  map fst
    (sorted_by (fun x : document * str => _invoice_number_sort_key (snd x))
       (snd (discover_new existing (all_paths invoice_folders) [] []))).

Definition to_copy_create (invoice_folders : list folder) : list document :=
  map (fun x : document * folder * str => fst (fst x))
    (sorted_by (fun x : document * folder * str => _invoice_number_sort_key (snd x))
       (with_name (all_paths invoice_folders))).

Definition missing_pairs (existing : list str) (paths : list (document * folder))
  : list (document * str) :=
  flat_map
    (fun '(d, _) =>
       match doc_sheet d with
       | Some sn => if Py.mem sn existing then [] else [(d, sn)]
       | None => []
       end)
    paths.

(** The workbook a run starts from, and the documents it takes for
    copying: in an existing workbook those whose invoice number is not yet
    a title, with a new one all whose first sheet can be read. *)
Definition start_book (template_path : template) (found : option workbook) : workbook :=
  match found with Some wb => wb | None => template_book template_path end.

Definition wanted (invoice_folders : list folder) (found : option workbook)
  : list document :=
  match found with
  | Some wb => filter (is_missing (titles wb)) (map fst (all_paths invoice_folders))
  | None => filter is_readable (map fst (all_paths invoice_folders))
  end.

(** A group of one folder with four invoices and a lock file, and a
    template with two sheets. *)
Definition sample_group : list folder :=
  [mk_folder (txt "A, B, C, App") true
     [mk_document (txt "a.xlsx") (Some (txt "10")) CopyOk;
      mk_document (txt "b.xlsx") (Some (txt "2")) CopyOk;
      mk_document (txt "~$b.xlsx") (Some (txt "2")) CopyOk;
      mk_document (txt "c.xlsx") (Some (txt "x")) CopyOk;
      mk_document (txt "d.xlsx") None FailsOnLoad;
      mk_document (txt "e.xlsx") (Some (txt "2")) CopyOk]
     [(txt "E1.pdf", true)]].

Definition sample_template : template :=
  mk_template (txt "() pcs., LI") (txt ".xlsx")
    [plain_sheet (txt "Total"); plain_sheet (txt "Consolidated invoice")].

(** Two invoice documents whose first sheets carry the same title of 31
    characters. *)
Definition twin_group : list folder :=
  [mk_folder (txt "A, B, C, App") true
     [mk_document (txt "a.xlsx") (Some title31) CopyOk;
      mk_document (txt "b.xlsx") (Some title31) CopyOk] []].

(** ** Parts of the name of the shipment workbook *)

(** The first comma-delimited part of a name. *)
Definition first_part (name : str) : str := hd [] (parse_name_by_commas name).

(** The comma-delimited parts after the first one. *)
Definition later_parts (name : str) : list str := tl (parse_name_by_commas name).

(** The part put first: range and count for a non-empty list of invoice
    numbers, else the first part of the template name. *)
Definition first_part_of (template_name : str) (invoice_numbers : option (list str)) : str :=
  match invoice_numbers with
  | Some ((_ :: _) as numbers) =>
      _invoice_numbers_to_range_string numbers
        ++ txt " " ++ Py.of_int (N.of_nat (length numbers)) ++ txt " pcs."
  | _ =>
      match parse_name_by_commas template_name with
      | t0 :: _ => t0
      | [] => txt "() pcs."
      end
  end.

Definition i_parts_of (invoice_folder_name : str) : list str :=
  flat_map
    (fun p =>
       let p := Py.strip p in
       if is_some (Re.match_ _PACK_PATTERN p) then []
       else
         let p := _strip_pack_suffix p in
         if nonempty p then [p] else [])
    (parse_name_by_commas invoice_folder_name).

(** The parts after the first one, before empty ones are dropped. *)
Definition rest_parts (template_name invoice_folder_name : str) : list str :=
  (if 1 <? length (parse_name_by_commas template_name)
   then firstn 1 (skipn 1 (parse_name_by_commas template_name)) else [])
    ++ skipn 2 (i_parts_of invoice_folder_name).

Definition sanitize (x : str) : str :=
  map (fun c => if illegal_char c then "_"%char else c) x.

Definition strippable (c : ascii) : bool := existsb (Ascii.eqb c) (txt ",_").

(** What follows the first part in the name: the other parts, each after
    [", "], sanitized, and stripped on the right. *)
Definition name_tail (template_name invoice_folder_name : str) : str :=
  Py.rstrip_by strippable
    (sanitize
       (concat (map (fun p => txt ", " ++ p)
                    (filter nonempty (rest_parts template_name invoice_folder_name))))).

(** A character that stays as it is in a file name and is not a comma. *)
Definition plain_char (c : ascii) : bool :=
  negb (illegal_char c) && negb (c =? ",")%char.

(** A first part that goes into the name unchanged: no character of it is
    replaced, it holds no comma, and it neither begins nor ends with a
    character that is stripped from the name or from a part. *)
Definition keeps_shape (fp : str) : Prop :=
  forallb plain_char fp = true
  /\ exists h y a c,
       fp = h :: y /\ fp = a ++ [c]
       /\ strippable h = false /\ strippable c = false
       /\ Py.is_space h = false /\ Py.is_space c = false.

(** The names of the specification's example. *)
Definition example_template_name : str := txt "() pcs., LI, 40_2023".

Definition example_folder_name : str := txt "A, B, Add. VP-CH-2510-23, ZLPK (TS), pine".

(** ** Pack qualifiers *)

(** A trailing pack qualifier: white space, an integer, optional white
    space, [pack] in any case, optional white space. *)
Definition pack_qualifier (q : str) : Prop :=
  exists w1 d w2 pk w3,
    q = w1 ++ d ++ w2 ++ pk ++ w3
    /\ w1 <> [] /\ forallb Py.is_space w1 = true
    /\ Py.isdigit d = true
    /\ forallb Py.is_space w2 = true
    /\ Py.lower pk = txt "pack"
    /\ forallb Py.is_space w3 = true.

(** A pack token: an integer, optional white space, [pack] in any case. *)
Definition pack_token (x : str) : Prop :=
  exists d w pk,
    x = d ++ w ++ pk
    /\ Py.isdigit d = true /\ forallb Py.is_space w = true
    /\ Py.lower pk = txt "pack".

(** What the sixth segment gives to the key once its qualifier is gone. *)
Definition product_core (p : str) : list str :=
  let product := Py.strip p in
  if nonempty product && negb (is_some (Re.match_ _PACK_PATTERN product))
  then [product] else [].

(** [pack\s*$], the end of the suffix pattern. *)
Definition pack_tail : Re.pattern :=
  Re.lits_i (txt "pack") ++ [Re.Plain (Re.Star Py.is_space); Re.Plain Re.Eol].

(** Going back from the end of a string over a pack qualifier. *)
Definition before_qualifier (r : str) : str :=
  Py.drop_while Py.is_space
    (Py.drop_while Py.is_digit
       (Py.drop_while Py.is_space (skipn 4 (Py.drop_while Py.is_space r)))).

(** ** Parts of the name, continued *)

(** What one segment of the folder name gives to the name of the
    workbook. *)
Definition name_part (segment : str) : list str :=
  let p := Py.strip segment in
  if is_some (Re.match_ _PACK_PATTERN p) then []
  else
    let p := _strip_pack_suffix p in
    if nonempty p then [p] else [].

(** A string that holds a character other than white space. *)
Definition not_blank (x : str) : Prop := forallb Py.is_space x = false.

(** ** Groups *)

(** The entries of the base directory that are grouped: directories whose
    name does not begin with a dot, has three segments or more and gives a
    key that is not empty. *)
Definition eligible (item : folder) : bool :=
  is_dir item && negb (Py.startswith (txt ".") (folder_name item))
  && negb (length (parse_name_by_commas (folder_name item)) <? 3)
  && nonempty (get_group_key (folder_name item)).

(** The folder has the given group key. *)
Definition has_key (key : str) (item : folder) : bool :=
  Py.eqb (get_group_key (folder_name item)) key.

(** The folders filed under a key. *)
Definition group_items (key : str) (by_group : list (str * list folder)) : list folder :=
  match find (fun g => Py.eqb (fst g) key) by_group with
  | Some g => snd g
  | None => []
  end.

(** One iteration of the grouping loop. *)
Definition group_step (by_group : list (str * list folder)) (item : folder)
  : list (str * list folder) :=
  if eligible item then group_append (get_group_key (folder_name item)) item by_group
  else by_group.

(** ** Cells of the summary sheet *)

(** The supporting documents written beside an invoice number: those of
    the folder recorded for it, or two dashes when none is recorded. *)
Definition row_texts (inv_to_folder : list (str * folder)) (inv_num : str) : str * str :=
  match dict_get inv_to_folder inv_num with
  | None => (_EMPTY_PASS, _EMPTY_PASS)
  | Some fd =>
      (or_dash (fst (_collect_esd_and_gtd_from_one_folder fd)),
       or_dash (snd (_collect_esd_and_gtd_from_one_folder fd)))
  end.

(** The cells the summary computation writes for a list of invoice
    numbers: one row from row 4 on for each number, in the columns of the
    number and of the two kinds of documents; for an empty list the one
    cell of the first number. *)
Definition in_table (numbers : list str) (r c : nat) : bool :=
  match numbers with
  | [] => (r =? 4) && (c =? 2)
  | _ =>
      (4 <=? r) && (r <? 4 + length numbers)
      && ((c =? 2) || (c =? _COL_ESD) || (c =? _COL_GTD))
  end.

(** One iteration of the loop that fills the rows. *)
Definition fill_row (inv_to_folder : list (str * folder)) (t : sheet) (x : nat * str) : sheet :=
  let '(i, inv_num) := x in
  let t := set_cell (4 + i) 2 inv_num t in
  match dict_get inv_to_folder inv_num with
  | None =>
      set_cell (4 + i) _COL_GTD _EMPTY_PASS (set_cell (4 + i) _COL_ESD _EMPTY_PASS t)
  | Some fd =>
      let '(esd_list, gtd_list) := _collect_esd_and_gtd_from_one_folder fd in
      set_cell (4 + i) _COL_GTD (or_dash gtd_list)
        (set_cell (4 + i) _COL_ESD (or_dash esd_list) t)
  end.

(** One iteration of the loop that clears the rows. *)
Definition clear_row (t : sheet) (r : nat) : sheet :=
  set_cell r _COL_GTD [] (set_cell r _COL_ESD [] (set_cell r 2 [] t)).

(** A workbook with a summary sheet and two invoices. *)
Definition sample_book : workbook :=
  [plain_sheet (txt "Total"); plain_sheet (txt "Consolidated invoice");
   plain_sheet (txt "10"); plain_sheet (txt "2")].

(** The folder recorded for the invoice number 2. *)
Definition sample_inv_to_folder : list (str * folder) := [(txt "2", sample_scan_folder)].

(** The folder of the last discovered document whose first sheet has the
    given title. *)
Fixpoint last_folder (paths : list (document * folder)) (t : str) : option folder :=
  match paths with
  | [] => None
  | (d, fd) :: paths' =>
      match last_folder paths' t with
      | Some fd' => Some fd'
      | None =>
          match doc_sheet d with
          | Some sn => if Py.eqb t sn then Some fd else None
          | None => None
          end
      end
  end.

(** An output directory that holds the workbook of the sample group. *)
Definition sample_directory : directory :=
  [(out_path_of (hd (mk_folder [] false [] []) sample_group) sample_template, sample_book)].

(** The copy raised after it had created the sheet. *)
Definition fails_after_create (d : document) : bool :=
  creates_sheet d && negb (copy_succeeds d).

(** A group with a document whose copy fails after the sheet was created. *)
Definition failing_group : list folder :=
  [mk_folder (txt "A, B, C, App") true
     [mk_document (txt "a.xlsx") (Some (txt "10")) CopyOk;
      mk_document (txt "b.xlsx") (Some (txt "2")) FailsAfterCreate;
      mk_document (txt "c.xlsx") (Some (txt "3")) FailsOnLoad] []].

(** ** The run over all groups *)

(** The invoice number of every document that becomes a sheet is not
    empty, fits into a sheet title and is made of ASCII characters other
    than letters. *)
Definition plain_numbers (folders : list folder) : Prop :=
  forall d, In d (map fst (all_paths folders)) -> creates_sheet d = true ->
            invoice_number d <> []
            /\ length (invoice_number d) <= 31
            /\ uncased (invoice_number d) = true.

(** The workbook saved for the group holds a sheet for every document of
    the group that a copy turns into a sheet. *)
Definition settled (template_path : template) (output_dir : directory)
    (folders : list folder) : Prop :=
  match folders with
  | [] => True
  | first_folder :: _ =>
      exists wb,
        dict_get output_dir (out_path_of first_folder template_path) = Some wb
        /\ forall d, In d (map fst (all_paths folders)) -> creates_sheet d = true ->
                     In (invoice_number d) (titles wb)
  end.

(** The entries of the rename list, one for each group with a folder. *)
Definition rename_entries (template_path : template) (by_app : list (str * list folder))
  : list (str * str * str) :=
  flat_map
    (fun g =>
       match snd g with
       | [] => []
       | first_folder :: _ =>
           [(out_path_of first_folder template_path, template_stem template_path,
             folder_name first_folder)]
       end)
    by_app.

(** The sheet titles of the workbook saved under a file name. *)
Definition sheet_titles (output_dir : directory) (path : str) : option (list str) :=
  option_map titles (dict_get output_dir path).

(** Two groups of numbered invoices whose workbooks have the same file
    name; two invoices of the first group have the same number. *)
Definition numbered_group : list folder :=
  [mk_folder (txt "A, B, C, App") true
     [mk_document (txt "a.xlsx") (Some (txt "10")) CopyOk;
      mk_document (txt "b.xlsx") (Some (txt "2")) CopyOk;
      mk_document (txt "c.xlsx") (Some (txt "2")) CopyOk;
      mk_document (txt "d.xlsx") None FailsOnLoad] []].

Definition numbered_twin : list folder :=
  [mk_folder (txt "A, B, C, App") true
     [mk_document (txt "e.xlsx") (Some (txt "2_1")) CopyOk;
      mk_document (txt "f.xlsx") (Some (txt "7")) FailsAfterCreate] []].

Definition sample_groups : list (str * list folder) :=
  [(txt "App", numbered_group); (txt "App | x", numbered_twin)].

(** A group of two folders with three invoices and a file that cannot be
    read. *)
Definition distinct_group : list folder :=
  [mk_folder (txt "A, B, C, App") true
     [mk_document (txt "a.xlsx") (Some (txt "10")) CopyOk;
      mk_document (txt "b.xlsx") (Some (txt "x")) CopyOk] [];
   mk_folder (txt "A, B, D, App") true
     [mk_document (txt "c.xlsx") (Some (txt "2")) CopyOk;
      mk_document (txt "d.xlsx") None FailsOnLoad]
     [(txt "E2.pdf", true)]].

(** * Properties *)

(** ** Facts about strings *)

(** Facts about one character are settled by going through the
    characters. *)
Ltac by_char_cases c :=
  destruct c as [[] [] [] [] [] [] [] []]; vm_compute;
  try reflexivity; try discriminate; try congruence; intuition congruence.

Module PyFacts.

Lemma eqb_eq (x y : str) : Py.eqb x y = true <-> x = y.
Proof.
  revert y; induction x as [|a x IH]; intros [|b y]; simpl;
    try (split; (discriminate || reflexivity)).
  rewrite andb_true_iff, Ascii.eqb_eq, IH.
  split; [intros [-> ->]; reflexivity | intros H; inversion H; auto].
Qed.

Lemma eqb_refl (x : str) : Py.eqb x x = true.
Proof. apply eqb_eq; reflexivity. Qed.

Lemma eqb_neq (x y : str) : Py.eqb x y = false <-> x <> y.
Proof.
  rewrite <- eqb_eq. destruct (Py.eqb x y); split; congruence.
Qed.

Lemma mem_In (x : str) (xs : list str) : Py.mem x xs = true <-> In x xs.
Proof.
  unfold Py.mem. rewrite existsb_exists. split.
  - intros (y & Hy & E). apply eqb_eq in E. subst; assumption.
  - intros H. exists x. split; [assumption | apply eqb_refl].
Qed.

Lemma mem_not_In (x : str) (xs : list str) : Py.mem x xs = false <-> ~ In x xs.
Proof.
  rewrite <- mem_In. destruct (Py.mem x xs); split; congruence.
Qed.

Lemma take_short (n : nat) (x : str) : length x <= n -> Py.take n x = x.
Proof. intros H. unfold Py.take. apply firstn_all2; assumption. Qed.

Lemma take_length (n : nat) (x : str) : length (Py.take n x) <= n.
Proof. unfold Py.take. rewrite length_firstn. lia. Qed.

Lemma drop_while_app_stop (p : ascii -> bool) (a : str) (c : ascii) (y : str) :
  forallb p a = true -> p c = false ->
  Py.drop_while p (a ++ c :: y) = c :: y.
Proof.
  intros Ha Hc. induction a as [|d a IH]; simpl in *.
  - rewrite Hc; reflexivity.
  - apply andb_true_iff in Ha as [-> Ha]. auto.
Qed.

Lemma drop_while_all (p : ascii -> bool) (a : str) :
  forallb p a = true -> Py.drop_while p a = [].
Proof.
  induction a as [|d a IH]; simpl; [reflexivity|].
  intros H. apply andb_true_iff in H as [-> H]. auto.
Qed.

Lemma drop_while_head (p : ascii -> bool) (c : ascii) (y : str) :
  p c = false -> Py.drop_while p (c :: y) = c :: y.
Proof. intros H. simpl. rewrite H. reflexivity. Qed.

(** Stripping on the right leaves a string that ends in a character
    outside the class as it is. *)
Lemma rstrip_by_keep (p : ascii -> bool) (a : str) (c : ascii) :
  p c = false -> Py.rstrip_by p (a ++ [c]) = a ++ [c].
Proof.
  intros H. unfold Py.rstrip_by. rewrite rev_app_distr. simpl.
  rewrite H. simpl. rewrite rev_involutive. reflexivity.
Qed.

Lemma rstrip_by_app (p : ascii -> bool) (a : str) (c : ascii) (b : str) :
  p c = false ->
  Py.rstrip_by p (a ++ c :: b) = a ++ c :: Py.rstrip_by p b.
Proof.
  intros H. unfold Py.rstrip_by.
  induction b as [|d b IH] using rev_ind.
  - simpl. change (a ++ [c]) with (a ++ [c]). rewrite rev_app_distr. simpl.
    rewrite H. simpl. rewrite rev_involutive. reflexivity.
  - replace (a ++ c :: b ++ [d]) with ((a ++ c :: b) ++ [d])
      by (rewrite <- app_assoc; reflexivity).
    rewrite !rev_app_distr with (y := [d]). simpl.
    destruct (p d).
    + exact IH.
    + simpl. rewrite !rev_involutive. rewrite <- app_assoc. reflexivity.
Qed.

(** Splitting. *)
Lemma split_nonnil (sep : ascii) (x : str) : Py.split sep x <> [].
Proof.
  destruct x as [|c x]; simpl; [discriminate|].
  destruct (Ascii.eqb c sep); [discriminate|].
  destruct (Py.split sep x); discriminate.
Qed.

Lemma split_no_sep (sep : ascii) (x : str) :
  ~ In sep x -> Py.split sep x = [x].
Proof.
  induction x as [|c x IH]; simpl; intros H; [reflexivity|].
  destruct (Ascii.eqb_spec c sep) as [->|Hne]; [exfalso; auto|].
  rewrite IH by tauto. reflexivity.
Qed.

Lemma split_app_sep (sep : ascii) (x y : str) :
  ~ In sep x -> Py.split sep (x ++ sep :: y) = x :: Py.split sep y.
Proof.
  induction x as [|c x IH]; simpl; intros H.
  - rewrite Ascii.eqb_refl. reflexivity.
  - destruct (Ascii.eqb_spec c sep) as [->|Hne]; [exfalso; auto|].
    rewrite IH by tauto. reflexivity.
Qed.

(** Splitting at a later separator: the segments before it are those of
    the prefix. *)
Lemma split_app (sep : ascii) (x y : str) :
  Py.split sep (x ++ sep :: y) = Py.split sep x ++ Py.split sep y.
Proof.
  induction x as [|c x IH]; simpl.
  - rewrite Ascii.eqb_refl. reflexivity.
  - destruct (Ascii.eqb c sep).
    + rewrite IH. reflexivity.
    + rewrite IH. destruct (Py.split sep x) eqn:E.
      * exfalso. eapply split_nonnil; eassumption.
      * reflexivity.
Qed.

Lemma take_drop_while (p : ascii -> bool) (x : str) :
  Py.take_while p x ++ Py.drop_while p x = x.
Proof.
  induction x as [|c x IH]; simpl; [reflexivity|].
  destruct (p c); simpl; [rewrite IH|]; reflexivity.
Qed.

Lemma take_while_all (p : ascii -> bool) (x : str) :
  forallb p (Py.take_while p x) = true.
Proof.
  induction x as [|c x IH]; simpl; [reflexivity|].
  destruct (p c) eqn:E; simpl; [rewrite E, IH|]; reflexivity.
Qed.

Lemma drop_while_stops (p : ascii -> bool) (x : str) (c : ascii) (y : str) :
  Py.drop_while p x = c :: y -> p c = false.
Proof.
  induction x as [|d x IH]; simpl; [discriminate|].
  destruct (p d) eqn:E; [exact IH|].
  intros H; inversion H; subst; exact E.
Qed.

Lemma take_while_app_stop (p : ascii -> bool) (a : str) (c : ascii) (y : str) :
  forallb p a = true -> p c = false ->
  Py.take_while p (a ++ c :: y) = a.
Proof.
  intros Ha Hc. induction a as [|d a IH]; simpl in *.
  - rewrite Hc; reflexivity.
  - apply andb_true_iff in Ha as [-> Ha]. rewrite IH by assumption. reflexivity.
Qed.

End PyFacts.

(** ** Facts about sorting *)

Module SortFacts.
Section Sort.
Context {A : Type} (key : A -> N).

Lemma insert_by_perm (x : A) (l : list A) :
  Permutation (insert_by key x l) (x :: l).
Proof.
  induction l as [|y l IH]; simpl; [reflexivity|].
  destruct (key x <=? key y)%N; [reflexivity|].
  rewrite IH. apply perm_swap.
Qed.

Lemma sorted_by_perm (l : list A) : Permutation (sorted_by key l) l.
Proof.
  induction l as [|x l IH]; simpl; [reflexivity|].
  rewrite insert_by_perm. constructor. exact IH.
Qed.

Lemma insert_by_sorted (x : A) (l : list A) :
  StronglySorted (key_le key) l -> StronglySorted (key_le key) (insert_by key x l).
Proof.
  induction 1 as [|y l Hl IH Hy]; simpl.
  - repeat constructor.
  - destruct (N.leb_spec (key x) (key y)) as [Hxy|Hxy].
    + constructor; [constructor; assumption|].
      constructor; [exact Hxy|].
      eapply Forall_impl; [|exact Hy].
      unfold key_le; intros; lia.
    + constructor; [exact IH|].
      apply (Permutation_Forall (Permutation_sym (insert_by_perm x l))).
      constructor; [unfold key_le; lia | exact Hy].
Qed.

Lemma sorted_by_sorted (l : list A) : StronglySorted (key_le key) (sorted_by key l).
Proof.
  induction l as [|x l IH]; simpl; [constructor|].
  apply insert_by_sorted; exact IH.
Qed.

Lemma sorted_by_In (x : A) (l : list A) : In x (sorted_by key l) <-> In x l.
Proof.
  split; apply Permutation_in;
    [apply sorted_by_perm | apply Permutation_sym, sorted_by_perm].
Qed.

End Sort.

(** Sorting numbers by their value does not depend on their order. *)
Lemma insert_by_comm (x y : N) (l : list N) :
  insert_by (fun n => n) x (insert_by (fun n => n) y l)
  = insert_by (fun n => n) y (insert_by (fun n => n) x l).
Proof.
  induction l as [|z l IH]; simpl.
  - destruct (N.leb_spec x y), (N.leb_spec y x); try reflexivity; try lia.
    assert (x = y) by lia. subst; reflexivity.
  - destruct (N.leb_spec y z), (N.leb_spec x z); simpl;
      repeat match goal with
             | |- context [(?a <=? ?b)%N] => destruct (N.leb_spec a b)
             end; try reflexivity; try lia.
    + assert (x = y) by lia. subst; reflexivity.
    + rewrite IH. reflexivity.
Qed.

Lemma sorted_by_perm_eq (l l' : list N) :
  Permutation l l' -> sorted_by (fun n => n) l = sorted_by (fun n => n) l'.
Proof.
  induction 1; simpl; try congruence.
  apply insert_by_comm.
Qed.
End SortFacts.

(** ** Group keys *)

Section GroupKey.

Lemma parse_length (name : str) :
  length (parse_name_by_commas name) = length (Py.split "," name).
Proof. unfold parse_name_by_commas. apply length_map. Qed.

Lemma get_group_key_short (name : str) :
  length (parse_name_by_commas name) < 3 -> get_group_key name = [].
Proof.
  intros H. unfold get_group_key.
  apply Nat.ltb_lt in H. rewrite H. reflexivity.
Qed.

Lemma get_group_key_three (name : str) :
  length (parse_name_by_commas name) = 3 -> get_group_key name = name.
Proof.
  intros H. unfold get_group_key. rewrite H. simpl.
  apply app_nil_r || reflexivity.
Qed.

Lemma get_group_key_six (name : str) :
  5 < length (parse_name_by_commas name) ->
  get_group_key name =
    Py.join (txt " | ")
      ([nth 3 (parse_name_by_commas name) [];
        Py.strip (nth 4 (parse_name_by_commas name) [])]
         ++ product_part (nth 5 (parse_name_by_commas name) [])).
Proof.
  intros H. unfold get_group_key, product_part.
  assert (H3 : (length (parse_name_by_commas name) <? 3) = false)
    by (apply Nat.ltb_ge; lia).
  assert (H4 : (3 <? length (parse_name_by_commas name)) = true)
    by (apply Nat.ltb_lt; lia).
  assert (H5 : (4 <? length (parse_name_by_commas name)) = true)
    by (apply Nat.ltb_lt; lia).
  assert (H6 : (5 <? length (parse_name_by_commas name)) = true)
    by (apply Nat.ltb_lt; lia).
  rewrite H3, H4, H5, H6.
  destruct (nonempty _ && negb _); reflexivity.
Qed.

End GroupKey.

Section Grouping.

Lemma group_append_keyed (item : folder) (by_group : list (str * list folder)) :
  keyed by_group ->
  keyed (group_append (get_group_key (folder_name item)) item by_group).
Proof.
  induction by_group as [|[k items] rest IH]; intros H key its it; simpl.
  - intros [E|[]] Hit. inversion E as [[Ek Ei]]. rewrite <- Ei in Hit.
    destruct Hit as [<-|[]]. reflexivity.
  - destruct (Py.eqb k (get_group_key (folder_name item))) eqn:E.
    + apply PyFacts.eqb_eq in E. intros [E'|Hin] Hit.
      * inversion E' as [[Ek Ei]]. rewrite <- Ei in Hit.
        apply in_app_or in Hit as [Hit|[<-|[]]].
        -- rewrite <- Ek. apply (H k items); [left; reflexivity | exact Hit].
        -- rewrite <- Ek. symmetry. exact E.
      * apply (H key its); [right; exact Hin | exact Hit].
    + intros [E'|Hin] Hit.
      * inversion E' as [[Ek Ei]]. rewrite <- Ek.
        apply (H k its); [left; rewrite Ei; reflexivity | exact Hit].
      * apply (IH (fun k' i' x Hk Hx => H k' i' x (or_intror Hk) Hx) key its it Hin Hit).
Qed.

Lemma analyze_keyed (base_is_dir : bool) (entries : list folder) :
  keyed (analyze_and_group_invoice_folders base_is_dir entries).
Proof.
  unfold analyze_and_group_invoice_folders.
  destruct base_is_dir; cbn [negb]; [|intros key items item []].
  assert (H0 : keyed []) by (intros key items item []).
  revert H0. generalize (@nil (str * list folder)) as by_group.
  induction entries as [|item entries IH]; intros by_group H; [exact H|].
  cbn [fold_left]. apply IH.
  destruct (is_dir item && _); [|exact H].
  destruct (length _ <? 3); [exact H|].
  destruct (negb _); [exact H|].
  apply group_append_keyed. exact H.
Qed.

End Grouping.

(** C9. A folder name with exactly three comma-separated segments is its
    own group key: the key is the whole original name, it is not empty, and
    two different such names have different keys, so that the grouping of
    the folders never puts two folders with different names of three
    segments into one group. *)
Theorem get_group_key_three_segments (name : str) :
  length (parse_name_by_commas name) = 3 ->
  get_group_key name = name
  /\ get_group_key name <> []
  /\ (forall name' : str,
        length (parse_name_by_commas name') = 3 ->
        name <> name' -> get_group_key name <> get_group_key name')
  /\ (forall (base_is_dir : bool) (entries : list folder) key items item item',
        In (key, items) (analyze_and_group_invoice_folders base_is_dir entries) ->
        In item items -> In item' items ->
        folder_name item = name ->
        length (parse_name_by_commas (folder_name item')) = 3 ->
        folder_name item' = name).
Proof.
  intros H. rewrite (get_group_key_three name H).
  split; [reflexivity|]. split; [|split].
  - intros ->. vm_compute in H. discriminate.
  - intros name' H' Hne. rewrite (get_group_key_three name' H'). exact Hne.
  - intros base_is_dir entries key items item item' Hg Hi Hi' E H'.
    pose proof (analyze_keyed base_is_dir entries key items item Hg Hi) as K.
    pose proof (analyze_keyed base_is_dir entries key items item' Hg Hi') as K'.
    rewrite E, (get_group_key_three name H) in K.
    rewrite (get_group_key_three _ H') in K'. congruence.
Qed.

Lemma get_group_key_three_segments_witness :
  get_group_key (txt "A, B, C") = txt "A, B, C".
Proof.
  exact (proj1 (get_group_key_three_segments (txt "A, B, C") eq_refl)).
Defined.

(** ** The invoice list of the summary sheet *)

Lemma sorted_invoice_numbers_unfold (wb : workbook) :
  _get_sorted_invoice_numbers_from_wb wb =
  _sort_invoice_numbers_as_int
    (map title (filter (fun sh => negb (reserved_title (title sh))) (skipn 1 wb))).
Proof.
  unfold _get_sorted_invoice_numbers_from_wb, reserved_title.
  destruct (map title _); reflexivity.
Qed.

(** C2, as stated, fails: a first sheet that is an invoice is left out of
    the list although its title is not reserved. *)
Lemma sorted_invoice_numbers_skip_first_sheet :
  let wb := [plain_sheet (txt "5"); plain_sheet (txt "Total"); plain_sheet (txt "7")] in
  reserved_title (txt "5") = false
  /\ invoice_titles_any_position wb = [txt "5"; txt "7"]
  /\ _get_sorted_invoice_numbers_from_wb wb = [txt "7"]
  /\ _get_sorted_invoice_numbers_from_wb wb <> invoice_titles_any_position wb.
Proof.
  repeat split; try reflexivity. vm_compute. discriminate.
Qed.

(** C2, amended. The invoice list holds exactly the titles of the sheets
    after the first one (by position) whose trimmed, upper-cased title is
    neither TOTAL nor CONSOLIDATED INVOICE, each as often as it occurs, in
    ascending order of the integer value of the title, a title that is not
    a number counting as zero. *)
Theorem sorted_invoice_numbers_spec (wb : workbook) :
  let r := _get_sorted_invoice_numbers_from_wb wb in
  Permutation r
    (map title (filter (fun sh => negb (reserved_title (title sh))) (skipn 1 wb)))
  /\ (forall t : str,
        In t r <->
        exists i sh, 1 <= i /\ nth_error wb i = Some sh /\ title sh = t
                     /\ Py.upper (Py.strip t) <> txt "TOTAL"
                     /\ Py.upper (Py.strip t) <> txt "CONSOLIDATED INVOICE")
  /\ StronglySorted (key_le _invoice_number_sort_key) r
  /\ (forall t : str,
        _invoice_number_sort_key t =
        if Py.isdigit (Py.strip t) then Py.int (Py.strip t) else 0%N).
Proof.
  cbv zeta. rewrite sorted_invoice_numbers_unfold.
  unfold _sort_invoice_numbers_as_int.
  split; [apply SortFacts.sorted_by_perm|].
  split; [|split; [apply SortFacts.sorted_by_sorted | reflexivity]].
  intros t. rewrite SortFacts.sorted_by_In, in_map_iff. split.
  - intros (sh & Ht & Hin). apply filter_In in Hin as [Hin Hres].
    destruct wb as [|sh0 wb']; [destruct Hin|]. simpl in Hin.
    apply In_nth_error in Hin as [i Hi].
    exists (S i), sh. repeat split; [lia | exact Hi | exact Ht | |].
    + intros E. subst t. unfold reserved_title in Hres. rewrite E in Hres.
      discriminate.
    + intros E. subst t. unfold reserved_title in Hres. rewrite E in Hres.
      discriminate.
  - intros (i & sh & Hi & Hnth & Ht & H1 & H2).
    exists sh. split; [exact Ht|]. apply filter_In. split.
    + destruct i as [|i]; [lia|]. destruct wb as [|sh0 wb']; [discriminate|].
      simpl in *. eapply nth_error_In; eassumption.
    + subst t. unfold reserved_title, _SKIP_SHEET_TITLES, Py.mem.
      cbn [existsb].
      apply PyFacts.eqb_neq in H1, H2. rewrite H1, H2. reflexivity.
Qed.

(** ** Facts about the matcher

    In the patterns of the source a repeated class is always followed by
    something that cannot start with a character of the class, so that
    giving characters back never helps: the matcher takes the longest run
    of the class and goes on. *)

Module ReFacts.

Lemma greedy_det {R : Type} (p : ascii -> bool) (k : str -> str -> option R) :
  (forall t c y, p c = true -> k t (c :: y) = None) ->
  forall x taken,
    Re.greedy p k taken x = k (taken ++ Py.take_while p x) (Py.drop_while p x).
Proof.
  intros Hk. induction x as [|c x IH]; intros taken; simpl.
  - rewrite app_nil_r. reflexivity.
  - destruct (p c) eqn:E.
    + rewrite IH, <- app_assoc. simpl.
      rewrite (Hk taken c x E). destruct (k _ _); reflexivity.
    + rewrite app_nil_r. reflexivity.
Qed.

Lemma plain_plus_det (p : ascii -> bool) (pat : Re.pattern) (x : str) :
  rejects p pat ->
  Re.match_here (Re.Plain (Re.Plus p) :: pat) x =
  match x with
  | c :: _ => if p c then Re.match_here pat (Py.drop_while p x) else None
  | [] => None
  end.
Proof.
  intros H. destruct x as [|c x]; simpl; [reflexivity|].
  destruct (p c) eqn:E; [|reflexivity].
  rewrite greedy_det; [reflexivity|].
  intros t d y Hd. apply H; exact Hd.
Qed.

Lemma plain_star_det (p : ascii -> bool) (pat : Re.pattern) (x : str) :
  rejects p pat ->
  Re.match_here (Re.Plain (Re.Star p) :: pat) x =
  Re.match_here pat (Py.drop_while p x).
Proof.
  intros H. simpl. rewrite greedy_det; [reflexivity|].
  intros t d y Hd. apply H; exact Hd.
Qed.

Lemma group_plus_det (p : ascii -> bool) (pat : Re.pattern) (x : str) :
  rejects p pat ->
  Re.match_here (Re.Group (Re.Plus p) :: pat) x =
  match x with
  | c :: _ =>
      if p c then
        match Re.match_here pat (Py.drop_while p x) with
        | Some (gs, r) => Some (Py.take_while p x :: gs, r)
        | None => None
        end
      else None
  | [] => None
  end.
Proof.
  intros H. destruct x as [|c x]; simpl; [reflexivity|].
  destruct (p c) eqn:E; [|reflexivity].
  rewrite greedy_det; [reflexivity|].
  intros t d y Hd. rewrite (H d y Hd). reflexivity.
Qed.

Lemma one_step (q : ascii -> bool) (pat : Re.pattern) (x : str) :
  Re.match_here (Re.Plain (Re.One q) :: pat) x =
  match x with
  | c :: x' => if q c then Re.match_here pat x' else None
  | [] => None
  end.
Proof. reflexivity. Qed.

Lemma rejects_one (p q : ascii -> bool) (pat : Re.pattern) :
  (forall c, p c = true -> q c = false) ->
  rejects p (Re.Plain (Re.One q) :: pat).
Proof.
  intros H c y Hc. rewrite one_step, (H c Hc). reflexivity.
Qed.

Lemma rejects_plus (p q : ascii -> bool) (pat : Re.pattern) :
  (forall c, p c = true -> q c = false) ->
  rejects p (Re.Plain (Re.Plus q) :: pat).
Proof.
  intros H c y Hc. simpl. rewrite (H c Hc). reflexivity.
Qed.

Lemma rejects_star (p q : ascii -> bool) (pat : Re.pattern) :
  (forall c, p c = true -> q c = false) ->
  rejects p pat ->
  rejects p (Re.Plain (Re.Star q) :: pat).
Proof.
  intros H Hpat c y Hc. simpl. rewrite (H c Hc). apply Hpat; exact Hc.
Qed.

(** The end of the pattern: [$] alone, and [\s*$]. *)
Lemma eol_step (x : str) :
  Re.match_here [Re.Plain Re.Eol] x =
  match x with
  | [] => Some ([], [])
  | [c] => if (c =? "010")%char then Some ([], x) else None
  | _ => None
  end.
Proof. destruct x as [|c [|d x]]; reflexivity. Qed.

Lemma greedy_spaces_eol (x taken : str) :
  Re.greedy Py.is_space (fun _ rest => Re.match_here [Re.Plain Re.Eol] rest) taken x
  = if forallb Py.is_space x then Some ([], []) else None.
Proof.
  revert taken. induction x as [|c x IH]; intros taken; [reflexivity|].
  cbn [Re.greedy forallb].
  destruct (Py.is_space c) eqn:E; cbn [andb].
  - rewrite IH. destruct (forallb Py.is_space x) eqn:Ex; [reflexivity|].
    rewrite eol_step. destruct x as [|d x]; [discriminate|]. reflexivity.
  - rewrite eol_step. destruct x as [|d x]; [|reflexivity].
    destruct (Ascii.eqb_spec c "010"%char) as [->|]; [discriminate|reflexivity].
Qed.

Lemma spaces_eol (x : str) :
  Re.match_here [Re.Plain (Re.Star Py.is_space); Re.Plain Re.Eol] x =
  if forallb Py.is_space x then Some ([], []) else None.
Proof. exact (greedy_spaces_eol x []). Qed.

Lemma one_inv (q : ascii -> bool) (pat : Re.pattern) (x : str) gs r :
  Re.match_here (Re.Plain (Re.One q) :: pat) x = Some (gs, r) ->
  exists c x', x = c :: x' /\ q c = true /\ Re.match_here pat x' = Some (gs, r).
Proof.
  rewrite one_step. destruct x as [|c x']; [discriminate|].
  destruct (q c) eqn:E; [|discriminate].
  intros H. exists c, x'. auto.
Qed.

Lemma eol_inv (x : str) gs r :
  Re.match_here [Re.Plain Re.Eol] x = Some (gs, r) ->
  gs = [] /\ r = x /\ (x = [] \/ x = ["010"%char]).
Proof.
  rewrite eol_step. destruct x as [|c [|d x]]; try discriminate.
  - intros H; inversion H; auto.
  - destruct (Ascii.eqb_spec c "010"%char) as [->|]; [|discriminate].
    intros H; inversion H; auto.
Qed.

Lemma group_plus_inv (p : ascii -> bool) (pat : Re.pattern) (x : str) gs r :
  rejects p pat ->
  Re.match_here (Re.Group (Re.Plus p) :: pat) x = Some (gs, r) ->
  exists a gs' y,
    x = a ++ y /\ a <> [] /\ forallb p a = true /\ gs = a :: gs'
    /\ Re.match_here pat y = Some (gs', r).
Proof.
  intros Hrej. rewrite group_plus_det by assumption.
  destruct x as [|c x]; [discriminate|].
  destruct (p c) eqn:E; [|discriminate].
  destruct (Re.match_here pat _) as [[gs' r']|] eqn:M; [|discriminate].
  intros H; inversion H; subst.
  exists (Py.take_while p (c :: x)), gs', (Py.drop_while p (c :: x)).
  repeat split.
  - symmetry; apply PyFacts.take_drop_while.
  - simpl. rewrite E. discriminate.
  - apply PyFacts.take_while_all.
  - exact M.
Qed.

Lemma group_plus_app (p : ascii -> bool) (pat : Re.pattern) (a : str)
      (c0 : ascii) (y : str) :
  rejects p pat -> a <> [] -> forallb p a = true -> p c0 = false ->
  Re.match_here (Re.Group (Re.Plus p) :: pat) (a ++ c0 :: y) =
  match Re.match_here pat (c0 :: y) with
  | Some (gs, r) => Some (a :: gs, r)
  | None => None
  end.
Proof.
  intros Hrej Hne Ha Hc. rewrite group_plus_det by assumption.
  rewrite PyFacts.take_while_app_stop, PyFacts.drop_while_app_stop by assumption.
  destruct a as [|d a]; [congruence|]. simpl in *.
  apply andb_true_iff in Ha as [-> _]. reflexivity.
Qed.

End ReFacts.

(** ** Supporting documents: what the patterns accept *)

Module ScanFacts.
Import ReFacts.

Lemma lit_step (c : ascii) (pat : Re.pattern) (x : str) :
  Re.match_here (Re.lit c :: pat) x =
  match x with
  | d :: x' => if (c =? d)%char then Re.match_here pat x' else None
  | [] => None
  end.
Proof. reflexivity. Qed.

Lemma lits_i_inv (w : str) (pat : Re.pattern) (x : str) gs r :
  Re.match_here (Re.lits_i w ++ pat) x = Some (gs, r) ->
  exists g y, x = g ++ y /\ Py.lower g = Py.lower w
              /\ Re.match_here pat y = Some (gs, r).
Proof.
  revert x. induction w as [|c w IH]; intros x H.
  - exists [], x. auto.
  - cbn [Re.lits_i map app] in H. unfold Re.lit_i at 1 in H.
    apply one_inv in H as (d & x' & -> & Hd & H).
    apply IH in H as (g & y & -> & Hg & H).
    exists (d :: g), y. repeat split; [|exact H].
    simpl. apply Ascii.eqb_eq in Hd. rewrite Hd.
    f_equal. exact Hg.
Qed.

Lemma lits_i_app (w g : str) (pat : Re.pattern) (y : str) :
  Py.lower g = Py.lower w ->
  Re.match_here (Re.lits_i w ++ pat) (g ++ y) = Re.match_here pat y.
Proof.
  revert g. induction w as [|c w IH]; intros [|d g] H; try discriminate.
  - reflexivity.
  - simpl in H. inversion H as [[Hd Hg]].
    cbn [Re.lits_i map app]. unfold Re.lit_i at 1. rewrite one_step.
    cbn [app]. rewrite Hd, Ascii.eqb_refl. apply IH. exact Hg.
Qed.

Lemma digit_not_underscore (c : ascii) :
  Py.is_digit c = true -> ("_" =? c)%char = false.
Proof.
  intros H. destruct (Ascii.eqb_spec "_"%char c) as [<-|]; [discriminate|reflexivity].
Qed.

Lemma digit_not_dot (c : ascii) :
  Py.is_digit c = true -> ("." =? c)%char = false.
Proof.
  intros H. destruct (Ascii.eqb_spec "."%char c) as [<-|]; [discriminate|reflexivity].
Qed.

Lemma word_not_dot (c : ascii) :
  word_or_dash c = true -> ("." =? c)%char = false.
Proof.
  intros H. destruct (Ascii.eqb_spec "."%char c) as [<-|]; [discriminate|reflexivity].
Qed.

Lemma isdigit_iff (x : str) :
  Py.isdigit x = true <-> x <> [] /\ forallb Py.is_digit x = true.
Proof.
  destruct x as [|c x]; simpl.
  - split; [discriminate | intros [H _]; congruence].
  - split; [intros H; split; [discriminate | exact H] | intros [_ H]; exact H].
Qed.

Lemma ext_tail_inv (x : str) gs r :
  Re.match_here ext_tail x = Some (gs, r) ->
  exists e nl, x = e ++ nl /\ pdf_ext e /\ at_eol nl /\ gs = [] /\ r = nl.
Proof.
  unfold ext_tail. rewrite lit_step.
  destruct x as [|d x]; [discriminate|].
  destruct (Ascii.eqb_spec "."%char d) as [<-|]; [|discriminate].
  intros H. apply lits_i_inv in H as (g & y & -> & Hg & H).
  apply eol_inv in H as (-> & -> & Hnl).
  exists ("."%char :: g), y. repeat split; try assumption.
  unfold pdf_ext. simpl. rewrite Hg. reflexivity.
Qed.

Lemma ext_tail_app (e nl : str) :
  pdf_ext e -> at_eol nl -> Re.match_here ext_tail (e ++ nl) = Some ([], nl).
Proof.
  unfold pdf_ext, ext_tail. intros He Hnl.
  destruct e as [|d e]; [discriminate|].
  simpl in He. inversion He as [[Hd Hg]].
  assert (d = "."%char) as ->.
  { clear - Hd. revert Hd. by_char_cases d. }
  cbn [app]. rewrite lit_step, Ascii.eqb_refl.
  rewrite lits_i_app by exact Hg.
  rewrite eol_step. destruct Hnl as [->| ->]; reflexivity.
Qed.

Lemma ext_tail_dot (x : str) gs r :
  Re.match_here ext_tail x = Some (gs, r) -> exists y, x = "."%char :: y.
Proof.
  unfold ext_tail. rewrite lit_step.
  destruct x as [|d x]; [discriminate|].
  destruct (Ascii.eqb_spec "."%char d) as [<-|]; [|discriminate].
  intros _. eauto.
Qed.

Lemma pdf_ext_dot (e : str) : pdf_ext e -> exists y, e = "."%char :: y /\ length y = 3.
Proof.
  intros He. assert (L : length e = 4).
  { apply (f_equal (@length ascii)) in He. unfold Py.lower in He.
    rewrite length_map in He. exact He. }
  pose proof (ext_tail_app e [] He (or_introl eq_refl)) as H.
  apply ext_tail_dot in H as [y Hy]. rewrite app_nil_r in Hy. subst e.
  exists y. split; [reflexivity|]. simpl in L. lia.
Qed.

Lemma esd_pattern_eq :
  _ESD_PATTERN = Re.Group (Re.Plus word_or_dash) :: ext_tail.
Proof. reflexivity. Qed.

Lemma gtd_pattern_eq :
  _GTD_PATTERN =
  Re.lits_i (txt "GTD_")
    ++ Re.Group (Re.Plus Py.is_digit) :: Re.lit "_"
    :: Re.Group (Re.Plus Py.is_digit) :: Re.lit "_"
    :: Re.Group (Re.Plus Py.is_digit) :: ext_tail.
Proof. reflexivity. Qed.

Lemma rejects_lit (p : ascii -> bool) (c : ascii) (pat : Re.pattern) :
  (forall d, p d = true -> (c =? d)%char = false) ->
  rejects p (Re.lit c :: pat).
Proof. intros H. apply rejects_one. exact H. Qed.

(** The generic pattern accepts exactly the names of the shape
    [<token>.pdf]. *)
Lemma esd_match_iff (name : str) :
  Re.match_ _ESD_PATTERN name <> None <-> exists token, esd_shape name token.
Proof.
  unfold Re.match_. rewrite esd_pattern_eq. split.
  - destruct (Re.match_here _ name) as [[gs r]|] eqn:M; [|congruence].
    intros _. apply group_plus_inv in M as (a & gs' & y & -> & Ha & Hw & -> & M);
      [|apply rejects_lit, word_not_dot].
    apply ext_tail_inv in M as (e & nl & -> & He & Hnl & _ & _).
    exists a, e, nl. auto.
  - intros (token & e & nl & -> & Hne & Hw & He & Hnl).
    destruct (pdf_ext_dot e He) as (y & -> & _).
    cbn [app]. rewrite group_plus_app;
      [|apply rejects_lit, word_not_dot | assumption | assumption | reflexivity].
    change ("."%char :: y ++ nl) with (("."%char :: y) ++ nl).
    rewrite ext_tail_app by assumption. discriminate.
Qed.

Lemma lit_inv (c : ascii) (pat : Re.pattern) (x : str) gs r :
  Re.match_here (Re.lit c :: pat) x = Some (gs, r) ->
  exists x', x = c :: x' /\ Re.match_here pat x' = Some (gs, r).
Proof.
  rewrite lit_step. destruct x as [|d x]; [discriminate|].
  destruct (Ascii.eqb_spec c d) as [<-|]; [|discriminate].
  intros H. eauto.
Qed.

Lemma rejects_ext_tail : rejects Py.is_digit ext_tail.
Proof. apply rejects_lit, digit_not_dot. Qed.

(** The declaration pattern accepts exactly the names of the shape
    [GTD_<a>_<b>_<c>.pdf], and its groups are the three numbers. *)
Lemma gtd_match_sound (name : str) (gs : list str) :
  Re.match_ _GTD_PATTERN name = Some gs ->
  exists a b c, gs = [a; b; c] /\ gtd_shape name a b c.
Proof.
  unfold Re.match_. rewrite gtd_pattern_eq.
  destruct (Re.match_here _ name) as [[gs0 r]|] eqn:M; [|discriminate].
  intros H; inversion H; subst gs0; clear H.
  apply lits_i_inv in M as (g & y & -> & Hg & M).
  apply group_plus_inv in M as (a & gs1 & y1 & -> & Ha & Hda & -> & M);
    [|apply rejects_lit, digit_not_underscore].
  apply lit_inv in M as (y2 & -> & M).
  apply group_plus_inv in M as (b & gs2 & y3 & -> & Hb & Hdb & -> & M);
    [|apply rejects_lit, digit_not_underscore].
  apply lit_inv in M as (y4 & -> & M).
  apply group_plus_inv in M as (c & gs3 & y5 & -> & Hc & Hdc & -> & M);
    [|apply rejects_ext_tail].
  apply ext_tail_inv in M as (e & nl & -> & He & Hnl & -> & _).
  exists a, b, c. split; [reflexivity|].
  exists g, e, nl. rewrite !isdigit_iff. repeat split; auto.
Qed.

Lemma gtd_match_complete (name a b c : str) :
  gtd_shape name a b c -> Re.match_ _GTD_PATTERN name = Some [a; b; c].
Proof.
  intros (g & e & nl & -> & Hg & Ha & Hb & Hc & He & Hnl).
  apply isdigit_iff in Ha as [Ha Hda], Hb as [Hb Hdb], Hc as [Hc Hdc].
  destruct (pdf_ext_dot e He) as (y & -> & _).
  unfold Re.match_. rewrite gtd_pattern_eq.
  rewrite lits_i_app by exact Hg.
  rewrite group_plus_app;
    [|apply rejects_lit, digit_not_underscore | assumption | assumption | reflexivity].
  rewrite lit_step, Ascii.eqb_refl.
  rewrite group_plus_app;
    [|apply rejects_lit, digit_not_underscore | assumption | assumption | reflexivity].
  rewrite lit_step, Ascii.eqb_refl.
  cbn [app]. rewrite group_plus_app;
    [|apply rejects_ext_tail | assumption | assumption | reflexivity].
  change ("."%char :: y ++ nl) with (("."%char :: y) ++ nl).
  rewrite ext_tail_app by assumption. reflexivity.
Qed.

Lemma gtd_match_iff (name a b c : str) :
  Re.match_ _GTD_PATTERN name = Some [a; b; c] <-> gtd_shape name a b c.
Proof.
  split; [|apply gtd_match_complete].
  intros H. apply gtd_match_sound in H as (a' & b' & c' & E & H).
  inversion E; subst; exact H.
Qed.

Lemma lower_word (w : str) (g : str) :
  forallb Py.is_word w = true -> Py.lower g = w -> forallb word_or_dash g = true.
Proof.
  revert w. induction g as [|d g IH]; intros [|c w] Hw Hg; try discriminate.
  - reflexivity.
  - simpl in *. inversion Hg as [[Hd Hg']]. subst c.
    apply andb_true_iff in Hw as [Hc Hw].
    rewrite (IH _ Hw Hg'), andb_true_r.
    clear - Hc. revert Hc. by_char_cases d.
Qed.

Lemma digit_word (x : str) :
  forallb Py.is_digit x = true -> forallb word_or_dash x = true.
Proof.
  induction x as [|c x IH]; simpl; [reflexivity|].
  intros H. apply andb_true_iff in H as [Hc H]. rewrite (IH H), andb_true_r.
  clear - Hc. revert Hc. by_char_cases c.
Qed.

(** A declaration name is also a generic name. *)
Lemma gtd_shape_esd (name a b c : str) :
  gtd_shape name a b c -> exists token, esd_shape name token.
Proof.
  intros (g & e & nl & -> & Hg & Ha & Hb & Hc & He & Hnl).
  apply isdigit_iff in Ha as [Ha Hda], Hb as [Hb Hdb], Hc as [Hc Hdc].
  exists (g ++ a ++ "_"%char :: b ++ "_"%char :: c), e, nl.
  repeat split; try assumption.
  - repeat (rewrite <- app_assoc; cbn [app]). reflexivity.
  - destruct g; [discriminate | discriminate].
  - rewrite !forallb_app. cbn [forallb]. rewrite !forallb_app. cbn [forallb].
    rewrite (lower_word (txt "gtd_") g eq_refl Hg).
    rewrite !digit_word by assumption. reflexivity.
Qed.

Lemma drop_last_ext (token e : str) :
  length e = 4 -> Py.drop_last 4 (token ++ e) = token.
Proof.
  intros L. unfold Py.drop_last. rewrite length_app, L.
  replace (length token + 4 - 4) with (length token + 0) by lia.
  rewrite firstn_app_2. simpl. apply app_nil_r.
Qed.

End ScanFacts.

(** ** Supporting documents: classification *)

Section Scanner.
Import ScanFacts.

Lemma scan_step_classify (acc : list str * list str) (f : str * bool) :
  scan_step acc f = (fst acc ++ generic_ids f, snd acc ++ declaration_ids f).
Proof.
  destruct acc as [esd gtd], f as [name is_file].
  unfold scan_step, generic_ids, declaration_ids, classify. cbn [fst snd].
  destruct is_file; cbn [negb]; [|rewrite !app_nil_r; reflexivity].
  destruct (Py.startswith (txt "GTD_") name).
  - destruct (Re.match_ _GTD_PATTERN name) as [[|a [|b [|c [|? ?]]]]|];
      rewrite ?app_nil_r; reflexivity.
  - destruct (Re.match_ _ESD_PATTERN name); rewrite ?app_nil_r; reflexivity.
Qed.

Lemma scan_fold (fs : list (str * bool)) (acc : list str * list str) :
  fold_left scan_step fs acc =
  (fst acc ++ flat_map generic_ids fs, snd acc ++ flat_map declaration_ids fs).
Proof.
  revert acc. induction fs as [|f fs IH]; intros acc.
  - simpl. rewrite !app_nil_r. destruct acc; reflexivity.
  - cbn [fold_left flat_map]. rewrite IH, scan_step_classify. cbn [fst snd].
    rewrite <- !app_assoc. reflexivity.
Qed.

Lemma collect_classify (fd : folder) :
  is_dir fd = true ->
  _collect_esd_and_gtd_from_one_folder fd =
  (flat_map generic_ids (children fd), flat_map declaration_ids (children fd)).
Proof.
  intros H. unfold _collect_esd_and_gtd_from_one_folder. rewrite H. cbn [negb].
  apply scan_fold.
Qed.

Lemma classify_marked_declaration (name a b c : str) :
  Py.startswith (txt "GTD_") name = true ->
  gtd_shape name a b c ->
  classify name = Declaration (a ++ txt "/" ++ b ++ txt "/" ++ c).
Proof.
  intros Hs H. unfold classify. rewrite Hs.
  rewrite (gtd_match_complete _ _ _ _ H). reflexivity.
Qed.

Lemma classify_marked_other (name : str) :
  Py.startswith (txt "GTD_") name = true ->
  (forall a b c, ~ gtd_shape name a b c) ->
  classify name = Unclassified.
Proof.
  intros Hs H. unfold classify. rewrite Hs.
  destruct (Re.match_ _GTD_PATTERN name) as [gs|] eqn:M; [|reflexivity].
  apply gtd_match_sound in M as (a & b & c & _ & M). destruct (H a b c M).
Qed.

Lemma classify_generic (name : str) :
  Py.startswith (txt "GTD_") name = false ->
  (exists token, esd_shape name token) ->
  classify name = Generic (Py.drop_last 4 name).
Proof.
  intros Hs H. unfold classify. rewrite Hs.
  apply esd_match_iff in H.
  destruct (Re.match_ _ESD_PATTERN name); [reflexivity | congruence].
Qed.

Lemma classify_unmarked_other (name : str) :
  Py.startswith (txt "GTD_") name = false ->
  (forall token, ~ esd_shape name token) ->
  classify name = Unclassified.
Proof.
  intros Hs H. unfold classify. rewrite Hs.
  destruct (Re.match_ _ESD_PATTERN name) eqn:M; [|reflexivity].
  assert (E : Re.match_ _ESD_PATTERN name <> None) by congruence.
  apply esd_match_iff in E as [token E]. destruct (H token E).
Qed.

Lemma pdf_ext_length (e : str) : pdf_ext e -> length e = 4.
Proof.
  intros He. apply (f_equal (@length ascii)) in He. unfold Py.lower in He.
  rewrite length_map in He. exact He.
Qed.

End Scanner.

(** C4. The scanner goes through the files of the folder in their order
    and puts each one in at most one of the two lists: a file whose name
    begins with [GTD_] is only tried against the declaration pattern, gives
    [a/b/c] to the declaration list when it has the shape
    [GTD_<a>_<b>_<c>.pdf] and nothing otherwise, and never goes to the
    generic list; any other file of the shape [<token>.pdf] gives its name
    without the last four characters to the generic list, which is the
    token when nothing follows the extension; and a file of neither shape
    gives nothing. *)
Theorem scanner_classification :
  (forall fd : folder,
      is_dir fd = true ->
      _collect_esd_and_gtd_from_one_folder fd =
      (flat_map generic_ids (children fd), flat_map declaration_ids (children fd)))
  /\ (forall name : str,
        Py.startswith (txt "GTD_") name = true ->
        (forall a b c, gtd_shape name a b c ->
                       classify name = Declaration (a ++ txt "/" ++ b ++ txt "/" ++ c))
        /\ ((forall a b c, ~ gtd_shape name a b c) -> classify name = Unclassified)
        /\ (forall i, classify name <> Generic i))
  /\ (forall name : str,
        Py.startswith (txt "GTD_") name = false ->
        (forall token e nl,
            name = token ++ e ++ nl -> token <> [] ->
            forallb word_or_dash token = true -> pdf_ext e -> at_eol nl ->
            classify name = Generic (Py.drop_last 4 name)
            /\ (nl = [] -> Py.drop_last 4 name = token))
        /\ ((forall token, ~ esd_shape name token) -> classify name = Unclassified)
        /\ (forall i, classify name <> Declaration i)).
Proof.
  split; [exact collect_classify|]. split.
  - intros name Hs. split; [|split].
    + intros a b c. apply classify_marked_declaration; exact Hs.
    + apply classify_marked_other; exact Hs.
    + intros i. unfold classify. rewrite Hs.
      destruct (Re.match_ _GTD_PATTERN name) as [[|a [|b [|c [|? ?]]]]|]; discriminate.
  - intros name Hs. split; [|split].
    + intros token e nl Hn Hne Hw He Hnl. split.
      * apply classify_generic; [exact Hs|].
        exists token, e, nl. auto.
      * intros ->. subst name. rewrite app_nil_r.
        apply ScanFacts.drop_last_ext, pdf_ext_length, He.
    + apply classify_unmarked_other; exact Hs.
    + intros i. unfold classify. rewrite Hs.
      destruct (Re.match_ _ESD_PATTERN name); discriminate.
Qed.

Lemma scanner_classification_witness :
  _collect_esd_and_gtd_from_one_folder sample_scan_folder
  = ([txt "ab-1"], [txt "1/2/3"]).
Proof.
  exact (proj1 scanner_classification sample_scan_folder eq_refl).
Defined.

(** C10. The marker test distinguishes case and the declaration pattern
    does not: a file whose name has the declaration shape but does not
    begin with [GTD_] in upper case is not a declaration record; it is a
    generic record, identified by its name without the last four
    characters. *)
Theorem lowercase_marker_is_generic (name a b c : str) :
  gtd_shape name a b c ->
  Py.startswith (txt "GTD_") name = false ->
  Re.match_ _GTD_PATTERN name = Some [a; b; c]
  /\ classify name = Generic (Py.drop_last 4 name)
  /\ _collect_esd_and_gtd_from_one_folder (mk_folder [] true [] [(name, true)])
     = ([Py.drop_last 4 name], []).
Proof.
  intros H Hs.
  assert (Hc : classify name = Generic (Py.drop_last 4 name)).
  { apply classify_generic; [exact Hs|]. eapply ScanFacts.gtd_shape_esd; exact H. }
  split; [apply ScanFacts.gtd_match_complete; exact H|].
  split; [exact Hc|].
  rewrite collect_classify by reflexivity.
  change (children (mk_folder [] true [] [(name, true)])) with [(name, true)].
  change (flat_map generic_ids [(name, true)])
    with (match classify name with Generic i => [i] | _ => [] end ++ []).
  change (flat_map declaration_ids [(name, true)])
    with (match classify name with Declaration i => [i] | _ => [] end ++ []).
  rewrite Hc. reflexivity.
Qed.

Lemma lowercase_marker_is_generic_witness :
  classify (txt "gtd_1_2_3.pdf") = Generic (txt "gtd_1_2_3")
  /\ _collect_esd_and_gtd_from_one_folder
       (mk_folder [] true [] [(txt "gtd_1_2_3.pdf", true)])
     = ([txt "gtd_1_2_3"], []).
Proof.
  assert (H : gtd_shape (txt "gtd_1_2_3.pdf") (txt "1") (txt "2") (txt "3")).
  { exists (txt "gtd_"), (txt ".pdf"), []. repeat split. left; reflexivity. }
  exact (proj2 (lowercase_marker_is_generic _ _ _ _ H eq_refl)).
Defined.

(** ** Range strings: runs of consecutive numbers *)

Section Ranges.

Lemma run_split_app (rest : list N) (prev : N) :
  rest = fst (run_split prev rest) ++ snd (run_split prev rest).
Proof.
  revert prev. induction rest as [|y rest IH]; intros prev; simpl; [reflexivity|].
  destruct (N.eqb_spec y (prev + 1)); [|reflexivity].
  specialize (IH y). destruct (run_split y rest) as [r rem]. simpl in *.
  congruence.
Qed.

Lemma run_split_consecutive (rest : list N) (prev : N) :
  consecutive (prev :: fst (run_split prev rest)).
Proof.
  revert prev. induction rest as [|y rest IH]; intros prev; simpl; [constructor|].
  destruct (N.eqb_spec y (prev + 1)) as [->|]; [|constructor].
  specialize (IH (prev + 1)%N). destruct (run_split (prev + 1) rest) as [r rem].
  simpl in *. constructor. exact IH.
Qed.

Lemma run_split_end (rest : list N) (prev : N) :
  run_end prev rest
  = (last (prev :: fst (run_split prev rest)) 0%N, snd (run_split prev rest)).
Proof.
  revert prev. induction rest as [|y rest IH]; intros prev; simpl; [reflexivity|].
  destruct (N.eqb_spec y (prev + 1)); [|reflexivity].
  rewrite IH. destruct (run_split y rest) as [r rem]. reflexivity.
Qed.

Lemma run_split_stops (rest : list N) (prev : N) :
  snd (run_split prev rest) = []
  \/ hd 0%N (snd (run_split prev rest))
     <> (last (prev :: fst (run_split prev rest)) 0 + 1)%N.
Proof.
  revert prev. induction rest as [|y rest IH]; intros prev; simpl; [left; reflexivity|].
  destruct (N.eqb_spec y (prev + 1)) as [E|E]; [|right; exact E].
  specialize (IH y). destruct (run_split y rest) as [r rem]. exact IH.
Qed.

Lemma run_split_length (rest : list N) (prev : N) :
  length (snd (run_split prev rest)) <= length rest.
Proof.
  rewrite (run_split_app rest prev) at 2. rewrite length_app. lia.
Qed.

Lemma range_parts_runs (fuel : nat) (nums : list N) :
  range_parts fuel nums = map token_of (runs_of fuel nums).
Proof.
  revert nums. induction fuel as [|fuel IH]; intros [|start rest]; try reflexivity.
  cbn [range_parts runs_of]. rewrite run_split_end.
  destruct (run_split start rest) as [r rem]. cbn [fst snd map].
  rewrite IH. reflexivity.
Qed.

Lemma runs_of_concat (fuel : nat) (nums : list N) :
  length nums <= fuel -> concat (runs_of fuel nums) = nums.
Proof.
  revert nums. induction fuel as [|fuel IH]; intros [|start rest] H;
    try reflexivity; [simpl in H; lia|].
  cbn [runs_of].
  pose proof (run_split_app rest start) as Happ.
  pose proof (run_split_length rest start) as Hlen.
  destruct (run_split start rest) as [r rem]. cbn [fst snd] in *.
  cbn [concat]. rewrite IH by (simpl in H; lia).
  simpl. congruence.
Qed.

Lemma runs_of_head (fuel : nat) (nums : list N) :
  hd 0%N (hd [] (runs_of (S fuel) nums)) = hd 0%N nums.
Proof.
  destruct nums as [|start rest]; [reflexivity|].
  cbn [runs_of]. destruct (run_split start rest); reflexivity.
Qed.

Lemma runs_of_maximal (fuel : nat) (nums : list N) :
  maximal_runs (runs_of fuel nums).
Proof.
  revert nums. induction fuel as [|fuel IH]; intros [|start rest];
    try constructor.
  cbn [runs_of].
  pose proof (run_split_consecutive rest start) as Hc.
  pose proof (run_split_stops rest start) as Hs.
  specialize (IH (snd (run_split start rest))).
  destruct (run_split start rest) as [r rem]. cbn [fst snd] in *.
  destruct fuel as [|fuel]; [constructor; exact Hc|].
  destruct rem as [|y rem]; [constructor; exact Hc|].
  destruct Hs as [Hs|Hs]; [discriminate|].
  remember (runs_of (S fuel) (y :: rem)) as segs eqn:E.
  destruct segs as [|seg' segs].
  - constructor; exact Hc.
  - constructor; [exact Hc | | exact IH].
    pose proof (runs_of_head fuel (y :: rem)) as Hh.
    rewrite <- E in Hh. simpl in Hh. rewrite Hh. exact Hs.
Qed.

Lemma numbers_perm (l l' : list str) :
  Permutation l l' ->
  Permutation (map Py.int (filter Py.isdigit (map Py.strip l)))
              (map Py.int (filter Py.isdigit (map Py.strip l'))).
Proof.
  intros H. apply Permutation_map.
  induction H; simpl.
  - constructor.
  - destruct (Py.isdigit (Py.strip x)); [constructor|]; assumption.
  - destruct (Py.isdigit (Py.strip x)), (Py.isdigit (Py.strip y));
      try reflexivity. apply perm_swap.
  - etransitivity; eassumption.
Qed.

Lemma range_string_unfold (numbers : list str) :
  let nums :=
    sorted_by (fun n => n) (map Py.int (filter Py.isdigit (map Py.strip numbers))) in
  _invoice_numbers_to_range_string numbers =
  txt "(" ++ Py.join (txt ";") (map token_of (runs_of (length nums) nums)) ++ txt ")".
Proof.
  cbv zeta. unfold _invoice_numbers_to_range_string.
  destruct (sorted_by _ _) as [|n nums] eqn:E; [reflexivity|].
  rewrite range_parts_runs. reflexivity.
Qed.

End Ranges.

(** C6. The range string: the entries that are digit strings, as
    integers, in ascending order, cut into maximal runs of consecutive
    integers, one token per run ([start-end], or [start] for a run of one),
    the tokens joined with [;] inside parentheses. The three examples of
    the specification hold, and the result does not depend on the order of
    the entries. *)
Theorem range_string_spec :
  _invoice_numbers_to_range_string [] = txt "()"
  /\ _invoice_numbers_to_range_string [txt "7"] = txt "(7)"
  /\ _invoice_numbers_to_range_string
       [txt "43"; txt "93"; txt "95"; txt "96"; txt "97"; txt "100"]
     = txt "(43;93;95-97;100)"
  /\ (forall l l' : list str,
        Permutation l l' ->
        _invoice_numbers_to_range_string l = _invoice_numbers_to_range_string l')
  /\ (forall numbers : list str,
        exists (nums : list N) (segs : list (list N)),
          Permutation nums (map Py.int (filter Py.isdigit (map Py.strip numbers)))
          /\ StronglySorted N.le nums
          /\ concat segs = nums
          /\ maximal_runs segs
          /\ _invoice_numbers_to_range_string numbers
             = txt "(" ++ Py.join (txt ";") (map token_of segs) ++ txt ")").
Proof.
  split; [reflexivity|]. split; [reflexivity|]. split; [vm_compute; reflexivity|].
  split.
  - intros l l' H. unfold _invoice_numbers_to_range_string.
    rewrite (SortFacts.sorted_by_perm_eq _ _ (numbers_perm l l' H)). reflexivity.
  - intros numbers.
    set (nums := sorted_by (fun n => n)
                   (map Py.int (filter Py.isdigit (map Py.strip numbers)))).
    exists nums, (runs_of (length nums) nums).
    split; [apply SortFacts.sorted_by_perm|].
    split; [apply (SortFacts.sorted_by_sorted (fun n : N => n))|].
    split; [apply runs_of_concat; lia|].
    split; [apply runs_of_maximal|].
    apply range_string_unfold.
Qed.

Lemma range_string_spec_witness :
  _invoice_numbers_to_range_string [txt "100"; txt "96"; txt "43"; txt "97"; txt "95"; txt "93"]
  = _invoice_numbers_to_range_string
      [txt "43"; txt "93"; txt "95"; txt "96"; txt "97"; txt "100"].
Proof.
  apply (proj1 (proj2 (proj2 (proj2 range_string_spec)))).
  apply Permutation_sym.
  apply (Permutation_cons_app [txt "100"; txt "96"] [txt "97"; txt "95"; txt "93"]).
  apply (Permutation_cons_app [txt "100"; txt "96"; txt "97"; txt "95"] []).
  apply (Permutation_cons_app [txt "100"; txt "96"; txt "97"] []).
  apply (Permutation_cons_app [txt "100"] [txt "97"]).
  apply (Permutation_cons_app [txt "100"] []).
  apply Permutation_refl.
Defined.

(** ** Decimal numerals *)

Module IntFacts.

Lemma to_uint_nonnil (n : N) : N.to_uint n <> Decimal.Nil.
Proof.
  destruct n as [|p]; [discriminate|].
  apply DecimalPos.Unsigned.to_uint_nonnil.
Qed.

Lemma of_int_inj (n m : N) : Py.of_int n = Py.of_int m -> n = m.
Proof.
  unfold Py.of_int. intros H.
  apply (f_equal String.string_of_list_ascii) in H.
  rewrite !String.string_of_list_ascii_of_string in H.
  apply (f_equal NilZero.uint_of_string) in H.
  rewrite !NilZero.usu in H by apply to_uint_nonnil.
  inversion H as [H']. apply DecimalN.Unsigned.to_uint_inj. exact H'.
Qed.

Lemma uint_digits (d : Decimal.uint) :
  forallb Py.is_digit (String.list_ascii_of_string (NilEmpty.string_of_uint d)) = true.
Proof. induction d; simpl; auto. Qed.

Lemma of_int_digits (n : N) : forallb Py.is_digit (Py.of_int n) = true.
Proof.
  unfold Py.of_int, NilZero.string_of_uint.
  destruct (N.to_uint n); first [apply uint_digits | reflexivity].
Qed.

Lemma suffixed_inj (base : str) (n m : nat) :
  suffixed base n = suffixed base m -> n = m.
Proof.
  unfold suffixed. intros H. apply app_inv_head in H. apply app_inv_head in H.
  apply of_int_inj in H. lia.
Qed.

End IntFacts.

(** ** Copying a sheet: the title *)

Section SheetTitle.

(** The loop that looks for a free suffix runs to its end within the
    iterations given to it: the candidate it stops at is not a title of
    the workbook, and every smaller one is. *)
Lemma next_free_fresh_gen (existing : list str) (base : str) :
  forall (fuel n : nat) (l : list str),
    length l <= fuel ->
    (forall k, n <= k -> In (suffixed base k) existing -> In (suffixed base k) l) ->
    ~ In (suffixed base (next_free existing base n fuel)) existing.
Proof.
  induction fuel as [|fuel IH]; intros n l Hlen Hl; simpl.
  - intros H. apply Hl in H; [|lia]. destruct l; [destruct H | simpl in Hlen; lia].
  - destruct (Py.mem (suffixed base n) existing) eqn:M.
    + apply PyFacts.mem_In in M.
      apply (IH (S n) (remove str_eq_dec (suffixed base n) l)).
      * pose proof (remove_length_lt str_eq_dec l (suffixed base n)
                      (Hl n (Nat.le_refl n) M)). lia.
      * intros k Hk Hin. apply in_in_remove; [|apply Hl; [lia | exact Hin]].
        intros E. apply IntFacts.suffixed_inj in E. lia.
    + apply PyFacts.mem_not_In. exact M.
Qed.

Lemma next_free_fresh (existing : list str) (base : str) :
  ~ In (suffixed base (next_free existing base 1 (length existing))) existing.
Proof.
  apply (next_free_fresh_gen existing base (length existing) 1 existing); auto.
Qed.

Lemma next_free_least (existing : list str) (base : str) (fuel n k : nat) :
  n <= k < next_free existing base n fuel -> In (suffixed base k) existing.
Proof.
  revert n. induction fuel as [|fuel IH]; intros n H; simpl in H; [lia|].
  destruct (Py.mem (suffixed base n) existing) eqn:M; [|lia].
  destruct (Nat.eq_dec n k) as [->|Hne].
  - apply PyFacts.mem_In; exact M.
  - apply (IH (S n)). lia.
Qed.

Lemma new_sheet_title_length (desired : str) (existing : list str) :
  length (new_sheet_title desired existing) <= 31.
Proof.
  unfold new_sheet_title. destruct (Py.mem _ existing); apply PyFacts.take_length.
Qed.

(** Where the suffixed title fits in 31 characters, the title given to
    the new sheet is not a title of the workbook. *)
Lemma new_sheet_title_fresh (desired : str) (existing : list str) :
  let name := Py.take 31 desired in
  length (suffixed name (next_free existing name 1 (length existing))) <= 31 ->
  ~ In (new_sheet_title desired existing) existing.
Proof.
  cbv zeta. intros H. unfold new_sheet_title.
  destruct (Py.mem (Py.take 31 desired) existing) eqn:M.
  - rewrite PyFacts.take_short by exact H. apply next_free_fresh.
  - apply PyFacts.mem_not_In. exact M.
Qed.

Lemma new_sheet_title_short (t : str) (existing : list str) :
  length t <= 31 ->
  In t existing \/ new_sheet_title t existing = t.
Proof.
  intros H. unfold new_sheet_title. rewrite PyFacts.take_short by exact H.
  destruct (Py.mem t existing) eqn:M; [left; apply PyFacts.mem_In; exact M | right; reflexivity].
Qed.

End SheetTitle.

(** A title of the full length that is already taken is given to the new
    sheet once more. *)
Lemma new_sheet_title_at_limit (t : str) (existing : list str) :
  length t = 31 -> In t existing -> new_sheet_title t existing = t.
Proof.
  intros L H. unfold new_sheet_title.
  rewrite PyFacts.take_short by lia.
  apply PyFacts.mem_In in H. rewrite H.
  unfold suffixed, Py.take. rewrite firstn_app, L, Nat.sub_diag.
  rewrite firstn_all2 by lia. simpl. apply app_nil_r.
Qed.

(** ** Copying a sheet: the title the library applies *)

Section AppliedTitle.

(** The library leaves a title as it is when no sheet of the workbook has
    it, the case of letters aside. *)
Lemma avoid_duplicate_name_free (names : list str) (value : str) :
  (forall n, In n names -> Py.lower n <> Py.lower value) ->
  avoid_duplicate_name names value = value.
Proof.
  intros H. unfold avoid_duplicate_name.
  destruct (existsb _ names) eqn:E; [|reflexivity].
  apply existsb_exists in E as (n & Hn & En).
  apply PyFacts.eqb_eq in En. destruct (H n Hn En).
Qed.

Lemma letter_lower (a : ascii) :
  Py.is_upper a = true -> Py.is_lower (Py.lower_char a) = true.
Proof.
  destruct a as [[] [] [] [] [] [] [] []]; vm_compute; intros H;
    first [reflexivity | discriminate H].
Qed.

Lemma lower_char_uncased (a c : ascii) :
  Py.is_upper c || Py.is_lower c = false -> Py.lower_char a = Py.lower_char c -> a = c.
Proof.
  intros Hc E. apply orb_false_elim in Hc as [Hu Hl].
  unfold Py.lower_char at 2 in E. rewrite Hu in E.
  destruct (Py.is_upper a) eqn:Ha.
  - apply letter_lower in Ha. rewrite E, Hl in Ha. discriminate.
  - unfold Py.lower_char in E. rewrite Ha in E. exact E.
Qed.

(** A string without letters is the only one with its lower-case form. *)
Lemma uncased_one_spelling (t u : str) :
  uncased t = true -> Py.lower u = Py.lower t -> u = t.
Proof.
  revert u. induction t as [|c t IH]; intros [|a u] Ht E; try discriminate E;
    [reflexivity|].
  cbn [uncased forallb] in Ht. apply andb_prop in Ht as [Hc Ht].
  apply andb_prop in Hc as [_ Hc]. apply negb_true_iff in Hc.
  cbn [Py.lower map] in E. injection E as E1 E2.
  f_equal; [exact (lower_char_uncased a c Hc E1) | exact (IH u Ht E2)].
Qed.

Lemma create_sheet_title_nonempty (wb : workbook) (t : str) :
  t <> [] -> create_sheet_title wb t = avoid_duplicate_name (titles wb) t.
Proof. destruct t; [congruence | reflexivity]. Qed.

(** A title without letters that no sheet has yet is applied as it is. *)
Lemma create_sheet_title_uncased (wb : workbook) (t : str) :
  t <> [] -> uncased t = true -> ~ In t (titles wb) -> create_sheet_title wb t = t.
Proof.
  intros Hne Hu Hn. rewrite create_sheet_title_nonempty by exact Hne.
  apply avoid_duplicate_name_free.
  intros n Hin E. apply Hn. rewrite <- (uncased_one_spelling t n Hu E). exact Hin.
Qed.

(** A title that no sheet has, the case of letters aside, is applied as
    it is. *)
Lemma create_sheet_title_free (wb : workbook) (t : str) :
  t <> [] -> ~ In (Py.lower t) (map Py.lower (titles wb)) -> create_sheet_title wb t = t.
Proof.
  intros Hne Hn. rewrite create_sheet_title_nonempty by exact Hne.
  apply avoid_duplicate_name_free.
  intros n Hin E. apply Hn. rewrite <- E. apply in_map. exact Hin.
Qed.

Lemma lower_not_In (t : str) (l : list str) :
  ~ In (Py.lower t) (map Py.lower l) -> ~ In t l.
Proof. intros H Hin. apply H, in_map, Hin. Qed.

End AppliedTitle.

(** C3, which the code breaks. A document whose first sheet has a title of
    31 characters is copied into a workbook that already has a sheet of
    that title: the suffix [_1] is cut off again by the final truncation,
    so the title the program asks for is the title of the existing sheet.
    The collision is left to the library, which appends [1], and the new
    sheet gets a title of 32 characters. Processing a group with two such
    documents ends with a sheet whose title is longer than 31
    characters. *)
Theorem sheet_title_collision_at_limit :
  let wb := [plain_sheet (txt "Total"); plain_sheet title31] in
  let d := mk_document (txt "b.xlsx") (Some title31) CopyOk in
  length title31 = 31
  /\ new_sheet_title title31 (titles wb) = title31
  /\ In (new_sheet_title title31 (titles wb)) (titles wb)
  /\ titles (fst (copy_first_sheet_to_workbook d wb None))
     = [txt "Total"; title31; title31 ++ txt "1"]
  /\ length (last (titles (fst (copy_first_sheet_to_workbook d wb None))) []) = 32
  /\ ~ (forall t, In t (titles (fst (copy_first_sheet_to_workbook d wb None))) ->
                  length t <= 31)
  /\ exists n p dir wb',
       process_application [] twin_group sample_template [] = Some (n, p, dir)
       /\ dict_get dir p = Some wb'
       /\ titles wb'
          = [txt "Total"; txt "Consolidated invoice"; title31; title31 ++ txt "1"]
       /\ length (last (titles wb') []) = 32.
Proof.
  cbv zeta. split; [reflexivity|].
  split; [apply new_sheet_title_at_limit; [reflexivity | right; left; reflexivity]|].
  split; [vm_compute; auto|]. split; [vm_compute; reflexivity|].
  split; [vm_compute; reflexivity|]. split.
  - intros H. specialize (H (title31 ++ txt "1")).
    assert (L : length (title31 ++ txt "1") <= 31).
    { apply H. vm_compute. auto. }
    vm_compute in L. lia.
  - eexists _, _, _, _. split; [vm_compute; reflexivity|].
    split; [vm_compute; reflexivity|]. split; vm_compute; reflexivity.
Qed.

(** ** Processing a group: the documents that are copied *)

Section Process.

Lemma copy_unfold (d : document) (wb : workbook) :
  copy_first_sheet_to_workbook d wb None =
  if creates_sheet d then
    (wb ++ [mk_sheet (applied_title d wb) (Some d) []], copy_succeeds d)
  else (wb, false).
Proof.
  unfold copy_first_sheet_to_workbook, creates_sheet, copy_succeeds, applied_title,
    invoice_number.
  destruct (doc_copy d), (doc_sheet d); reflexivity.
Qed.

Lemma copy_succeeds_creates (d : document) :
  copy_succeeds d = true -> creates_sheet d = true.
Proof.
  unfold copy_succeeds, creates_sheet.
  destruct (doc_copy d), (doc_sheet d); congruence.
Qed.

Lemma copy_ok (d : document) (wb : workbook) :
  snd (copy_first_sheet_to_workbook d wb None) = copy_succeeds d.
Proof.
  rewrite copy_unfold. destruct (creates_sheet d) eqn:E; [reflexivity|].
  simpl. destruct (copy_succeeds d) eqn:S; [|reflexivity].
  apply copy_succeeds_creates in S. congruence.
Qed.

Lemma copy_new_transplant (new_paths : list (document * str)) (wb : workbook) (n : nat) :
  copy_new new_paths wb n =
  (transplant (map fst new_paths) wb,
   n + length (filter copy_succeeds (map fst new_paths))).
Proof.
  revert wb n. induction new_paths as [|[d sn] l IH]; intros wb n; simpl.
  - f_equal. lia.
  - pose proof (copy_ok d wb) as Hok.
    destruct (copy_first_sheet_to_workbook d wb None) as [wb' ok].
    simpl in Hok. subst ok. rewrite IH. simpl.
    destruct (copy_succeeds d); simpl; f_equal; lia.
Qed.

Lemma copy_all_transplant (l : list (document * folder * str)) (wb : workbook)
      (itf : list (str * folder)) (n : nat) :
  exists itf',
    copy_all l wb itf n =
    (transplant (map (fun x => fst (fst x)) l) wb, itf',
     n + length (filter copy_succeeds (map (fun x => fst (fst x)) l))).
Proof.
  revert wb itf n. induction l as [|[[d fd] sn] l IH]; intros wb itf n; simpl.
  - exists itf. f_equal. lia.
  - pose proof (copy_ok d wb) as Hok.
    destruct (copy_first_sheet_to_workbook d wb None) as [wb' ok].
    simpl in Hok. subst ok. simpl.
    destruct (copy_succeeds d); simpl.
    + destruct (IH wb' (dict_set itf (last (titles wb') []) fd) (S n)) as [itf' ->].
      exists itf'. f_equal. lia.
    + destruct (IH wb' itf n) as [itf' ->]. exists itf'. reflexivity.
Qed.

(** Copying appends: the sheets that were there stay as they are, and one
    sheet is added for every document whose copy creates one, in the order
    of the copies. *)
Lemma transplant_appends (docs : list document) (wb : workbook) :
  exists new,
    transplant docs wb = wb ++ new
    /\ map copied_from new = map Some (filter creates_sheet docs).
Proof.
  revert wb. induction docs as [|d docs IH]; intros wb; simpl.
  - exists []. rewrite app_nil_r. auto.
  - rewrite copy_unfold. destruct (creates_sheet d); simpl.
    + destruct (IH (wb ++ [mk_sheet (applied_title d wb) (Some d) []]))
        as (new & -> & Hnew).
      eexists (_ :: new). rewrite <- app_assoc. split; [reflexivity|].
      simpl. rewrite Hnew. reflexivity.
    + apply IH.
Qed.

Lemma transplant_keeps_titles (docs : list document) (wb : workbook) (t : str) :
  In t (titles wb) -> In t (titles (transplant docs wb)).
Proof.
  intros H. destruct (transplant_appends docs wb) as (new & -> & _).
  unfold titles. rewrite map_app. apply in_or_app. left. exact H.
Qed.

(** An invoice number of at most 31 characters without letters that is
    not yet a title is the title of the new sheet. *)
Lemma applied_title_plain (d : document) (wb : workbook) :
  invoice_number d <> [] ->
  length (invoice_number d) <= 31 -> uncased (invoice_number d) = true ->
  In (invoice_number d) (titles wb) \/ applied_title d wb = invoice_number d.
Proof.
  intros Hne Hlen Hu.
  destruct (new_sheet_title_short (invoice_number d) (titles wb) Hlen) as [H|H];
    [left; exact H|].
  destruct (in_dec str_eq_dec (invoice_number d) (titles wb)) as [Hin|Hn];
    [left; exact Hin | right].
  unfold applied_title. rewrite H. apply create_sheet_title_uncased; assumption.
Qed.

(** An invoice number of at most 31 characters that no sheet has as its
    title, the case of letters aside, is the title of the new sheet. *)
Lemma applied_title_free (d : document) (wb : workbook) :
  invoice_number d <> [] ->
  length (invoice_number d) <= 31 ->
  ~ In (folded_number d) (map Py.lower (titles wb)) ->
  applied_title d wb = invoice_number d.
Proof.
  intros Hne Hlen Hn. unfold applied_title.
  destruct (new_sheet_title_short (invoice_number d) (titles wb) Hlen) as [H|H].
  - destruct (lower_not_In _ _ Hn H).
  - rewrite H. apply create_sheet_title_free; assumption.
Qed.

(** After the copies, the invoice number of every document whose copy
    creates a sheet is a title of the workbook, if it is not empty and has
    at most 31 characters, none of them a letter. *)
Lemma transplant_present (docs : list document) (wb : workbook) (d : document) :
  In d docs -> creates_sheet d = true ->
  invoice_number d <> [] ->
  length (invoice_number d) <= 31 -> uncased (invoice_number d) = true ->
  In (invoice_number d) (titles (transplant docs wb)).
Proof.
  revert wb.
  induction docs as [|d0 docs IH]; intros wb Hin Hc Hne Hlen Hu; [destruct Hin|].
  simpl. destruct Hin as [->|Hin]; [|apply IH; assumption].
  apply transplant_keeps_titles. rewrite copy_unfold, Hc. cbn [fst].
  unfold titles at 1. rewrite map_app. apply in_or_app.
  destruct (applied_title_plain d wb Hne Hlen Hu) as [H|H].
  - left. exact H.
  - right. simpl. left. exact H.
Qed.

Lemma transplant_noop (docs : list document) (wb : workbook) :
  (forall d, In d docs -> creates_sheet d = false) -> transplant docs wb = wb.
Proof.
  revert wb. induction docs as [|d docs IH]; intros wb H; [reflexivity|].
  simpl. rewrite copy_unfold, (H d (or_introl eq_refl)). simpl.
  apply IH. intros d' Hd'. apply H. right. exact Hd'.
Qed.

(** The summary computation writes cells and nothing else. *)
Lemma update_first_sheets (p : sheet -> bool) (f : sheet -> sheet) (wb : workbook) :
  (forall sh, title (f sh) = title sh /\ copied_from (f sh) = copied_from sh) ->
  titles (update_first p f wb) = titles wb
  /\ map copied_from (update_first p f wb) = map copied_from wb.
Proof.
  intros Hf. induction wb as [|sh wb [IH1 IH2]]; simpl; [auto|].
  destruct (p sh); simpl.
  - destruct (Hf sh) as [-> ->]. auto.
  - unfold titles in *. simpl. rewrite IH1, IH2. auto.
Qed.

Lemma fill_rows_sheet (numbers : list str) (itf : list (str * folder)) (sh : sheet) :
  title (fill_rows numbers itf sh) = title sh
  /\ copied_from (fill_rows numbers itf sh) = copied_from sh.
Proof.
  unfold fill_rows.
  set (clear := fun t r => set_cell r _COL_GTD [] (set_cell r _COL_ESD [] (set_cell r 2 [] t))).
  assert (Hclear : forall rows t,
             title (fold_left clear rows t) = title t
             /\ copied_from (fold_left clear rows t) = copied_from t).
  { induction rows as [|r rows IH]; intros t; simpl; [auto|].
    destruct (IH (clear t r)) as [-> ->]. auto. }
  match goal with
  | |- context [fold_left ?f (combine ?a ?b) ?c] =>
      generalize (combine a b) as rows; set (step := f)
  end.
  assert (Hstep : forall t x, title (step t x) = title t
                              /\ copied_from (step t x) = copied_from t).
  { intros t [i inv_num]. unfold step.
    destruct (dict_get itf inv_num) as [fd|]; [|auto].
    destruct (_collect_esd_and_gtd_from_one_folder fd). auto. }
  intros rows. destruct (Hclear (seq 4 (length numbers)) sh) as [<- <-].
  generalize (fold_left clear (seq 4 (length numbers)) sh) as t.
  induction rows as [|x rows IH]; intros t; simpl; [auto|].
  destruct (IH (step t x)) as [-> ->]. apply Hstep.
Qed.

Lemma fill_total_sheets (wb : workbook) (itf : list (str * folder)) :
  titles (_fill_total_sheet wb itf) = titles wb
  /\ map copied_from (_fill_total_sheet wb itf) = map copied_from wb.
Proof.
  unfold _fill_total_sheet. destruct (_find_total_sheet wb); [|auto].
  destruct (_get_sorted_invoice_numbers_from_wb wb).
  - apply update_first_sheets. intros sh. auto.
  - apply update_first_sheets. intros sh. apply fill_rows_sheet.
Qed.

Lemma dict_get_set {V : Type} (d : list (str * V)) (k : str) (v : V) :
  dict_get (dict_set d k v) k = Some v.
Proof.
  unfold dict_get, dict_set. simpl. rewrite PyFacts.eqb_refl. reflexivity.
Qed.

(** The two branches of [process_application]. *)
Lemma process_application_unfold (app_name : str) (first_folder : folder)
      (rest : list folder) (template_path : template) (output_dir : directory) :
  let invoice_folders := first_folder :: rest in
  let out_path := out_path_of first_folder template_path in
  exists itf,
    process_application app_name invoice_folders template_path output_dir =
    match dict_get output_dir out_path with
    | Some wb =>
        let docs := to_copy_update (titles wb) invoice_folders in
        Some (length (filter copy_succeeds docs), out_path,
              dict_set output_dir out_path (_fill_total_sheet (transplant docs wb) itf))
    | None =>
        let docs := to_copy_create invoice_folders in
        Some (length (filter copy_succeeds docs), out_path,
              dict_set output_dir out_path
                (_fill_total_sheet (transplant docs (template_book template_path)) itf))
    end.
Proof.
  cbv zeta. unfold process_application.
  fold (out_path_of first_folder template_path).
  destruct (dict_get output_dir (out_path_of first_folder template_path)) as [wb|].
  - unfold to_copy_update.
    destruct (discover_new (titles wb) (all_paths (first_folder :: rest)) [] [])
      as [itf new_paths].
    exists itf. cbn [snd]. rewrite copy_new_transplant. reflexivity.
  - unfold to_copy_create.
    destruct (copy_all_transplant
                (sorted_by (fun x : document * folder * str => _invoice_number_sort_key (snd x))
                   (with_name (all_paths (first_folder :: rest))))
                (template_book template_path) [] 0) as [itf E].
    exists itf. rewrite E. reflexivity.
Qed.

(** With at least one folder the processing of a group returns. *)
Lemma process_application_returns (app_name : str) (invoice_folders : list folder)
      (template_path : template) (output_dir : directory) :
  invoice_folders <> [] ->
  exists n out_path output_dir',
    process_application app_name invoice_folders template_path output_dir
    = Some (n, out_path, output_dir').
Proof.
  destruct invoice_folders as [|first_folder rest]; [congruence|]. intros _.
  destruct (process_application_unfold app_name first_folder rest template_path output_dir)
    as [itf ->].
  cbv zeta. destruct (dict_get output_dir _); eauto.
Qed.

End Process.

(** ** Processing a group: which documents, in which order *)

Section Discovery.

Lemma discover_new_snd (existing : list str) (paths : list (document * folder))
      (itf : list (str * folder)) (np : list (document * str)) :
  snd (discover_new existing paths itf np) = np ++ missing_pairs existing paths.
Proof.
  revert itf np. induction paths as [|[d fd] paths IH]; intros itf np; simpl.
  - rewrite app_nil_r. reflexivity.
  - destruct (doc_sheet d) as [sn|]; [|apply IH].
    rewrite IH. destruct (Py.mem sn existing); [reflexivity|].
    rewrite <- app_assoc. reflexivity.
Qed.

Lemma missing_pairs_fst (existing : list str) (paths : list (document * folder)) :
  map fst (missing_pairs existing paths) = filter (is_missing existing) (map fst paths).
Proof.
  induction paths as [|[d fd] paths IH]; simpl; [reflexivity|].
  rewrite map_app, IH. unfold is_missing at 2.
  destruct (doc_sheet d) as [sn|]; [|reflexivity].
  destruct (Py.mem sn existing); reflexivity.
Qed.

Lemma missing_pairs_number (existing : list str) (paths : list (document * folder))
      (x : document * str) :
  In x (missing_pairs existing paths) -> snd x = invoice_number (fst x).
Proof.
  unfold missing_pairs. rewrite in_flat_map. intros ([d fd] & _ & H).
  unfold invoice_number. destruct (doc_sheet d) as [sn|] eqn:E; [|destruct H].
  destruct (Py.mem sn existing); [destruct H|].
  destruct H as [<-|[]]. simpl. rewrite E. reflexivity.
Qed.

Lemma with_name_fst (paths : list (document * folder)) :
  map (fun x : document * folder * str => fst (fst x)) (with_name paths)
  = filter is_readable (map fst paths).
Proof.
  induction paths as [|[d fd] paths IH]; simpl; [reflexivity|].
  rewrite map_app, IH. unfold is_readable at 2.
  destruct (doc_sheet d); reflexivity.
Qed.

Lemma with_name_number (paths : list (document * folder))
      (x : document * folder * str) :
  In x (with_name paths) -> snd x = invoice_number (fst (fst x)).
Proof.
  unfold with_name. rewrite in_flat_map. intros ([d fd] & _ & H).
  unfold invoice_number. destruct (doc_sheet d) as [sn|] eqn:E; [|destruct H].
  destruct H as [<-|[]]. simpl. rewrite E. reflexivity.
Qed.

(** Sorting pairs by the invoice number they carry sorts the documents
    by their invoice key. *)
Lemma sorted_map_key {A : Type} (k : A -> N) (f : A -> document) (l : list A) :
  (forall x, In x l -> k x = invoice_key (f x)) ->
  StronglySorted (key_le invoice_key) (map f (sorted_by k l)).
Proof.
  intros Hk.
  assert (Hk' : forall x, In x (sorted_by k l) -> k x = invoice_key (f x)).
  { intros x Hx. apply Hk. apply SortFacts.sorted_by_In in Hx. exact Hx. }
  pose proof (SortFacts.sorted_by_sorted k l) as Hs.
  induction Hs as [|x s Hs IH Hx]; simpl; constructor.
  - apply IH. intros y Hy. apply Hk'. right. exact Hy.
  - rewrite Forall_forall in *. intros y Hy.
    apply in_map_iff in Hy as (z & <- & Hz).
    unfold key_le in *.
    rewrite <- (Hk' x (or_introl eq_refl)), <- (Hk' z (or_intror Hz)).
    apply Hx. exact Hz.
Qed.

Lemma to_copy_update_perm (existing : list str) (invoice_folders : list folder) :
  Permutation (to_copy_update existing invoice_folders)
              (filter (is_missing existing) (map fst (all_paths invoice_folders))).
Proof.
  unfold to_copy_update. rewrite discover_new_snd. cbn [app].
  rewrite <- missing_pairs_fst. apply Permutation_map, SortFacts.sorted_by_perm.
Qed.

Lemma to_copy_update_sorted (existing : list str) (invoice_folders : list folder) :
  StronglySorted (key_le invoice_key) (to_copy_update existing invoice_folders).
Proof.
  unfold to_copy_update. apply sorted_map_key.
  intros x Hx. rewrite discover_new_snd in Hx. cbn [app] in Hx.
  unfold invoice_key. rewrite (missing_pairs_number _ _ _ Hx). reflexivity.
Qed.

Lemma to_copy_create_perm (invoice_folders : list folder) :
  Permutation (to_copy_create invoice_folders)
              (filter is_readable (map fst (all_paths invoice_folders))).
Proof.
  unfold to_copy_create. rewrite <- with_name_fst.
  apply Permutation_map, SortFacts.sorted_by_perm.
Qed.

Lemma to_copy_create_sorted (invoice_folders : list folder) :
  StronglySorted (key_le invoice_key) (to_copy_create invoice_folders).
Proof.
  unfold to_copy_create. apply sorted_map_key.
  intros x Hx. unfold invoice_key. rewrite (with_name_number _ _ Hx). reflexivity.
Qed.

Lemma filter_sorted {A : Type} (R : A -> A -> Prop) (p : A -> bool) (l : list A) :
  StronglySorted R l -> StronglySorted R (filter p l).
Proof.
  induction 1 as [|x l Hl IH Hx]; simpl; [constructor|].
  destruct (p x); [|exact IH].
  constructor; [exact IH|].
  rewrite Forall_forall in *. intros y Hy. apply filter_In in Hy as [Hy _]. auto.
Qed.

Lemma filter_succeeds_creates (l : list document) :
  filter copy_succeeds (filter creates_sheet l) = filter copy_succeeds l.
Proof.
  induction l as [|d l IH]; simpl; [reflexivity|].
  destruct (creates_sheet d) eqn:C; simpl; rewrite IH; [reflexivity|].
  destruct (copy_succeeds d) eqn:S; [|reflexivity].
  apply copy_succeeds_creates in S. congruence.
Qed.

Lemma filter_permutation {A : Type} (p : A -> bool) (l l' : list A) :
  Permutation l l' -> Permutation (filter p l) (filter p l').
Proof.
  induction 1; simpl.
  - constructor.
  - destruct (p x); [constructor|]; assumption.
  - destruct (p x), (p y); try reflexivity. apply perm_swap.
  - etransitivity; eassumption.
Qed.

Lemma creates_readable (d : document) : creates_sheet d = true -> is_readable d = true.
Proof.
  unfold creates_sheet, is_readable.
  destruct (doc_copy d), (doc_sheet d); simpl; congruence.
Qed.

Lemma creates_missing (existing : list str) (d : document) :
  creates_sheet d = true -> ~ In (invoice_number d) existing ->
  is_missing existing d = true.
Proof.
  unfold creates_sheet, is_missing, invoice_number. intros Hc Hn.
  destruct (doc_sheet d) as [sn|]; [|destruct (doc_copy d); discriminate].
  apply PyFacts.mem_not_In in Hn. rewrite Hn. reflexivity.
Qed.

Lemma missing_not_title (existing : list str) (d : document) :
  is_missing existing d = true -> ~ In (invoice_number d) existing.
Proof.
  unfold is_missing, invoice_number.
  destruct (doc_sheet d) as [sn|]; [|discriminate].
  intros H. apply PyFacts.mem_not_In. destruct (Py.mem sn existing); [discriminate|reflexivity].
Qed.

End Discovery.

(** ** The sort key as the value of a numeral *)

Section InvoiceKey.

(** Reading a numeral from the left, after digits that stand for [acc]. *)
Lemma int_uint (d : Decimal.uint) (acc : N) :
  fold_left (fun a c => (10 * a + Py.digit_val c)%N)
    (String.list_ascii_of_string (NilEmpty.string_of_uint d)) acc
  = (DecimalPos.Unsigned.of_lu (Decimal.rev d)
     + acc * 10 ^ DecimalPos.Unsigned.usize d)%N.
Proof.
  revert acc.
  induction d; intros acc;
    cbn [NilEmpty.string_of_uint String.list_ascii_of_string fold_left
         DecimalPos.Unsigned.usize];
    [cbn; lia|..];
    rewrite IHd; unfold Decimal.rev; cbn [Decimal.revapp];
    rewrite (DecimalPos.Unsigned.of_lu_revapp d (_ Decimal.Nil));
    cbn [DecimalPos.Unsigned.of_lu]; rewrite N.pow_succ_r'; fold (Decimal.rev d);
    vm_compute Py.digit_val; lia.
Qed.

(** [int(str(n)) == n] *)
Lemma int_of_int (n : N) : Py.int (Py.of_int n) = n.
Proof.
  unfold Py.int, Py.of_int.
  assert (E : NilZero.string_of_uint (N.to_uint n)
              = NilEmpty.string_of_uint (N.to_uint n)).
  { pose proof (IntFacts.to_uint_nonnil n) as H. unfold NilZero.string_of_uint.
    destruct (N.to_uint n); [congruence|reflexivity..]. }
  rewrite E, int_uint, <- DecimalPos.Unsigned.of_uint_alt.
  cbn [N.mul]. rewrite N.add_0_r.
  apply DecimalN.Unsigned.of_to.
Qed.

Lemma of_int_nonempty (n : N) : Py.of_int n <> [].
Proof.
  intros H. pose proof (int_of_int n) as E. rewrite H in E. cbn in E. subst n.
  vm_compute in H. discriminate.
Qed.

Lemma of_int_isdigit (n : N) : Py.isdigit (Py.of_int n) = true.
Proof.
  unfold Py.isdigit. pose proof (IntFacts.of_int_digits n) as H.
  pose proof (of_int_nonempty n) as Hn.
  destruct (Py.of_int n); [congruence | exact H].
Qed.

Lemma numeral_char_not_space (c : ascii) : Py.is_digit c = true -> Py.is_space c = false.
Proof.
  unfold Py.is_digit, Py.is_space. cbv zeta. generalize (Py.code c). intros m H.
  apply andb_prop in H as [H1 H2]. apply Nat.leb_le in H1, H2.
  destruct (Nat.leb_spec 9 m), (Nat.leb_spec m 13), (Nat.leb_spec 28 m),
    (Nat.leb_spec m 32); try reflexivity; lia.
Qed.

(** A numeral has no white space to strip. *)
Lemma strip_of_int (n : N) : Py.strip (Py.of_int n) = Py.of_int n.
Proof.
  pose proof (IntFacts.of_int_digits n) as H.
  pose proof (of_int_nonempty n) as Hn.
  destruct (Py.of_int n) as [|h y] eqn:E; [congruence|].
  destruct (exists_last (l := h :: y)) as (a & c & Ea); [discriminate|].
  unfold Py.strip, Py.lstrip_by.
  rewrite PyFacts.drop_while_head.
  - rewrite Ea. apply PyFacts.rstrip_by_keep. apply numeral_char_not_space.
    rewrite Ea, forallb_app in H. apply andb_prop in H as [_ H].
    cbn [forallb] in H. rewrite andb_true_r in H. exact H.
  - apply numeral_char_not_space. cbn [forallb] in H.
    apply andb_prop in H as [H _]. exact H.
Qed.

(** The sort key of the numeral of [v] is [v]. *)
Lemma sort_key_of_int (v : N) : _invoice_number_sort_key (Py.of_int v) = v.
Proof.
  unfold _invoice_number_sort_key.
  rewrite strip_of_int, of_int_isdigit. apply int_of_int.
Qed.

Lemma sorted_positions {A : Type} (R : A -> A -> Prop) (l : list A) :
  StronglySorted R l ->
  forall i j a b, i < j -> nth_error l i = Some a -> nth_error l j = Some b -> R a b.
Proof.
  induction 1 as [|x l Hl IH Hx]; intros i j a b Hij Hi Hj.
  - destruct i; discriminate.
  - destruct j as [|j]; [lia|]. cbn [nth_error] in Hj.
    destruct i as [|i].
    + cbn [nth_error] in Hi. injection Hi as <-.
      rewrite Forall_forall in Hx. apply Hx. eapply nth_error_In. exact Hj.
    + cbn [nth_error] in Hi. apply (IH i j); [lia | assumption | assumption].
Qed.

End InvoiceKey.

(** C8. In both branches the documents are copied in ascending order of
    the integer value of their invoice number: the saved workbook is the
    workbook the run started from (the existing one, or the template)
    followed by one new sheet for each document whose copy created one;
    these documents are, in the update branch, the discovered ones whose
    invoice number was not yet a title and, in the creation branch, all
    discovered ones; and the new sheets stand in ascending invoice key of
    the documents they were copied from. The key of a document is the
    integer its trimmed invoice number denotes, and zero where that is not
    a string of digits: the key of the numeral of [v] is [v], so of two
    new sheets copied from documents numbered with numerals the earlier
    one has the smaller number, or the same. The count returned is the
    number of copies that went through. *)
Theorem transplant_in_invoice_order
    (app_name : str) (invoice_folders : list folder) (template_path : template)
    (output_dir : directory) (n : nat) (out_path : str) (output_dir' : directory) :
  process_application app_name invoice_folders template_path output_dir
  = Some (n, out_path, output_dir') ->
  let found := dict_get output_dir out_path in
  let old := start_book template_path found in
  exists (wb' : workbook) (new_titles : list str) (docs : list document),
    dict_get output_dir' out_path = Some wb'
    /\ titles wb' = titles old ++ new_titles
    /\ length new_titles = length docs
    /\ map copied_from wb' = map copied_from old ++ map Some docs
    /\ Permutation docs (filter creates_sheet (wanted invoice_folders found))
    /\ StronglySorted (key_le invoice_key) docs
    /\ n = length (filter copy_succeeds docs)
    /\ (forall d : document,
          invoice_key d
          = if Py.isdigit (Py.strip (invoice_number d))
            then Py.int (Py.strip (invoice_number d)) else 0%N)
    /\ (forall (d : document) (v : N),
          invoice_number d = Py.of_int v -> invoice_key d = v)
    /\ (forall (i j : nat) (di dj : document) (vi vj : N),
          i < j -> nth_error docs i = Some di -> nth_error docs j = Some dj ->
          invoice_number di = Py.of_int vi -> invoice_number dj = Py.of_int vj ->
          (vi <= vj)%N).
Proof.
  destruct invoice_folders as [|first_folder rest]; [discriminate|].
  destruct (process_application_unfold app_name first_folder rest template_path output_dir)
    as [itf ->].
  cbv zeta. intros H.
  assert (K : forall (d : document) (v : N),
            invoice_number d = Py.of_int v -> invoice_key d = v).
  { intros d v E. unfold invoice_key. rewrite E. apply sort_key_of_int. }
  assert (O : forall docs : list document,
            StronglySorted (key_le invoice_key) docs ->
            forall (i j : nat) (di dj : document) (vi vj : N),
              i < j -> nth_error docs i = Some di -> nth_error docs j = Some dj ->
              invoice_number di = Py.of_int vi -> invoice_number dj = Py.of_int vj ->
              (vi <= vj)%N).
  { intros docs Hs i j di dj vi vj Hij Hi Hj Ei Ej.
    rewrite <- (K di vi Ei), <- (K dj vj Ej).
    exact (sorted_positions _ docs Hs i j di dj Hij Hi Hj). }
  destruct (dict_get output_dir (out_path_of first_folder template_path)) as [wb|] eqn:G;
    inversion H; subst; clear H; rewrite G; cbn [start_book wanted].
  - set (docs := to_copy_update (titles wb) (first_folder :: rest)).
    destruct (transplant_appends docs wb) as (new & E & Hnew).
    destruct (fill_total_sheets (transplant docs wb) itf) as [Ht Hc].
    exists (_fill_total_sheet (transplant docs wb) itf), (titles new),
      (filter creates_sheet docs).
    split; [apply dict_get_set|].
    split; [rewrite Ht, E; unfold titles; apply map_app|].
    split; [unfold titles;
            rewrite length_map, <- (length_map copied_from new), Hnew, length_map;
            reflexivity|].
    split; [rewrite Hc, E, map_app, Hnew; reflexivity|].
    split; [apply filter_permutation, to_copy_update_perm|].
    split; [apply filter_sorted, to_copy_update_sorted|].
    split; [rewrite filter_succeeds_creates; reflexivity|].
    split; [reflexivity|]. split; [exact K|].
    apply O, filter_sorted, to_copy_update_sorted.
  - set (docs := to_copy_create (first_folder :: rest)).
    destruct (transplant_appends docs (template_book template_path)) as (new & E & Hnew).
    destruct (fill_total_sheets (transplant docs (template_book template_path)) itf)
      as [Ht Hc].
    exists (_fill_total_sheet (transplant docs (template_book template_path)) itf),
      (titles new), (filter creates_sheet docs).
    split; [apply dict_get_set|].
    split; [rewrite Ht, E; unfold titles; apply map_app|].
    split; [unfold titles;
            rewrite length_map, <- (length_map copied_from new), Hnew, length_map;
            reflexivity|].
    split; [rewrite Hc, E, map_app, Hnew; reflexivity|].
    split; [apply filter_permutation, to_copy_create_perm|].
    split; [apply filter_sorted, to_copy_create_sorted|].
    split; [rewrite filter_succeeds_creates; reflexivity|].
    split; [reflexivity|]. split; [exact K|].
    apply O, filter_sorted, to_copy_create_sorted.
Qed.

Lemma transplant_in_invoice_order_witness :
  exists n out_path output_dir',
    process_application [] sample_group sample_template [] = Some (n, out_path, output_dir')
    /\ exists (wb' : workbook) (new_titles : list str) (docs : list document),
         dict_get output_dir' out_path = Some wb'
         /\ titles wb' = titles (template_book sample_template) ++ new_titles
         /\ length new_titles = length docs
         /\ map copied_from wb'
            = map copied_from (template_book sample_template) ++ map Some docs
         /\ Permutation docs (filter creates_sheet (wanted sample_group None))
         /\ StronglySorted (key_le invoice_key) docs
         /\ n = length (filter copy_succeeds docs)
         /\ (forall d : document,
               invoice_key d
               = if Py.isdigit (Py.strip (invoice_number d))
                 then Py.int (Py.strip (invoice_number d)) else 0%N)
         /\ (forall (d : document) (v : N),
               invoice_number d = Py.of_int v -> invoice_key d = v)
         /\ (forall (i j : nat) (di dj : document) (vi vj : N),
               i < j -> nth_error docs i = Some di -> nth_error docs j = Some dj ->
               invoice_number di = Py.of_int vi -> invoice_number dj = Py.of_int vj ->
               (vi <= vj)%N).
Proof.
  eexists _, _, _. split.
  - vm_compute. reflexivity.
  - apply (transplant_in_invoice_order [] sample_group sample_template []).
    vm_compute. reflexivity.
Defined.

(** ** Processing a group twice *)

(** C1, which the code breaks. The update branch looks for the invoice
    number, as it stands in the document, among the sheet titles, but the
    sheet of the document does not always carry it. An invoice number
    that differs from a title only in the case of letters is given to the
    library as it is, and the library appends a number; an invoice number
    of more than 31 characters is cut to 31 characters. In both cases the
    second run on the same folders does not find the invoice number among
    the titles: it copies the document again, returns the count one and
    saves a workbook with one sheet more. *)
Theorem second_run_copies_again :
  let case_group :=
    [mk_folder (txt "A, B, C, App") true
       [mk_document (txt "a.xlsx") (Some (txt "inv-7")) CopyOk;
        mk_document (txt "b.xlsx") (Some (txt "INV-7")) CopyOk] []] in
  let long_title := repeat "B"%char 32 in
  let long_group :=
    [mk_folder (txt "A, B, C, App") true
       [mk_document (txt "a.xlsx") (Some long_title) CopyOk] []] in
  (exists p dir1 wb1 dir2 wb2,
      process_application [] case_group sample_template [] = Some (2, p, dir1)
      /\ dict_get dir1 p = Some wb1
      /\ titles wb1
         = [txt "Total"; txt "Consolidated invoice"; txt "inv-7"; txt "INV-71"]
      /\ process_application [] case_group sample_template dir1 = Some (1, p, dir2)
      /\ dict_get dir2 p = Some wb2
      /\ titles wb2 = titles wb1 ++ [txt "INV-72"]
      /\ ~ (exists dir2', process_application [] case_group sample_template dir1
                          = Some (0, p, dir2')))
  /\ (exists p dir1 wb1 dir2 wb2,
        process_application [] long_group sample_template [] = Some (1, p, dir1)
        /\ dict_get dir1 p = Some wb1
        /\ titles wb1
           = [txt "Total"; txt "Consolidated invoice"; repeat "B"%char 31]
        /\ process_application [] long_group sample_template dir1 = Some (1, p, dir2)
        /\ dict_get dir2 p = Some wb2
        /\ titles wb2 = titles wb1 ++ [repeat "B"%char 31 ++ txt "1"]
        /\ ~ (exists dir2', process_application [] long_group sample_template dir1
                            = Some (0, p, dir2'))).
Proof.
  cbv zeta. split.
  - eexists _, _, _, _, _. split; [vm_compute; reflexivity|].
    split; [vm_compute; reflexivity|]. split; [vm_compute; reflexivity|].
    split; [vm_compute; reflexivity|]. split; [vm_compute; reflexivity|].
    split; [vm_compute; reflexivity|].
    intros [dir2' H]. vm_compute in H. discriminate.
  - eexists _, _, _, _, _. split; [vm_compute; reflexivity|].
    split; [vm_compute; reflexivity|]. split; [vm_compute; reflexivity|].
    split; [vm_compute; reflexivity|]. split; [vm_compute; reflexivity|].
    split; [vm_compute; reflexivity|].
    intros [dir2' H]. vm_compute in H. discriminate.
Qed.

(** ** The name of the shipment workbook: its first part *)

Module NameFacts.

Lemma build_unfold (t f : str) (inv : option (list str)) :
  let cleaned :=
    Py.strip_chars (txt ",_")
      (sanitize (Py.join (txt ", ")
                   (filter nonempty ([first_part_of t inv] ++ rest_parts t f)))) in
  build_upload_table_filename t f inv =
  match cleaned with
  | [] => txt "upload_table"
  | _ => cleaned
  end.
Proof. destruct inv as [[|n l]|]; reflexivity. Qed.

Lemma join_cons (sep x : str) (l : list str) :
  Py.join sep (x :: l) = x ++ concat (map (fun p => sep ++ p) l).
Proof.
  revert x. induction l as [|y l IH]; intros x.
  - simpl. rewrite app_nil_r. reflexivity.
  - change (Py.join sep (x :: y :: l)) with (x ++ sep ++ Py.join sep (y :: l)).
    rewrite IH. simpl. rewrite <- app_assoc. reflexivity.
Qed.

Lemma drop_while_app_last (p : ascii -> bool) (l : str) (c : ascii) :
  Py.drop_while p (l ++ [c]) =
  if forallb p l then (if p c then [] else [c]) else Py.drop_while p l ++ [c].
Proof.
  induction l as [|d l IH]; simpl; [reflexivity|].
  destruct (p d); simpl; [exact IH | reflexivity].
Qed.

Lemma forallb_rev (p : ascii -> bool) (l : str) : forallb p (rev l) = forallb p l.
Proof.
  induction l as [|d l IH]; simpl; [reflexivity|].
  rewrite forallb_app, IH. simpl. rewrite andb_true_r. apply andb_comm.
Qed.

Lemma rstrip_cons (p : ascii -> bool) (c : ascii) (x : str) :
  Py.rstrip_by p (c :: x) =
  if forallb p (c :: x) then [] else c :: Py.rstrip_by p x.
Proof.
  unfold Py.rstrip_by. simpl rev. rewrite drop_while_app_last, forallb_rev.
  simpl forallb. destruct (forallb p x) eqn:Hx.
  - rewrite andb_true_r. destruct (p c); [reflexivity|].
    rewrite <- (forallb_rev p x) in Hx.
    rewrite (PyFacts.drop_while_all _ _ Hx). reflexivity.
  - rewrite andb_false_r, rev_app_distr. reflexivity.
Qed.

Lemma rstrip_head (p : ascii -> bool) (c : ascii) (x : str) :
  Py.rstrip_by p (c :: x) = [] \/ exists r, Py.rstrip_by p (c :: x) = c :: r.
Proof.
  rewrite rstrip_cons. destruct (forallb p (c :: x)); [left | right; eexists]; reflexivity.
Qed.

Lemma rstrip_last (p : ascii -> bool) (x a : str) (c : ascii) :
  Py.rstrip_by p x = a ++ [c] -> p c = false.
Proof.
  unfold Py.rstrip_by. intros H.
  apply (f_equal (@rev ascii)) in H. rewrite rev_involutive, rev_app_distr in H.
  simpl in H. eapply PyFacts.drop_while_stops. exact H.
Qed.

Lemma rstrip_incl (p : ascii -> bool) (x : str) (c : ascii) :
  In c (Py.rstrip_by p x) -> In c x.
Proof.
  induction x as [|d x IH]; [intros []|].
  rewrite rstrip_cons. destruct (forallb p (d :: x)); [intros []|].
  intros [->|H]; [left; reflexivity | right; auto].
Qed.

Lemma drop_while_incl (p : ascii -> bool) (x : str) (c : ascii) :
  In c (Py.drop_while p x) -> In c x.
Proof.
  induction x as [|d x IH]; simpl; [auto|].
  destruct (p d); [right; auto | auto].
Qed.

Lemma strip_incl (x : str) (c : ascii) : In c (Py.strip x) -> In c x.
Proof.
  unfold Py.strip, Py.lstrip_by. intros H.
  apply rstrip_incl in H. apply drop_while_incl in H. exact H.
Qed.

(** A stripped string that is not empty begins and ends with a character
    that is not white space. *)
Lemma strip_ends (x : str) :
  Py.strip x = []
  \/ exists h y, Py.strip x = h :: y /\ Py.is_space h = false
                 /\ exists a c, Py.strip x = a ++ [c] /\ Py.is_space c = false.
Proof.
  unfold Py.strip, Py.lstrip_by.
  destruct (Py.drop_while Py.is_space x) as [|h u] eqn:E; [left; reflexivity|].
  pose proof (PyFacts.drop_while_stops _ _ _ _ E) as Hh.
  right. rewrite rstrip_cons. simpl forallb. rewrite Hh. simpl.
  exists h, (Py.rstrip_by Py.is_space u). split; [reflexivity|]. split; [exact Hh|].
  destruct (exists_last (l := h :: Py.rstrip_by Py.is_space u)) as (a & c & Ea);
    [discriminate|].
  exists a, c. split; [exact Ea|].
  apply (rstrip_last Py.is_space (h :: u) a c).
  rewrite rstrip_cons. simpl forallb. rewrite Hh. simpl. exact Ea.
Qed.

Lemma strip_fixed_ends (h : ascii) (y a : str) (c : ascii) :
  h :: y = a ++ [c] -> Py.is_space h = false -> Py.is_space c = false ->
  Py.strip (h :: y) = h :: y.
Proof.
  intros E Hh Hc. unfold Py.strip, Py.lstrip_by.
  rewrite PyFacts.drop_while_head by exact Hh.
  rewrite E. apply PyFacts.rstrip_by_keep. exact Hc.
Qed.

Lemma strip_idem (x : str) : Py.strip (Py.strip x) = Py.strip x.
Proof.
  destruct (strip_ends x) as [->|(h & y & E & Hh & a & c & Ea & Hc)]; [reflexivity|].
  rewrite E in *. eapply strip_fixed_ends; eassumption.
Qed.

Lemma split_segment_no_sep (sep : ascii) (x seg : str) :
  In seg (Py.split sep x) -> ~ In sep seg.
Proof.
  revert seg. induction x as [|c x IH]; intros seg; simpl.
  - intros [<-|[]]. auto.
  - destruct (Ascii.eqb_spec c sep) as [->|Hne].
    + intros [<-|H]; [auto | apply IH; exact H].
    + destruct (Py.split sep x) as [|s segs] eqn:E.
      * intros [<-|[]]. intros [H|[]]. congruence.
      * intros [<-|H].
        -- intros [H|H]; [congruence|]. apply (IH s); [left; reflexivity | exact H].
        -- apply IH. right. exact H.
Qed.

Lemma forallb_join (p : ascii -> bool) (sep : str) (l : list str) :
  forallb p sep = true -> (forall x, In x l -> forallb p x = true) ->
  forallb p (Py.join sep l) = true.
Proof.
  intros Hsep. induction l as [|x l IH]; intros H; [reflexivity|].
  rewrite join_cons, forallb_app, (H x (or_introl eq_refl)). simpl.
  clear IH. induction l as [|y l IH]; [reflexivity|].
  simpl. rewrite !forallb_app, Hsep, (H y (or_intror (or_introl eq_refl))). simpl.
  apply IH. intros z [->|Hz]; apply H; [left | right; right]; auto.
Qed.

End NameFacts.

Section OutputName.
Import NameFacts.

Lemma sanitize_plain (x : str) : forallb plain_char x = true -> sanitize x = x.
Proof.
  induction x as [|c x IH]; simpl; [reflexivity|].
  intros H. apply andb_true_iff in H as [Hc Hx]. rewrite (IH Hx).
  unfold plain_char in Hc. apply andb_true_iff in Hc as [Hc _].
  apply negb_true_iff in Hc. rewrite Hc. reflexivity.
Qed.

Lemma plain_no_comma (x : str) : forallb plain_char x = true -> ~ In ","%char x.
Proof.
  intros H Hin. rewrite forallb_forall in H. specialize (H _ Hin). discriminate.
Qed.

Lemma sanitize_app (x y : str) : sanitize (x ++ y) = sanitize x ++ sanitize y.
Proof. apply map_app. Qed.

Lemma strip_chars_strippable (x : str) :
  Py.strip_chars (txt ",_") x = Py.rstrip_by strippable (Py.drop_while strippable x).
Proof. reflexivity. Qed.

Lemma cleaned_shape (fp : str) (rest : list str) :
  keeps_shape fp ->
  Py.strip_chars (txt ",_")
    (sanitize (Py.join (txt ", ") (filter nonempty ([fp] ++ rest))))
  = fp ++ Py.rstrip_by strippable
            (sanitize (concat (map (fun p => txt ", " ++ p) (filter nonempty rest)))).
Proof.
  intros (Hplain & h & y & a & c & -> & Ea & Hh & Hc & _ & _).
  cbn [app filter nonempty]. rewrite join_cons, sanitize_app.
  rewrite (sanitize_plain _ Hplain), strip_chars_strippable.
  cbn [app]. rewrite PyFacts.drop_while_head by exact Hh.
  set (Z := sanitize _).
  change (h :: y ++ Z) with ((h :: y) ++ Z). rewrite Ea, <- app_assoc. cbn [app].
  rewrite PyFacts.rstrip_by_app by exact Hc.
  replace (a ++ c :: Py.rstrip_by strippable Z)
    with ((a ++ [c]) ++ Py.rstrip_by strippable Z)
    by (rewrite <- app_assoc; reflexivity).
  rewrite <- Ea. reflexivity.
Qed.

Lemma build_with_first_part (t f : str) (inv : option (list str)) :
  keeps_shape (first_part_of t inv) ->
  build_upload_table_filename t f inv = first_part_of t inv ++ name_tail t f.
Proof.
  intros H.
  pose proof (build_unfold t f inv) as E. cbv zeta in E. rewrite E. clear E.
  rewrite (cleaned_shape _ _ H). fold (name_tail t f).
  destruct H as (_ & h & y & _ & _ & -> & _). reflexivity.
Qed.

Lemma name_tail_head (t f : str) :
  name_tail t f = [] \/ exists r, name_tail t f = ","%char :: r.
Proof.
  unfold name_tail.
  destruct (filter nonempty (rest_parts t f)) as [|p l]; [left; reflexivity|].
  cbn [map concat]. change (txt ", " ++ p) with (","%char :: " "%char :: p).
  cbn [app]. unfold sanitize. cbn [map].
  change (illegal_char ",") with false. cbv iota.
  apply rstrip_head.
Qed.

Lemma parse_with_tail (fp tail : str) :
  keeps_shape fp ->
  tail = [] \/ (exists r, tail = ","%char :: r) ->
  first_part (fp ++ tail) = fp
  /\ later_parts (fp ++ tail)
     = match tail with [] => [] | _ :: r => parse_name_by_commas r end.
Proof.
  intros (Hplain & h & y & a & c & Eh & Ea & _ & _ & Hh & Hc) Htail.
  assert (Hstrip : Py.strip fp = fp).
  { rewrite Eh. eapply strip_fixed_ends; [rewrite <- Eh; exact Ea | exact Hh | exact Hc]. }
  unfold first_part, later_parts, parse_name_by_commas.
  destruct Htail as [->|[r ->]].
  - rewrite app_nil_r, (PyFacts.split_no_sep _ _ (plain_no_comma _ Hplain)).
    simpl. rewrite Hstrip. auto.
  - rewrite (PyFacts.split_app_sep _ _ _ (plain_no_comma _ Hplain)).
    simpl. rewrite Hstrip. auto.
Qed.

Lemma digit_plain (x : str) : forallb Py.is_digit x = true -> forallb plain_char x = true.
Proof.
  induction x as [|c x IH]; simpl; [reflexivity|].
  intros H. apply andb_true_iff in H as [Hc H]. rewrite (IH H), andb_true_r.
  clear - Hc. revert Hc. by_char_cases c.
Qed.

Lemma range_token_plain (a b : N) : forallb plain_char (range_token a b) = true.
Proof.
  unfold range_token. destruct (a =? b)%N.
  - apply digit_plain, IntFacts.of_int_digits.
  - rewrite !forallb_app.
    rewrite (digit_plain _ (IntFacts.of_int_digits a)).
    rewrite (digit_plain _ (IntFacts.of_int_digits b)). reflexivity.
Qed.

Lemma range_parts_plain (fuel : nat) (nums : list N) (x : str) :
  In x (range_parts fuel nums) -> forallb plain_char x = true.
Proof.
  revert nums. induction fuel as [|fuel IH]; intros [|start rest]; simpl; try tauto.
  destruct (run_end start rest) as [e rest']. intros [<-|H].
  - apply range_token_plain.
  - eapply IH; exact H.
Qed.

Lemma range_string_shape (numbers : list str) :
  exists body,
    _invoice_numbers_to_range_string numbers = "("%char :: body
    /\ forallb plain_char body = true.
Proof.
  unfold _invoice_numbers_to_range_string.
  destruct (sorted_by _ _) as [|n nums]; [exists (txt ")"); auto|].
  eexists. split; [reflexivity|].
  rewrite forallb_app. rewrite forallb_join; [reflexivity | reflexivity |].
  intros x. apply range_parts_plain.
Qed.

Lemma numbers_first_part_shape (t : str) (numbers : list str) :
  numbers <> [] -> keeps_shape (first_part_of t (Some numbers)).
Proof.
  intros Hne. destruct numbers as [|n l]; [congruence|]. cbn [first_part_of].
  destruct (range_string_shape (n :: l)) as (body & -> & Hbody).
  set (count := Py.of_int (N.of_nat (length (n :: l)))).
  split.
  - cbn [app forallb]. rewrite !forallb_app, Hbody.
    unfold count. rewrite (digit_plain _ (IntFacts.of_int_digits _)). reflexivity.
  - exists "("%char, (body ++ txt " " ++ count ++ txt " pcs."),
      (("("%char :: body) ++ txt " " ++ count ++ txt " pcs"), "."%char.
    repeat split; try reflexivity.
    rewrite <- !app_assoc. reflexivity.
Qed.

Lemma template_first_part_shape (t : str) (inv : option (list str)) :
  inv = None \/ inv = Some [] ->
  first_part t <> [] ->
  forallb (fun c => negb (illegal_char c)) (first_part t) = true ->
  hd " "%char (first_part t) <> "_"%char ->
  last (first_part t) " "%char <> "_"%char ->
  first_part_of t inv = first_part t /\ keeps_shape (first_part t).
Proof.
  intros Hinv Hne Hlegal Hhd Hlast.
  assert (E : first_part_of t inv = first_part t).
  { unfold first_part_of, first_part.
    destruct Hinv as [-> | ->]; destruct (parse_name_by_commas t) eqn:P; try reflexivity;
      exfalso; apply (f_equal (@length str)) in P; rewrite parse_length in P;
      pose proof (PyFacts.split_nonnil "," t); destruct (Py.split "," t); simpl in *; congruence. }
  split; [exact E|].
  unfold first_part, parse_name_by_commas in *.
  destruct (Py.split "," t) as [|seg segs] eqn:S;
    [exfalso; eapply PyFacts.split_nonnil; exact S|].
  cbn [map hd] in *.
  assert (Hcomma : ~ In ","%char (Py.strip seg)).
  { intros H. apply strip_incl in H.
    apply (split_segment_no_sep "," t seg); [rewrite S; left; reflexivity | exact H]. }
  destruct (strip_ends seg) as [H|(h & y & Eh & Hh & a & c & Ea & Hc)]; [congruence|].
  split.
  - rewrite forallb_forall in *. intros ch Hch. unfold plain_char.
    rewrite (Hlegal ch Hch). simpl. apply negb_true_iff.
    destruct (Ascii.eqb_spec ch ","%char) as [->|]; [tauto | reflexivity].
  - exists h, y, a, c. repeat split; try assumption.
    + rewrite Eh in Hhd, Hcomma. simpl in Hhd.
      unfold strippable. simpl.
      destruct (Ascii.eqb_spec h ","%char) as [->|]; [exfalso; apply Hcomma; left; reflexivity|].
      destruct (Ascii.eqb_spec h "_"%char) as [->|]; [congruence | reflexivity].
    + rewrite Ea in Hlast, Hcomma. rewrite last_last in Hlast.
      unfold strippable. simpl.
      destruct (Ascii.eqb_spec c ","%char) as [->|];
        [exfalso; apply Hcomma, in_or_app; right; left; reflexivity|].
      destruct (Ascii.eqb_spec c "_"%char) as [->|]; [congruence | reflexivity].
Qed.

End OutputName.

(** C7, as stated, fails for an invoice list that is supplied but empty:
    the first part stays the template's, it is not the encoded range with
    the count. *)
Lemma empty_invoice_list_keeps_template_part :
  first_part (build_upload_table_filename example_template_name example_folder_name (Some []))
  = txt "() pcs."
  /\ first_part (build_upload_table_filename example_template_name example_folder_name
                   (Some []))
     <> _invoice_numbers_to_range_string [] ++ txt " " ++ Py.of_int 0 ++ txt " pcs.".
Proof.
  split; [vm_compute; reflexivity|]. vm_compute. discriminate.
Qed.

(** C7, amended. For the example of the specification the name has the
    first two parts [() pcs.] and [LI], and with the invoice numbers 43
    and 93 only the first part changes, to [(43;93) 2 pcs.]. In general,
    with a non-empty list of invoice numbers the first part of the name is
    the encoded range, the count and [pcs.]; with no list or an empty one
    it is the first part of the template name, provided that part is not
    empty, has no character that is replaced in file names, and neither
    begins nor ends with an underscore; and under the same proviso the
    later parts are the same with and without invoice numbers. *)
Theorem output_name_first_part :
  parse_name_by_commas
    (build_upload_table_filename example_template_name example_folder_name None)
  = [txt "() pcs."; txt "LI"; txt "Add. VP-CH-2510-23"; txt "ZLPK (TS)"; txt "pine"]
  /\ parse_name_by_commas
       (build_upload_table_filename example_template_name example_folder_name
          (Some [txt "43"; txt "93"]))
     = [txt "(43;93) 2 pcs."; txt "LI"; txt "Add. VP-CH-2510-23"; txt "ZLPK (TS)"; txt "pine"]
  /\ (forall (t f : str) (numbers : list str),
        numbers <> [] ->
        first_part (build_upload_table_filename t f (Some numbers))
        = _invoice_numbers_to_range_string numbers
            ++ txt " " ++ Py.of_int (N.of_nat (length numbers)) ++ txt " pcs.")
  /\ (forall (t f : str) (inv : option (list str)),
        inv = None \/ inv = Some [] ->
        first_part t <> [] ->
        forallb (fun c => negb (illegal_char c)) (first_part t) = true ->
        hd " "%char (first_part t) <> "_"%char ->
        last (first_part t) " "%char <> "_"%char ->
        first_part (build_upload_table_filename t f inv) = first_part t)
  /\ (forall (t f : str) (numbers : list str),
        numbers <> [] ->
        first_part t <> [] ->
        forallb (fun c => negb (illegal_char c)) (first_part t) = true ->
        hd " "%char (first_part t) <> "_"%char ->
        last (first_part t) " "%char <> "_"%char ->
        later_parts (build_upload_table_filename t f (Some numbers))
        = later_parts (build_upload_table_filename t f None)).
Proof.
  split; [vm_compute; reflexivity|]. split; [vm_compute; reflexivity|].
  split; [|split].
  - intros t f numbers Hne.
    pose proof (numbers_first_part_shape t numbers Hne) as Hs.
    rewrite (build_with_first_part t f _ Hs).
    destruct (parse_with_tail _ _ Hs (name_tail_head t f)) as [-> _].
    destruct numbers; [congruence | reflexivity].
  - intros t f inv Hinv Hne Hlegal Hhd Hlast.
    destruct (template_first_part_shape t inv Hinv Hne Hlegal Hhd Hlast) as [E Hs].
    rewrite <- E in Hs. rewrite (build_with_first_part t f _ Hs).
    destruct (parse_with_tail _ _ Hs (name_tail_head t f)) as [-> _]. exact E.
  - intros t f numbers Hnum Hne Hlegal Hhd Hlast.
    pose proof (numbers_first_part_shape t numbers Hnum) as Hs.
    destruct (template_first_part_shape t None (or_introl eq_refl) Hne Hlegal Hhd Hlast)
      as [E Hs'].
    rewrite <- E in Hs'.
    rewrite (build_with_first_part t f _ Hs), (build_with_first_part t f _ Hs').
    destruct (parse_with_tail _ _ Hs (name_tail_head t f)) as [_ ->].
    destruct (parse_with_tail _ _ Hs' (name_tail_head t f)) as [_ ->].
    reflexivity.
Qed.

Lemma output_name_first_part_witness :
  first_part (build_upload_table_filename example_template_name example_folder_name
                (Some [txt "43"; txt "93"]))
  = txt "(43;93) 2 pcs."
  /\ first_part (build_upload_table_filename example_template_name example_folder_name None)
     = txt "() pcs."
  /\ later_parts (build_upload_table_filename example_template_name example_folder_name
                    (Some [txt "43"; txt "93"]))
     = later_parts (build_upload_table_filename example_template_name example_folder_name
                      None).
Proof.
  destruct output_name_first_part as (_ & _ & H1 & H2 & H3).
  split; [|split].
  - apply (H1 example_template_name example_folder_name [txt "43"; txt "93"]).
    discriminate.
  - apply (H2 example_template_name example_folder_name None);
      [left; reflexivity | vm_compute; discriminate | vm_compute; reflexivity
       | vm_compute; discriminate | vm_compute; discriminate].
  - apply (H3 example_template_name example_folder_name [txt "43"; txt "93"]);
      [discriminate | vm_compute; discriminate | vm_compute; reflexivity
       | vm_compute; discriminate | vm_compute; discriminate].
Defined.

(** ** Pack qualifiers *)

Module PackFacts.
Import ReFacts ScanFacts NameFacts.

Lemma space_not_digit (c : ascii) : Py.is_space c = true -> Py.is_digit c = false.
Proof. by_char_cases c. Qed.

Lemma digit_not_space (c : ascii) : Py.is_digit c = true -> Py.is_space c = false.
Proof. by_char_cases c. Qed.

Lemma space_not_p (c : ascii) :
  Py.is_space c = true -> (Py.lower_char c =? Py.lower_char "p")%char = false.
Proof. by_char_cases c. Qed.

Lemma digit_not_p (c : ascii) :
  Py.is_digit c = true -> (Py.lower_char c =? Py.lower_char "p")%char = false.
Proof. by_char_cases c. Qed.

Lemma rejects_pack_tail_space : rejects Py.is_space pack_tail.
Proof. apply rejects_one, space_not_p. Qed.

Lemma rejects_pack_tail_digit : rejects Py.is_digit pack_tail.
Proof. apply rejects_one, digit_not_p. Qed.

Lemma suffix_pattern_eq :
  _PACK_SUFFIX_PATTERN =
  Re.Plain (Re.Plus Py.is_space) :: Re.Plain (Re.Plus Py.is_digit)
    :: Re.Plain (Re.Star Py.is_space) :: pack_tail.
Proof. reflexivity. Qed.

Lemma pack_pattern_eq :
  _PACK_PATTERN =
  Re.Plain (Re.Plus Py.is_digit) :: Re.Plain (Re.Star Py.is_space)
    :: Re.lits_i (txt "pack") ++ [Re.Plain Re.Eol].
Proof. reflexivity. Qed.

(** The suffix pattern at the start of [x], step by step. *)
Lemma suffix_scan (x : str) :
  Re.match_here _PACK_SUFFIX_PATTERN x =
  match x with
  | c :: _ =>
      if Py.is_space c then
        match Py.drop_while Py.is_space x with
        | c1 :: _ =>
            if Py.is_digit c1 then
              Re.match_here pack_tail
                (Py.drop_while Py.is_space
                   (Py.drop_while Py.is_digit (Py.drop_while Py.is_space x)))
            else None
        | [] => None
        end
      else None
  | [] => None
  end.
Proof.
  rewrite suffix_pattern_eq.
  rewrite plain_plus_det by (apply rejects_plus, space_not_digit).
  destruct x as [|c x]; [reflexivity|].
  destruct (Py.is_space c); [|reflexivity].
  rewrite plain_plus_det
    by (apply rejects_star; [apply digit_not_space | apply rejects_pack_tail_digit]).
  destruct (Py.drop_while Py.is_space (c :: x)) as [|c1 x1]; [reflexivity|].
  destruct (Py.is_digit c1); [|reflexivity].
  rewrite plain_star_det by apply rejects_pack_tail_space. reflexivity.
Qed.

Lemma pack_tail_app (pk w3 : str) :
  Py.lower pk = txt "pack" -> forallb Py.is_space w3 = true ->
  Re.match_here pack_tail (pk ++ w3) = Some ([], []).
Proof.
  intros Hpk Hw. unfold pack_tail.
  rewrite lits_i_app by exact Hpk. rewrite spaces_eol, Hw. reflexivity.
Qed.

Lemma pack_tail_inv (x : str) gs r :
  Re.match_here pack_tail x = Some (gs, r) ->
  exists pk w3, x = pk ++ w3 /\ Py.lower pk = txt "pack"
                /\ forallb Py.is_space w3 = true /\ gs = [] /\ r = [].
Proof.
  unfold pack_tail. intros H.
  apply lits_i_inv in H as (pk & w3 & -> & Hpk & H).
  rewrite spaces_eol in H. destruct (forallb Py.is_space w3) eqn:Hw; [|discriminate].
  inversion H; subst. exists pk, w3. auto.
Qed.

Lemma drop_while_app_all (p : ascii -> bool) (a y : str) :
  forallb p a = true -> Py.drop_while p (a ++ y) = Py.drop_while p y.
Proof.
  induction a as [|c a IH]; simpl; [reflexivity|].
  intros H. apply andb_true_iff in H as [-> H]. auto.
Qed.

(** The characters of [pack], in any case. *)
Lemma pack_chars (pk : str) :
  Py.lower pk = txt "pack" ->
  exists c1 c2 c3 c4,
    pk = [c1; c2; c3; c4]
    /\ Py.is_space c1 = false /\ Py.is_digit c1 = false
    /\ Py.is_space c4 = false.
Proof.
  destruct pk as [|c1 [|c2 [|c3 [|c4 [|c5 pk]]]]]; try discriminate.
  intros H. inversion H as [[H1 H2 H3 H4]].
  exists c1, c2, c3, c4. repeat split.
  - clear - H1. revert H1. by_char_cases c1.
  - clear - H1. revert H1. by_char_cases c1.
  - clear - H4. revert H4. by_char_cases c4.
Qed.

Lemma isdigit_cons (d : str) :
  Py.isdigit d = true ->
  exists c d', d = c :: d' /\ Py.is_digit c = true /\ forallb Py.is_digit d = true.
Proof.
  intros H. apply isdigit_iff in H as [Hne H].
  destruct d as [|c d']; [congruence|].
  exists c, d'. split; [reflexivity|]. split; [|exact H].
  simpl in H. apply andb_true_iff in H as [H _]. exact H.
Qed.

Lemma pack_head (pk : str) :
  Py.lower pk = txt "pack" ->
  exists c1 pk', pk = c1 :: pk' /\ Py.is_space c1 = false /\ Py.is_digit c1 = false.
Proof.
  intros H. destruct (pack_chars pk H) as (c1 & c2 & c3 & c4 & -> & H1 & H2 & _).
  eauto.
Qed.

(** Scanning over white space, an integer and white space again. *)
Lemma suffix_scan_pieces (w1 d w2 y : str) :
  w1 <> [] -> forallb Py.is_space w1 = true ->
  Py.isdigit d = true -> forallb Py.is_space w2 = true ->
  Py.drop_while Py.is_space y = y -> Py.drop_while Py.is_digit y = y ->
  Re.match_here _PACK_SUFFIX_PATTERN (w1 ++ d ++ w2 ++ y) = Re.match_here pack_tail y.
Proof.
  intros Hne Hw1 Hd Hw2 Hy1 Hy2.
  destruct (isdigit_cons d Hd) as (c & d' & Ed & Hc & Hd').
  assert (E1 : Py.drop_while Py.is_space (w1 ++ d ++ w2 ++ y) = d ++ w2 ++ y).
  { rewrite drop_while_app_all by exact Hw1. rewrite Ed. cbn [app].
    apply PyFacts.drop_while_head, digit_not_space, Hc. }
  assert (E3 : Py.drop_while Py.is_space (w2 ++ y) = y).
  { rewrite drop_while_app_all by exact Hw2. exact Hy1. }
  assert (E2 : Py.drop_while Py.is_digit (d ++ w2 ++ y) = w2 ++ y).
  { rewrite drop_while_app_all by exact Hd'.
    destruct w2 as [|s2 w2]; [exact Hy2|].
    simpl in Hw2. apply andb_true_iff in Hw2 as [Hs2 _].
    apply PyFacts.drop_while_head, space_not_digit, Hs2. }
  rewrite suffix_scan, E1, E2, E3.
  destruct w1 as [|s w1]; [congruence|].
  simpl in Hw1. apply andb_true_iff in Hw1 as [Hs _].
  cbn [app]. rewrite Hs. rewrite Ed. cbn [app]. rewrite Hc. reflexivity.
Qed.

(** The suffix pattern accepts exactly the pack qualifiers, and consumes
    the whole string. *)
Lemma suffix_match_complete (q : str) :
  pack_qualifier q -> Re.match_here _PACK_SUFFIX_PATTERN q = Some ([], []).
Proof.
  intros (w1 & d & w2 & pk & w3 & -> & Hne & Hw1 & Hd & Hw2 & Hpk & Hw3).
  destruct (pack_head pk Hpk) as (c1 & pk' & E & Hs1 & Hd1).
  rewrite suffix_scan_pieces; try assumption.
  - apply pack_tail_app; assumption.
  - rewrite E. apply PyFacts.drop_while_head. exact Hs1.
  - rewrite E. apply PyFacts.drop_while_head. exact Hd1.
Qed.

Lemma suffix_match_sound (x : str) gs r :
  Re.match_here _PACK_SUFFIX_PATTERN x = Some (gs, r) ->
  pack_qualifier x /\ gs = [] /\ r = [].
Proof.
  rewrite suffix_scan.
  destruct x as [|c x0]; [discriminate|].
  destruct (Py.is_space c) eqn:Hc; [|discriminate].
  set (x := c :: x0) in *.
  destruct (Py.drop_while Py.is_space x) as [|c1 x1'] eqn:E1; [discriminate|].
  destruct (Py.is_digit c1) eqn:Hc1; [|discriminate].
  set (x1 := c1 :: x1') in *.
  intros H. apply pack_tail_inv in H as (pk & w3 & E3 & Hpk & Hw3 & -> & ->).
  split; [|auto].
  exists (Py.take_while Py.is_space x), (Py.take_while Py.is_digit x1),
    (Py.take_while Py.is_space (Py.drop_while Py.is_digit x1)), pk, w3.
  split.
  - rewrite <- E3, !PyFacts.take_drop_while. rewrite <- E1.
    symmetry. apply PyFacts.take_drop_while.
  - repeat split; try assumption; try apply PyFacts.take_while_all.
    + unfold x. simpl. rewrite Hc. discriminate.
    + apply isdigit_iff. split; [|apply PyFacts.take_while_all].
      unfold x1. simpl. rewrite Hc1. discriminate.
Qed.

Lemma isdigit_rev (d : str) : Py.isdigit d = true -> Py.isdigit (rev d) = true.
Proof.
  rewrite !isdigit_iff. intros [Hne H]. split.
  - intros E. apply (f_equal (@rev ascii)) in E. rewrite rev_involutive in E.
    simpl in E. congruence.
  - rewrite forallb_rev. exact H.
Qed.

Lemma drop_space_digits (d y : str) :
  Py.isdigit d = true -> Py.drop_while Py.is_space (d ++ y) = d ++ y.
Proof.
  intros H. destruct (isdigit_cons d H) as (c & d' & -> & Hc & _).
  cbn [app]. apply PyFacts.drop_while_head, digit_not_space, Hc.
Qed.

Lemma drop_digit_spaces (w y : str) :
  w <> [] -> forallb Py.is_space w = true ->
  Py.drop_while Py.is_digit (w ++ y) = w ++ y.
Proof.
  intros Hne H. destruct w as [|s w]; [congruence|].
  simpl in H. apply andb_true_iff in H as [Hs _].
  cbn [app]. apply PyFacts.drop_while_head, space_not_digit, Hs.
Qed.

Lemma rev_nonempty (x : str) : x <> [] -> rev x <> [].
Proof.
  intros H E. apply (f_equal (@rev ascii)) in E. rewrite rev_involutive in E.
  simpl in E. congruence.
Qed.

Lemma before_qualifier_app (pre q : str) :
  pack_qualifier q ->
  before_qualifier (rev (pre ++ q)) = Py.drop_while Py.is_space (rev pre).
Proof.
  intros (w1 & d & w2 & pk & w3 & -> & Hne & Hw1 & Hd & Hw2 & Hpk & Hw3).
  destruct (pack_chars pk Hpk) as (c1 & c2 & c3 & c4 & -> & _ & _ & Hs4).
  pose proof (isdigit_rev d Hd) as Hrd.
  unfold before_qualifier.
  rewrite !rev_app_distr, <- !app_assoc.
  rewrite drop_while_app_all by (rewrite forallb_rev; exact Hw3).
  cbn [rev app]. rewrite PyFacts.drop_while_head by exact Hs4. cbn [skipn].
  rewrite drop_while_app_all by (rewrite forallb_rev; exact Hw2).
  rewrite drop_space_digits by exact Hrd.
  rewrite drop_while_app_all by (apply isdigit_iff in Hrd; apply Hrd).
  rewrite drop_digit_spaces
    by (try apply rev_nonempty; try rewrite forallb_rev; assumption).
  apply drop_while_app_all. rewrite forallb_rev. exact Hw1.
Qed.

Lemma drop_while_nil (p : ascii -> bool) (x : str) :
  Py.drop_while p x = [] -> forallb p x = true.
Proof.
  induction x as [|c x IH]; simpl; [reflexivity|].
  destruct (p c); [exact IH | discriminate].
Qed.

(** Before a pack qualifier the suffix pattern can only start in white
    space. *)
Lemma suffix_match_prefix (pre q : str) :
  pack_qualifier q ->
  Re.match_here _PACK_SUFFIX_PATTERN (pre ++ q) <> None ->
  forallb Py.is_space pre = true.
Proof.
  intros Hq H.
  destruct (Re.match_here _ (pre ++ q)) as [[gs r]|] eqn:M; [|congruence].
  apply suffix_match_sound in M as [M _].
  pose proof (before_qualifier_app [] (pre ++ q) M) as E1.
  pose proof (before_qualifier_app pre q Hq) as E2.
  cbn [app rev Py.drop_while] in E1. rewrite E1 in E2.
  symmetry in E2. apply drop_while_nil in E2. rewrite forallb_rev in E2. exact E2.
Qed.

(** Deleting the matches of a pattern. *)
Lemma sub_skip (pat : Re.pattern) (x : str) (n : nat) :
  length x <= n -> Re.sub_empty_from pat n x = [].
Proof.
  revert n. induction x as [|c x IH]; intros n H; [reflexivity|].
  destruct n as [|n]; [simpl in H; lia|]. simpl. apply IH. simpl in H. lia.
Qed.

Lemma sub_match_all (pat : Re.pattern) (x : str) gs :
  Re.match_here pat x = Some (gs, []) -> Re.sub_empty pat x = [].
Proof.
  intros H. destruct x as [|c x]; [reflexivity|].
  unfold Re.sub_empty. cbn [Re.sub_empty_from]. rewrite H.
  cbn [length Nat.sub]. apply sub_skip. lia.
Qed.

Lemma sub_prefix (pat : Re.pattern) (pre rest : str) :
  (forall v u, pre = v ++ u -> u <> [] -> Re.match_here pat (u ++ rest) = None) ->
  Re.sub_empty pat (pre ++ rest) = pre ++ Re.sub_empty pat rest.
Proof.
  unfold Re.sub_empty. induction pre as [|c pre IH]; intros H; [reflexivity|].
  cbn [app Re.sub_empty_from].
  assert (H0 : Re.match_here pat (c :: pre ++ rest) = None)
    by (apply (H [] (c :: pre) eq_refl); discriminate).
  rewrite H0, IH; [reflexivity|].
  intros v u E Hu. apply (H (c :: v) u); [rewrite E; reflexivity | exact Hu].
Qed.

Lemma rstrip_all (p : ascii -> bool) (x : str) :
  forallb p x = true -> Py.rstrip_by p x = [].
Proof.
  intros H. unfold Py.rstrip_by.
  rewrite PyFacts.drop_while_all by (rewrite forallb_rev; exact H). reflexivity.
Qed.

Lemma rstrip_decomp (p : ascii -> bool) (x : str) :
  exists z, x = Py.rstrip_by p x ++ z /\ forallb p z = true.
Proof.
  induction x as [|c x (z & E & Hz)].
  - exists []. auto.
  - rewrite rstrip_cons. destruct (forallb p (c :: x)) eqn:A.
    + exists (c :: x). auto.
    + exists z. split; [|exact Hz]. cbn [app]. rewrite <- E. reflexivity.
Qed.

Lemma drop_while_app_keep (p : ascii -> bool) (x z : str) (c : ascii) (y : str) :
  Py.drop_while p x = c :: y -> Py.drop_while p (x ++ z) = (c :: y) ++ z.
Proof.
  induction x as [|d x IH]; simpl; [discriminate|].
  destruct (p d); [exact IH|]. intros H. inversion H; subst. reflexivity.
Qed.

Lemma pack_match_token (tok : str) :
  pack_token tok -> is_some (Re.match_ _PACK_PATTERN tok) = true.
Proof.
  intros (d & w & pk & -> & Hd & Hw & Hpk).
  destruct (isdigit_cons d Hd) as (c & d' & Ed & Hc & Hd').
  destruct (pack_head pk Hpk) as (c1 & pk' & Epk & Hs1 & Hd1).
  unfold Re.match_. rewrite pack_pattern_eq.
  rewrite plain_plus_det
    by (apply rejects_star; [apply digit_not_space | apply rejects_one, digit_not_p]).
  rewrite drop_while_app_all by exact Hd'.
  assert (E : Py.drop_while Py.is_digit (w ++ pk) = w ++ pk).
  { destruct w as [|s w].
    - cbn [app]. rewrite Epk. apply PyFacts.drop_while_head. exact Hd1.
    - apply drop_digit_spaces; [discriminate | exact Hw]. }
  rewrite E, Ed. cbn [app]. rewrite Hc.
  rewrite plain_star_det by (apply rejects_one, space_not_p).
  rewrite drop_while_app_all by exact Hw.
  assert (E2 : Py.drop_while Py.is_space pk = pk)
    by (rewrite Epk; apply PyFacts.drop_while_head; exact Hs1).
  rewrite E2, <- (app_nil_r pk).
  rewrite lits_i_app by exact Hpk. reflexivity.
Qed.

Lemma before_qualifier_token (d w pk : str) :
  Py.isdigit d = true -> forallb Py.is_space w = true -> Py.lower pk = txt "pack" ->
  before_qualifier (rev (d ++ w ++ pk)) = [].
Proof.
  intros Hd Hw Hpk.
  destruct (pack_chars pk Hpk) as (c1 & c2 & c3 & c4 & -> & _ & _ & Hs4).
  pose proof (isdigit_rev d Hd) as Hrd.
  unfold before_qualifier. rewrite !rev_app_distr, <- !app_assoc.
  cbn [rev app]. rewrite PyFacts.drop_while_head by exact Hs4. cbn [skipn].
  rewrite drop_while_app_all by (rewrite forallb_rev; exact Hw).
  rewrite <- (app_nil_r (rev d)).
  rewrite drop_space_digits by exact Hrd.
  rewrite app_nil_r.
  rewrite (PyFacts.drop_while_all Py.is_digit (rev d)
             (proj2 (proj1 (isdigit_iff _) Hrd))).
  reflexivity.
Qed.

(** A pack token holds no pack qualifier, is not changed by stripping, and
    is accepted by the pack pattern. *)
Lemma pack_token_sub (tok : str) :
  pack_token tok -> Re.sub_empty _PACK_SUFFIX_PATTERN tok = tok.
Proof.
  intros (d & w & pk & -> & Hd & Hw & Hpk).
  destruct (isdigit_cons d Hd) as (c & d' & Ed & Hc & _).
  rewrite <- (app_nil_r (d ++ w ++ pk)) at 1.
  rewrite sub_prefix; [apply app_nil_r|].
  intros v u E Hu. rewrite app_nil_r.
  destruct (Re.match_here _PACK_SUFFIX_PATTERN u) as [[gs r]|] eqn:M; [|reflexivity].
  exfalso. apply suffix_match_sound in M as [Hq _].
  pose proof (before_qualifier_app v u Hq) as B.
  rewrite <- E, before_qualifier_token in B by assumption.
  symmetry in B. apply drop_while_nil in B. rewrite forallb_rev in B.
  destruct v as [|s v].
  - cbn [app] in E. subst u.
    destruct Hq as (w1 & d1 & w2 & pk1 & w3 & Eq & Hne & Hw1 & _).
    destruct w1 as [|s w1]; [congruence|].
    simpl in Hw1. apply andb_true_iff in Hw1 as [Hs _].
    rewrite Ed in Eq. cbn [app] in Eq. inversion Eq; subst.
    apply digit_not_space in Hc. congruence.
  - simpl in B. apply andb_true_iff in B as [Hs _].
    rewrite Ed in E. cbn [app] in E. inversion E; subst.
    apply digit_not_space in Hc. congruence.
Qed.

Lemma pack_token_strip (tok : str) : pack_token tok -> Py.strip tok = tok /\ tok <> [].
Proof.
  intros (d & w & pk & -> & Hd & Hw & Hpk).
  destruct (isdigit_cons d Hd) as (c & d' & -> & Hc & _).
  destruct (pack_chars pk Hpk) as (c1 & c2 & c3 & c4 & -> & _ & _ & Hs4).
  split; [|discriminate]. cbn [app].
  apply (strip_fixed_ends c _ (c :: d' ++ w ++ [c1; c2; c3]) c4).
  - cbn [app]. rewrite <- !app_assoc. reflexivity.
  - apply digit_not_space, Hc.
  - exact Hs4.
Qed.

End PackFacts.

Section PackInsensitive.
Import NameFacts PackFacts.

Lemma strip_pack_suffix_nonempty (x : str) :
  x <> [] -> _strip_pack_suffix x = Py.strip (Re.sub_empty _PACK_SUFFIX_PATTERN x).
Proof. destruct x; [congruence | reflexivity]. Qed.

Lemma product_part_token (seg : str) :
  pack_token (Py.strip seg) -> product_part seg = [].
Proof.
  intros H. unfold product_part.
  destruct (pack_token_strip _ H) as [Hs Hne].
  rewrite strip_pack_suffix_nonempty by exact Hne.
  rewrite (pack_token_sub _ H), Hs, (pack_match_token _ H).
  rewrite andb_false_r. reflexivity.
Qed.

Lemma qualifier_rstrip (pre w1 d w2 pk w3 : str) :
  Py.lower pk = txt "pack" -> forallb Py.is_space w3 = true ->
  Py.rstrip_by Py.is_space (pre ++ w1 ++ d ++ w2 ++ pk ++ w3)
  = pre ++ w1 ++ d ++ w2 ++ pk.
Proof.
  intros Hpk Hw3.
  destruct (pack_chars pk Hpk) as (c1 & c2 & c3 & c4 & -> & _ & _ & Hs4).
  replace (pre ++ w1 ++ d ++ w2 ++ [c1; c2; c3; c4] ++ w3)
    with ((pre ++ w1 ++ d ++ w2 ++ [c1; c2; c3]) ++ c4 :: w3)
    by (rewrite <- !app_assoc; reflexivity).
  rewrite PyFacts.rstrip_by_app by exact Hs4.
  rewrite rstrip_all by exact Hw3.
  rewrite <- !app_assoc. reflexivity.
Qed.

(** Whatever pack qualifier ends the segment, the segment gives the key
    what it would give without it. *)
Lemma product_part_qualified (p q : str) :
  pack_qualifier q -> product_part (p ++ q) = product_core p.
Proof.
  intros (w1 & d & w2 & pk & w3 & -> & Hne & Hw1 & Hd & Hw2 & Hpk & Hw3).
  destruct (Py.drop_while Py.is_space p) as [|h y] eqn:L.
  - (* the segment is the qualifier alone *)
    assert (Hp : forallb Py.is_space p = true) by (apply drop_while_nil; exact L).
    assert (S : Py.strip (p ++ w1 ++ d ++ w2 ++ pk ++ w3) = d ++ w2 ++ pk).
    { unfold Py.strip, Py.lstrip_by.
      rewrite drop_while_app_all by exact Hp.
      rewrite drop_while_app_all by exact Hw1.
      rewrite drop_space_digits by exact Hd.
      apply (qualifier_rstrip [] [] d w2 pk w3); assumption. }
    rewrite product_part_token by (rewrite S; exists d, w2, pk; auto).
    unfold product_core, Py.strip, Py.lstrip_by. rewrite L. reflexivity.
  - (* something stands before the qualifier *)
    pose proof (PyFacts.drop_while_stops _ _ _ _ L) as Hh.
    assert (Sp : Py.strip p = Py.rstrip_by Py.is_space (h :: y))
      by (unfold Py.strip, Py.lstrip_by; rewrite L; reflexivity).
    destruct (rstrip_decomp Py.is_space (h :: y)) as (wq & Ewq & Hwq).
    rewrite <- Sp in Ewq.
    destruct (strip_ends p) as [E0|(h' & y' & Eh & _ & a & c & Ea & Hc)].
    { exfalso. rewrite Sp, rstrip_cons in E0. simpl in E0. rewrite Hh in E0.
      discriminate. }
    set (q' := (wq ++ w1) ++ d ++ w2 ++ pk ++ []).
    assert (Hq' : pack_qualifier q').
    { exists (wq ++ w1), d, w2, pk, []. repeat split; try assumption.
      - destruct wq; [exact Hne | discriminate].
      - rewrite forallb_app, Hwq, Hw1. reflexivity. }
    assert (S : Py.strip (p ++ w1 ++ d ++ w2 ++ pk ++ w3) = Py.strip p ++ q').
    { unfold Py.strip at 1, Py.lstrip_by.
      rewrite (drop_while_app_keep _ _ _ _ _ L), Ewq, <- app_assoc.
      replace (Py.strip p ++ wq ++ w1 ++ d ++ w2 ++ pk ++ w3)
        with ((Py.strip p ++ wq) ++ w1 ++ d ++ w2 ++ pk ++ w3)
        by (rewrite <- app_assoc; reflexivity).
      rewrite qualifier_rstrip by assumption.
      unfold q'. rewrite !app_nil_r, <- !app_assoc. reflexivity. }
    assert (Sub : Re.sub_empty _PACK_SUFFIX_PATTERN (Py.strip p ++ q') = Py.strip p).
    { rewrite sub_prefix.
      - rewrite (sub_match_all _ _ _ (suffix_match_complete _ Hq')).
        apply app_nil_r.
      - intros v u E Hu.
        destruct (Re.match_here _PACK_SUFFIX_PATTERN (u ++ q')) eqn:M; [|reflexivity].
        exfalso.
        assert (Hsp : forallb Py.is_space u = true)
          by (apply (suffix_match_prefix u q' Hq'); congruence).
        destruct (exists_last Hu) as (u' & c' & ->).
        rewrite Ea, app_assoc in E. apply app_inj_tail in E as [_ <-].
        rewrite forallb_app in Hsp. simpl in Hsp. rewrite Hc in Hsp.
        rewrite andb_false_r in Hsp. discriminate. }
    unfold product_part. rewrite S.
    rewrite strip_pack_suffix_nonempty by (rewrite Eh; discriminate).
    rewrite Sub, strip_idem. reflexivity.
Qed.

Lemma qualifier_no_comma (q : str) : pack_qualifier q -> ~ In ","%char q.
Proof.
  intros (w1 & d & w2 & pk & w3 & -> & _ & Hw1 & Hd & Hw2 & Hpk & Hw3) H.
  assert (A : forall p x, (forall c, p c = true -> c <> ","%char) ->
                          forallb p x = true -> ~ In ","%char x).
  { intros p x Hp Hx Hin. rewrite forallb_forall in Hx.
    apply (Hp _ (Hx _ Hin)). reflexivity. }
  assert (Sp : forall c, Py.is_space c = true -> c <> ","%char)
    by (intros c Hc ->; discriminate).
  assert (Dg : forall c, Py.is_digit c = true -> c <> ","%char)
    by (intros c Hc ->; discriminate).
  apply ScanFacts.isdigit_iff in Hd as [_ Hd].
  destruct (pack_chars pk Hpk) as (c1 & c2 & c3 & c4 & -> & _).
  apply in_app_or in H as [H|H]; [exact (A _ _ Sp Hw1 H)|].
  apply in_app_or in H as [H|H]; [exact (A _ _ Dg Hd H)|].
  apply in_app_or in H as [H|H]; [exact (A _ _ Sp Hw2 H)|].
  apply in_app_or in H as [H|H]; [|exact (A _ _ Sp Hw3 H)].
  simpl in H. destruct H as [->|[->|[->|[->|[]]]]]; vm_compute in Hpk; discriminate.
Qed.

(** The parts of a name whose sixth segment holds no comma. *)
Lemma parse_six (head seg : str) :
  length (Py.split "," head) = 5 -> ~ In ","%char seg ->
  parse_name_by_commas (head ++ ","%char :: seg)
  = parse_name_by_commas head ++ [Py.strip seg]
  /\ length (parse_name_by_commas head) = 5.
Proof.
  intros H5 Hseg. unfold parse_name_by_commas.
  rewrite PyFacts.split_app, (PyFacts.split_no_sep _ _ Hseg), map_app, length_map.
  auto.
Qed.

Lemma get_group_key_sixth (head seg : str) :
  length (Py.split "," head) = 5 -> ~ In ","%char seg ->
  get_group_key (head ++ ","%char :: seg)
  = Py.join (txt " | ")
      ([nth 3 (parse_name_by_commas head) []; nth 4 (parse_name_by_commas head) []]
         ++ product_part seg).
Proof.
  intros H5 Hseg. destruct (parse_six head seg H5 Hseg) as [E L].
  rewrite get_group_key_six by (rewrite E, length_app, L; simpl; lia).
  rewrite E.
  rewrite !app_nth1 by lia.
  rewrite app_nth2, L by lia. cbn [Nat.sub nth].
  assert (P : product_part (Py.strip seg) = product_part seg)
    by (unfold product_part; rewrite strip_idem; reflexivity).
  rewrite P. f_equal. f_equal. f_equal.
  unfold parse_name_by_commas.
  destruct (Py.split "," head) as [|s0 [|s1 [|s2 [|s3 [|s4 l]]]]]; try discriminate.
  cbn [map nth]. rewrite strip_idem. reflexivity.
Qed.

End PackInsensitive.

Section FifthSegment.
Import NameFacts.

(** With the same other segments, fifth segments that differ after
    trimming give different keys. *)
Lemma get_group_key_fifth (head s5 s5' seg : str) :
  length (Py.split "," head) = 4 ->
  ~ In ","%char s5 -> ~ In ","%char s5' -> ~ In ","%char seg ->
  Py.strip s5 <> Py.strip s5' ->
  get_group_key ((head ++ ","%char :: s5) ++ ","%char :: seg)
  <> get_group_key ((head ++ ","%char :: s5') ++ ","%char :: seg).
Proof.
  intros H4 H5 H5' Hseg Hne.
  assert (L : forall s, ~ In ","%char s ->
                        length (Py.split "," (head ++ ","%char :: s)) = 5
                        /\ nth 3 (parse_name_by_commas (head ++ ","%char :: s)) []
                           = nth 3 (parse_name_by_commas head) []
                        /\ nth 4 (parse_name_by_commas (head ++ ","%char :: s)) []
                           = Py.strip s).
  { intros s Hs. unfold parse_name_by_commas.
    rewrite PyFacts.split_app, (PyFacts.split_no_sep _ _ Hs).
    rewrite length_app, H4, map_app.
    assert (Lm : length (map Py.strip (Py.split "," head)) = 4)
      by (rewrite length_map; exact H4).
    split; [reflexivity|]. split.
    - apply app_nth1. lia.
    - rewrite app_nth2 by lia. rewrite Lm. reflexivity. }
  destruct (L s5 H5) as (A1 & A2 & A3), (L s5' H5') as (B1 & B2 & B3).
  rewrite !get_group_key_sixth by assumption.
  rewrite A2, A3, B2, B3. cbn [app].
  rewrite !join_cons. cbn [map concat].
  intros E. apply app_inv_head in E. rewrite <- !app_assoc in E.
  apply app_inv_head in E. apply app_inv_tail in E. exact (Hne E).
Qed.

Lemma product_part_dropped (seg : str) :
  let product := _strip_pack_suffix (Py.strip seg) in
  product = [] \/ pack_token product -> product_part seg = [].
Proof.
  cbv zeta. unfold product_part. intros [H|H].
  - rewrite H. reflexivity.
  - rewrite (PackFacts.pack_match_token _ H). rewrite andb_false_r. reflexivity.
Qed.

End FifthSegment.

Section MoreSegments.
Import NameFacts.

Lemma get_group_key_five (name : str) :
  length (parse_name_by_commas name) = 5 ->
  get_group_key name
  = Py.join (txt " | ")
      [nth 3 (parse_name_by_commas name) [];
       Py.strip (nth 4 (parse_name_by_commas name) [])].
Proof. intros H. unfold get_group_key. rewrite H. reflexivity. Qed.

(** The parts of a name with one more segment. *)
Lemma parse_snoc (head seg : str) :
  ~ In ","%char seg ->
  parse_name_by_commas (head ++ ","%char :: seg)
  = parse_name_by_commas head ++ [Py.strip seg].
Proof.
  intros Hseg. unfold parse_name_by_commas.
  rewrite PyFacts.split_app, (PyFacts.split_no_sep _ _ Hseg), map_app. reflexivity.
Qed.

(** The key of a name of five segments: the fourth and the fifth. *)
Lemma get_group_key_fifth_last (head s5 : str) :
  length (Py.split "," head) = 4 -> ~ In ","%char s5 ->
  get_group_key (head ++ ","%char :: s5)
  = Py.join (txt " | ") [nth 3 (parse_name_by_commas head) []; Py.strip s5].
Proof.
  intros H4 H5.
  assert (L : length (parse_name_by_commas head) = 4)
    by (rewrite parse_length; exact H4).
  rewrite get_group_key_five by (rewrite parse_snoc, length_app, L by exact H5; reflexivity).
  rewrite parse_snoc by exact H5.
  rewrite app_nth1 by lia. rewrite app_nth2, L by lia. cbn [Nat.sub nth].
  rewrite strip_idem. reflexivity.
Qed.

(** Segments after the sixth do not count. *)
Lemma get_group_key_tail (name tail : str) :
  6 <= length (Py.split "," name) ->
  get_group_key (name ++ ","%char :: tail) = get_group_key name.
Proof.
  intros H.
  assert (L : 5 < length (parse_name_by_commas name)) by (rewrite parse_length; lia).
  assert (E : parse_name_by_commas (name ++ ","%char :: tail)
              = parse_name_by_commas name ++ parse_name_by_commas tail).
  { unfold parse_name_by_commas. rewrite PyFacts.split_app, map_app. reflexivity. }
  rewrite (get_group_key_six name L).
  rewrite get_group_key_six by (rewrite E, length_app; lia).
  rewrite E, !app_nth1 by lia. reflexivity.
Qed.

(** A text is one segment, or a segment, a comma and more text. *)
Lemma first_segment (x : str) :
  ~ In ","%char x
  \/ exists seg tail, ~ In ","%char seg /\ x = seg ++ ","%char :: tail.
Proof.
  induction x as [|c x IH]; [left; intros []|].
  destruct (Ascii.eqb_spec c ","%char) as [->|Hc].
  - right. exists [], x. split; [intros []|reflexivity].
  - destruct IH as [H|(seg & tail & Hs & ->)].
    + left. intros [E|Hin]; [exact (Hc E) | exact (H Hin)].
    + right. exists (c :: seg), tail. split; [|reflexivity].
      intros [E|Hin]; [exact (Hc E) | exact (Hs Hin)].
Qed.

Lemma split_snoc_length (head seg : str) (n : nat) :
  length (Py.split "," head) = n -> ~ In ","%char seg ->
  length (Py.split "," (head ++ ","%char :: seg)) = S n.
Proof.
  intros H Hs. rewrite PyFacts.split_app, (PyFacts.split_no_sep _ _ Hs), length_app, H.
  cbn [length]. lia.
Qed.

(** With the same other segments, however many, fifth segments that
    differ after trimming give different keys. *)
Lemma get_group_key_fifth_any (head s5 s5' rest : str) :
  length (Py.split "," head) = 4 ->
  ~ In ","%char s5 -> ~ In ","%char s5' ->
  Py.strip s5 <> Py.strip s5' ->
  get_group_key ((head ++ ","%char :: s5) ++ ","%char :: rest)
  <> get_group_key ((head ++ ","%char :: s5') ++ ","%char :: rest).
Proof.
  intros H4 H5 H5' Hne.
  destruct (first_segment rest) as [Hr|(seg & tail & Hs & ->)].
  - apply get_group_key_fifth; assumption.
  - assert (A : forall s, ~ In ","%char s ->
                          ((head ++ ","%char :: s) ++ ","%char :: seg ++ ","%char :: tail)
                          = ((head ++ ","%char :: s) ++ ","%char :: seg) ++ ","%char :: tail)
      by (intros s _; rewrite <- !app_assoc; reflexivity).
    rewrite (A s5 H5), (A s5' H5').
    assert (L : forall s, ~ In ","%char s ->
                          6 <= length (Py.split "," ((head ++ ","%char :: s)
                                                       ++ ","%char :: seg))).
    { intros s Hc. apply Nat.eq_le_incl. symmetry.
      apply (split_snoc_length _ _ 5); [apply (split_snoc_length _ _ 4)|]; assumption. }
    rewrite (get_group_key_tail _ tail (L s5 H5)), (get_group_key_tail _ tail (L s5' H5')).
    apply get_group_key_fifth; assumption.
Qed.

Lemma get_group_key_fifth_five (head s5 s5' : str) :
  length (Py.split "," head) = 4 ->
  ~ In ","%char s5 -> ~ In ","%char s5' ->
  Py.strip s5 <> Py.strip s5' ->
  get_group_key (head ++ ","%char :: s5) <> get_group_key (head ++ ","%char :: s5').
Proof.
  intros H4 H5 H5' Hne.
  rewrite !get_group_key_fifth_last by assumption.
  rewrite !join_cons. cbn [map concat]. rewrite !app_nil_r.
  intros E. apply app_inv_head in E. apply app_inv_head in E. exact (Hne E).
Qed.

End MoreSegments.

(** C5. Folder names that differ only in the pack qualifier that ends
    their sixth segment have the same key, whatever segments follow the
    sixth; names that differ in the fifth segment have different keys,
    whether the fifth segment is the last one or others follow; segments
    after the sixth do not count; a name with fewer than three segments
    has the empty key; and a sixth segment that, once trimmed and rid of
    its pack qualifier, is empty or is just a pack token adds nothing to
    the key. *)
Theorem get_group_key_pack_insensitive :
  get_group_key (txt "A, B, C, App1, Type1, spr 16 pack")
  = get_group_key (txt "A, B, C, App1, Type1, spr 9 pack")
  /\ get_group_key (txt "A, B, C, App1, Type1, spr 16 pack")
     <> get_group_key (txt "A, B, C, App1, Type2, spr 16 pack")
  /\ (forall (head p q1 q2 : str),
        length (Py.split "," head) = 5 -> ~ In ","%char p ->
        pack_qualifier q1 -> pack_qualifier q2 ->
        get_group_key (head ++ ","%char :: p ++ q1)
        = get_group_key (head ++ ","%char :: p ++ q2))
  /\ (forall (head s5 s5' seg : str),
        length (Py.split "," head) = 4 ->
        ~ In ","%char s5 -> ~ In ","%char s5' -> ~ In ","%char seg ->
        Py.strip s5 <> Py.strip s5' ->
        get_group_key ((head ++ ","%char :: s5) ++ ","%char :: seg)
        <> get_group_key ((head ++ ","%char :: s5') ++ ","%char :: seg))
  /\ (forall name : str,
        length (parse_name_by_commas name) < 3 -> get_group_key name = [])
  /\ (forall (head seg : str),
        length (Py.split "," head) = 5 -> ~ In ","%char seg ->
        let product := _strip_pack_suffix (Py.strip seg) in
        product = [] \/ pack_token product ->
        get_group_key (head ++ ","%char :: seg)
        = Py.join (txt " | ")
            [nth 3 (parse_name_by_commas head) []; nth 4 (parse_name_by_commas head) []])
  /\ (forall (head s5 s5' : str),
        length (Py.split "," head) = 4 ->
        ~ In ","%char s5 -> ~ In ","%char s5' ->
        Py.strip s5 <> Py.strip s5' ->
        get_group_key (head ++ ","%char :: s5) <> get_group_key (head ++ ","%char :: s5'))
  /\ (forall (head s5 : str),
        length (Py.split "," head) = 4 -> ~ In ","%char s5 ->
        get_group_key (head ++ ","%char :: s5)
        = Py.join (txt " | ") [nth 3 (parse_name_by_commas head) []; Py.strip s5])
  /\ (forall (head s5 s5' rest : str),
        length (Py.split "," head) = 4 ->
        ~ In ","%char s5 -> ~ In ","%char s5' ->
        Py.strip s5 <> Py.strip s5' ->
        get_group_key ((head ++ ","%char :: s5) ++ ","%char :: rest)
        <> get_group_key ((head ++ ","%char :: s5') ++ ","%char :: rest))
  /\ (forall (head p q1 q2 tail : str),
        length (Py.split "," head) = 5 -> ~ In ","%char p ->
        pack_qualifier q1 -> pack_qualifier q2 ->
        get_group_key ((head ++ ","%char :: p ++ q1) ++ ","%char :: tail)
        = get_group_key ((head ++ ","%char :: p ++ q2) ++ ","%char :: tail))
  /\ (forall (name tail : str),
        6 <= length (Py.split "," name) ->
        get_group_key (name ++ ","%char :: tail) = get_group_key name).
Proof.
  assert (C : forall p q, ~ In ","%char p -> pack_qualifier q -> ~ In ","%char (p ++ q)).
  { intros p q Hp Hq H. apply in_app_or in H as [H|H]; [auto|].
    exact (qualifier_no_comma q Hq H). }
  assert (P : forall (head p q1 q2 : str),
            length (Py.split "," head) = 5 -> ~ In ","%char p ->
            pack_qualifier q1 -> pack_qualifier q2 ->
            get_group_key (head ++ ","%char :: p ++ q1)
            = get_group_key (head ++ ","%char :: p ++ q2)).
  { intros head p q1 q2 H5 Hp Hq1 Hq2.
    rewrite !get_group_key_sixth by auto.
    rewrite !product_part_qualified by assumption. reflexivity. }
  split; [vm_compute; reflexivity|]. split; [vm_compute; discriminate|].
  split; [exact P|]. split; [exact get_group_key_fifth|].
  split; [exact get_group_key_short|]. split; [|split; [|split; [|split; [|split]]]].
  - intros head seg H5 Hseg product H.
    rewrite get_group_key_sixth by assumption.
    rewrite (product_part_dropped seg H). reflexivity.
  - exact get_group_key_fifth_five.
  - exact get_group_key_fifth_last.
  - exact get_group_key_fifth_any.
  - intros head p q1 q2 tail H5 Hp Hq1 Hq2.
    assert (L : forall q, pack_qualifier q ->
                          6 <= length (Py.split "," (head ++ ","%char :: p ++ q))).
    { intros q Hq. apply Nat.eq_le_incl. symmetry.
      apply (split_snoc_length _ _ 5); auto. }
    rewrite (get_group_key_tail _ tail (L q1 Hq1)), (get_group_key_tail _ tail (L q2 Hq2)).
    apply P; assumption.
  - exact get_group_key_tail.
Qed.

Lemma get_group_key_pack_insensitive_witness :
  get_group_key (txt "A, B, C, App1, Type1" ++ ","%char :: txt " spr" ++ txt " 16 pack")
  = get_group_key (txt "A, B, C, App1, Type1" ++ ","%char :: txt " spr" ++ txt "  9PACK ")
  /\ get_group_key ((txt "A, B, C, App1" ++ ","%char :: txt " Type1") ++ ","%char :: txt " spr")
     <> get_group_key ((txt "A, B, C, App1" ++ ","%char :: txt " Type2") ++ ","%char :: txt " spr")
  /\ get_group_key (txt "x, y") = []
  /\ get_group_key (txt "A, B, C, App1, Type1" ++ ","%char :: txt " 13 pack 7 pack")
     = txt "App1 | Type1"
  /\ get_group_key (txt "A, B, C, App1" ++ ","%char :: txt " Type1")
     <> get_group_key (txt "A, B, C, App1" ++ ","%char :: txt " Type2")
  /\ get_group_key (txt "A, B, C, App1" ++ ","%char :: txt " Type1") = txt "App1 | Type1"
  /\ get_group_key ((txt "A, B, C, App1" ++ ","%char :: txt " Type1")
                      ++ ","%char :: txt " spr, x, y")
     <> get_group_key ((txt "A, B, C, App1" ++ ","%char :: txt " Type2")
                         ++ ","%char :: txt " spr, x, y")
  /\ get_group_key ((txt "A, B, C, App1, Type1" ++ ","%char :: txt " spr" ++ txt " 16 pack")
                      ++ ","%char :: txt " x, y")
     = get_group_key ((txt "A, B, C, App1, Type1" ++ ","%char :: txt " spr" ++ txt "  9PACK ")
                        ++ ","%char :: txt " x, y")
  /\ get_group_key (txt "A, B, C, App1, Type1, spr" ++ ","%char :: txt " x, y")
     = get_group_key (txt "A, B, C, App1, Type1, spr").
Proof.
  destruct get_group_key_pack_insensitive
    as (_ & _ & H1 & H2 & H3 & H4 & H5 & H6 & H7 & H8 & H9).
  assert (Q1 : pack_qualifier (txt " 16 pack")).
  { exists (txt " "), (txt "16"), (txt " "), (txt "pack"), []. repeat split. discriminate. }
  assert (Q2 : pack_qualifier (txt "  9PACK ")).
  { exists (txt "  "), (txt "9"), [], (txt "PACK"), (txt " "). repeat split. discriminate. }
  split; [|split; [|split; [|split; [|split; [|split; [|split; [|split]]]]]]].
  - apply H1; [reflexivity | vm_compute; intuition discriminate | exact Q1 | exact Q2].
  - apply H2.
    + reflexivity.
    + vm_compute. intuition discriminate.
    + vm_compute. intuition discriminate.
    + vm_compute. intuition discriminate.
    + vm_compute. discriminate.
  - apply H3. vm_compute. lia.
  - apply (H4 (txt "A, B, C, App1, Type1") (txt " 13 pack 7 pack")).
    + reflexivity.
    + vm_compute. intuition discriminate.
    + right. exists (txt "13"), (txt " "), (txt "pack"). repeat split.
  - apply H5.
    + reflexivity.
    + vm_compute. intuition discriminate.
    + vm_compute. intuition discriminate.
    + vm_compute. discriminate.
  - apply (H6 (txt "A, B, C, App1") (txt " Type1")).
    + reflexivity.
    + vm_compute. intuition discriminate.
  - apply H7.
    + reflexivity.
    + vm_compute. intuition discriminate.
    + vm_compute. intuition discriminate.
    + vm_compute. discriminate.
  - apply H8; [reflexivity | vm_compute; intuition discriminate | exact Q1 | exact Q2].
  - apply H9. vm_compute. lia.
Defined.

(** ** Names: parsing and joining *)

Module ExtraStrings.
Import PyFacts NameFacts PackFacts.

Lemma split_length (sep : ascii) (x : str) :
  length (Py.split sep x) = S (count_occ ascii_dec x sep).
Proof.
  induction x as [|c x IH]; [reflexivity|].
  cbn [Py.split count_occ].
  destruct (Ascii.eqb_spec c sep) as [->|N].
  - destruct (ascii_dec sep sep); [|congruence]. simpl. rewrite IH. reflexivity.
  - destruct (ascii_dec c sep); [congruence|].
    destruct (Py.split sep x) eqn:E; [destruct (split_nonnil _ _ E)|].
    simpl in *. exact IH.
Qed.

Lemma strip_space_head (c : ascii) (x : str) :
  Py.is_space c = true -> Py.strip (c :: x) = Py.strip x.
Proof. intros H. unfold Py.strip, Py.lstrip_by. simpl. rewrite H. reflexivity. Qed.

Lemma split_head_char (sep c : ascii) (x : str) :
  c <> sep ->
  Py.split sep (c :: x) = (c :: hd [] (Py.split sep x)) :: tl (Py.split sep x).
Proof.
  intros N. cbn [Py.split]. destruct (Ascii.eqb_spec c sep); [congruence|].
  destruct (Py.split sep x) eqn:E; [destruct (split_nonnil _ _ E)|]. reflexivity.
Qed.

Lemma parse_space_head (x : str) :
  parse_name_by_commas (" "%char :: x) = parse_name_by_commas x.
Proof.
  unfold parse_name_by_commas. rewrite split_head_char by discriminate.
  destruct (Py.split "," x) eqn:E; [destruct (split_nonnil _ _ E)|].
  cbn [hd tl map]. rewrite strip_space_head by reflexivity. reflexivity.
Qed.

Lemma parse_app (x y : str) :
  parse_name_by_commas (x ++ ","%char :: y)
  = parse_name_by_commas x ++ parse_name_by_commas y.
Proof. unfold parse_name_by_commas. rewrite split_app, map_app. reflexivity. Qed.

Lemma parse_no_comma (x : str) :
  ~ In ","%char x -> parse_name_by_commas x = [Py.strip x].
Proof. intros H. unfold parse_name_by_commas. rewrite split_no_sep by exact H. reflexivity. Qed.

(** White space is stripped on both sides independently. *)
Lemma lstrip_rstrip (x : str) :
  Py.drop_while Py.is_space (Py.rstrip_by Py.is_space x)
  = Py.rstrip_by Py.is_space (Py.drop_while Py.is_space x).
Proof.
  induction x as [|c x IH]; [reflexivity|].
  rewrite rstrip_cons. destruct (forallb Py.is_space (c :: x)) eqn:A.
  - rewrite (drop_while_all _ _ A). reflexivity.
  - cbn [Py.drop_while]. destruct (Py.is_space c) eqn:C.
    + exact IH.
    + rewrite rstrip_cons, A. reflexivity.
Qed.

Lemma rstrip_idem (p : ascii -> bool) (x : str) :
  Py.rstrip_by p (Py.rstrip_by p x) = Py.rstrip_by p x.
Proof.
  induction x as [|c x IH]; [reflexivity|].
  rewrite rstrip_cons. destruct (forallb p (c :: x)) eqn:A; [reflexivity|].
  rewrite rstrip_cons.
  destruct (forallb p (c :: Py.rstrip_by p x)) eqn:B.
  - exfalso. simpl in A, B. apply andb_true_iff in B as [Bc B].
    rewrite Bc in A. simpl in A.
    destruct (rstrip_decomp p x) as (z & E & Hz).
    rewrite E, forallb_app, B, Hz in A. discriminate.
  - rewrite IH. reflexivity.
Qed.

Lemma strip_rstrip (x : str) : Py.strip (Py.rstrip_by Py.is_space x) = Py.strip x.
Proof.
  unfold Py.strip, Py.lstrip_by. rewrite lstrip_rstrip, rstrip_idem. reflexivity.
Qed.

End ExtraStrings.

Section Names.
Import PyFacts NameFacts PackFacts ExtraStrings.

(** X1. A name has one part more than it has commas, and every part
    comes out stripped of surrounding white space and without a comma. *)
Theorem parse_name_by_commas_parts (name : str) :
  length (parse_name_by_commas name) = S (count_occ ascii_dec name ","%char)
  /\ forall part : str,
       In part (parse_name_by_commas name) ->
       Py.strip part = part /\ ~ In ","%char part.
Proof.
  split.
  - rewrite parse_length. apply split_length.
  - intros part H. unfold parse_name_by_commas in H.
    apply in_map_iff in H as (seg & <- & Hseg). split.
    + apply strip_idem.
    + intros Hc. apply strip_incl in Hc.
      exact (split_segment_no_sep _ _ _ Hseg Hc).
Qed.

Lemma parse_name_by_commas_parts_witness :
  Py.strip (txt "b") = txt "b" /\ ~ In ","%char (txt "b").
Proof.
  apply (proj2 (parse_name_by_commas_parts (txt "a, b ,c")) (txt "b")).
  vm_compute. auto.
Defined.

(** X2. Parsing undoes joining: parts that are stripped and hold no
    comma, joined by a comma and a space, are parsed back into the same
    list. *)
Theorem parse_join_round_trip (parts : list str) :
  parts <> [] ->
  (forall p : str, In p parts -> Py.strip p = p /\ ~ In ","%char p) ->
  parse_name_by_commas (Py.join (txt ", ") parts) = parts.
Proof.
  induction parts as [|p ps IH]; [congruence|]. intros _ H.
  destruct (H p (or_introl eq_refl)) as [Hs Hc].
  destruct ps as [|q ps].
  - cbn [Py.join]. rewrite parse_no_comma by exact Hc. rewrite Hs. reflexivity.
  - change (Py.join (txt ", ") (p :: q :: ps))
      with (p ++ ","%char :: " "%char :: Py.join (txt ", ") (q :: ps)).
    rewrite parse_app, parse_no_comma by exact Hc.
    rewrite parse_space_head, Hs, IH; [reflexivity | discriminate |].
    intros x Hx. apply H. right. exact Hx.
Qed.

Lemma parse_join_round_trip_witness :
  parse_name_by_commas (Py.join (txt ", ") [txt "() pcs."; txt "LI"; txt "pine"])
  = [txt "() pcs."; txt "LI"; txt "pine"].
Proof.
  apply parse_join_round_trip; [discriminate|].
  intros p [<-|[<-|[<-|[]]]]; vm_compute; (split; [reflexivity|]); intuition discriminate.
Defined.

(** X3. With at most three segments the application name is the whole
    folder name. From three segments on the group key begins with the
    application name, and it is the application name when the folder name
    has no fifth segment. *)
Theorem application_name_in_group_key (name : str) :
  (length (parse_name_by_commas name) <= 3 -> get_application_name name = name)
  /\ (3 <= length (parse_name_by_commas name) ->
      exists rest : str,
        get_group_key name = get_application_name name ++ rest
        /\ (length (parse_name_by_commas name) <= 4 -> rest = [])).
Proof.
  unfold get_application_name, get_group_key. split.
  - intros H. destruct (Nat.ltb_spec 3 (length (parse_name_by_commas name))); [lia|].
    reflexivity.
  - intros H.
    destruct (Nat.ltb_spec (length (parse_name_by_commas name)) 3); [lia|].
    cbv zeta.
    set (app := if 3 <? length (parse_name_by_commas name)
                then nth 3 (parse_name_by_commas name) [] else name).
    match goal with
    | |- exists rest, Py.join _ ?l = _ /\ _ =>
        assert (E : exists more, l = app :: more
                    /\ (length (parse_name_by_commas name) <= 4 -> more = []))
    end.
    { destruct (Nat.ltb_spec 4 (length (parse_name_by_commas name))) as [L4|L4].
      - destruct (5 <? length (parse_name_by_commas name));
          [destruct (nonempty _ && _)|]; cbn [app];
          (eexists; split; [reflexivity | intros; lia]).
      - exists []. split; [|reflexivity].
        destruct (Nat.ltb_spec 5 (length (parse_name_by_commas name))); [lia|].
        reflexivity. }
    destruct E as (more & -> & Hm).
    rewrite join_cons. eexists. split; [reflexivity|].
    intros L. rewrite (Hm L). reflexivity.
Qed.

Lemma application_name_in_group_key_witness :
  get_application_name (txt "A, B, C") = txt "A, B, C"
  /\ exists rest : str,
       get_group_key (txt "A, B, C, App1, Type1, spr 16 pack")
       = get_application_name (txt "A, B, C, App1, Type1, spr 16 pack") ++ rest
       /\ (length (parse_name_by_commas (txt "A, B, C, App1, Type1, spr 16 pack")) <= 4
           -> rest = []).
Proof.
  split.
  - apply (proj1 (application_name_in_group_key (txt "A, B, C"))). vm_compute. lia.
  - apply (proj2 (application_name_in_group_key (txt "A, B, C, App1, Type1, spr 16 pack"))).
    vm_compute. lia.
Defined.

End Names.

(** ** Pack qualifiers in the name of the workbook *)

Section PackNames.
Import PyFacts ReFacts ScanFacts NameFacts PackFacts ExtraStrings.

Lemma strip_nil_blank (x : str) : Py.strip x = [] -> forallb Py.is_space x = true.
Proof.
  unfold Py.strip, Py.lstrip_by. intros H.
  destruct (Py.drop_while Py.is_space x) as [|c y] eqn:L; [apply drop_while_nil, L|].
  pose proof (drop_while_stops _ _ _ _ L) as Hc.
  rewrite rstrip_cons in H. simpl in H. rewrite Hc in H. discriminate.
Qed.

Lemma strip_blank (x : str) : forallb Py.is_space x = true -> Py.strip x = [].
Proof.
  intros H. unfold Py.strip, Py.lstrip_by. rewrite drop_while_all by exact H. reflexivity.
Qed.

Lemma strip_not_blank (x : str) : not_blank x -> not_blank (Py.strip x).
Proof.
  unfold not_blank. intros H.
  destruct (strip_ends x) as [E|(h & y & E & Hh & _)].
  - apply strip_nil_blank in E. congruence.
  - rewrite E. simpl. rewrite Hh. reflexivity.
Qed.

Lemma qualifier_after_spaces (z q : str) :
  forallb Py.is_space z = true -> pack_qualifier q -> pack_qualifier (z ++ q).
Proof.
  intros Hz (w1 & d & w2 & pk & w3 & -> & Hne & Hw1 & Hd & Hw2 & Hpk & Hw3).
  exists (z ++ w1), d, w2, pk, w3. repeat split; try assumption.
  - rewrite <- app_assoc. reflexivity.
  - destruct z; [exact Hne | discriminate].
  - rewrite forallb_app, Hz, Hw1. reflexivity.
Qed.

Lemma qualifier_nonempty (q : str) : pack_qualifier q -> q <> [].
Proof.
  intros (w1 & d & w2 & pk & w3 & -> & Hne & _). destruct w1; [congruence | discriminate].
Qed.

(** Deleting the suffix pattern from a string that ends with a pack
    qualifier leaves what stands before the white space of the
    qualifier. *)
Lemma sub_qualified (p q : str) :
  pack_qualifier q ->
  Re.sub_empty _PACK_SUFFIX_PATTERN (p ++ q) = Py.rstrip_by Py.is_space p.
Proof.
  intros Hq.
  destruct (rstrip_decomp Py.is_space p) as (z & E & Hz).
  pose proof (qualifier_after_spaces z q Hz Hq) as Hzq.
  rewrite E at 1. rewrite <- app_assoc.
  rewrite sub_prefix.
  - rewrite (sub_match_all _ _ _ (suffix_match_complete _ Hzq)). apply app_nil_r.
  - intros v u Ev Hu.
    destruct (Re.match_here _PACK_SUFFIX_PATTERN (u ++ z ++ q)) eqn:M; [|reflexivity].
    exfalso.
    assert (Hsp : forallb Py.is_space u = true)
      by (apply (suffix_match_prefix u (z ++ q) Hzq); congruence).
    destruct (exists_last Hu) as (u' & c' & ->).
    rewrite app_assoc in Ev. apply rstrip_last in Ev.
    rewrite forallb_app in Hsp. simpl in Hsp. rewrite Ev, andb_false_r in Hsp.
    discriminate.
Qed.

Lemma strip_pack_suffix_qualified (p q : str) :
  pack_qualifier q -> _strip_pack_suffix (p ++ q) = Py.strip p.
Proof.
  intros Hq. rewrite strip_pack_suffix_nonempty.
  - rewrite sub_qualified by exact Hq. apply strip_rstrip.
  - intros E. apply app_eq_nil in E as [_ E]. exact (qualifier_nonempty q Hq E).
Qed.

Lemma strip_pack_suffix_unqualified (x : str) :
  (forall p q : str, x = p ++ q -> ~ pack_qualifier q) ->
  _strip_pack_suffix x = Py.strip x.
Proof.
  intros H. destruct x as [|c x]; [reflexivity|].
  rewrite strip_pack_suffix_nonempty by discriminate.
  rewrite <- (app_nil_r (c :: x)) at 1.
  rewrite sub_prefix; [rewrite app_nil_r; reflexivity|].
  intros v u E Hu. rewrite app_nil_r.
  destruct (Re.match_here _PACK_SUFFIX_PATTERN u) as [[gs r]|] eqn:M; [|reflexivity].
  apply suffix_match_sound in M as [Hq _]. destruct (H v u E Hq).
Qed.

(** X4. [_strip_pack_suffix] takes a pack qualifier off the end of a
    string and strips what stood before it; a string no suffix of which
    is a pack qualifier is only stripped. *)
Theorem strip_pack_suffix_spec :
  (forall p q : str, pack_qualifier q -> _strip_pack_suffix (p ++ q) = Py.strip p)
  /\ (forall x : str,
        (forall p q : str, x = p ++ q -> ~ pack_qualifier q) ->
        _strip_pack_suffix x = Py.strip x).
Proof.
  split; [exact strip_pack_suffix_qualified | exact strip_pack_suffix_unqualified].
Qed.

End PackNames.

Section PackNameParts.
Import PyFacts ReFacts ScanFacts NameFacts PackFacts ExtraStrings.

Lemma qualifier_head (q : str) :
  pack_qualifier q -> exists c y, q = c :: y /\ Py.is_space c = true.
Proof.
  intros (w1 & d & w2 & pk & w3 & -> & Hne & Hw1 & _).
  destruct w1 as [|s w1]; [congruence|].
  simpl in Hw1. apply andb_true_iff in Hw1 as [Hs _].
  exists s, (w1 ++ d ++ w2 ++ pk ++ w3). split; [reflexivity | exact Hs].
Qed.

Lemma strip_pack_suffix_spec_witness :
  _strip_pack_suffix (txt " spr" ++ txt "  16 Pack ") = Py.strip (txt " spr")
  /\ _strip_pack_suffix (txt "spr") = Py.strip (txt "spr").
Proof.
  split.
  - apply (proj1 strip_pack_suffix_spec).
    exists (txt "  "), (txt "16"), (txt " "), (txt "Pack"), (txt " ").
    repeat split; discriminate.
  - apply (proj2 strip_pack_suffix_spec).
    intros p q E Hq. destruct (qualifier_head q Hq) as (c & y & -> & Hc).
    destruct p as [|a [|b [|c0 [|e p]]]]; inversion E; subst; discriminate Hc.
Defined.

(** What the pack pattern accepts. *)
Lemma pack_match_sound (x : str) gs r :
  Re.match_here _PACK_PATTERN x = Some (gs, r) ->
  exists tok nl, x = tok ++ nl /\ pack_token tok /\ at_eol nl.
Proof.
  rewrite pack_pattern_eq.
  rewrite plain_plus_det
    by (apply rejects_star; [apply digit_not_space | apply rejects_one, digit_not_p]).
  destruct x as [|c x']; [discriminate|].
  destruct (Py.is_digit c) eqn:Hc; [|discriminate].
  rewrite plain_star_det by (apply rejects_one, space_not_p).
  intros M. apply lits_i_inv in M as (g & y & E & Hg & M).
  apply eol_inv in M as (_ & _ & Hy).
  set (x := c :: x') in *.
  exists (Py.take_while Py.is_digit x
          ++ Py.take_while Py.is_space (Py.drop_while Py.is_digit x) ++ g), y.
  split; [|split].
  - rewrite <- !app_assoc, <- E, !take_drop_while. reflexivity.
  - eexists _, _, _. split; [reflexivity|]. split; [|split].
    + apply isdigit_iff. split; [|apply take_while_all].
      unfold x. simpl. rewrite Hc. discriminate.
    + apply take_while_all.
    + exact Hg.
  - exact Hy.
Qed.

(** The pack pattern accepts no string that ends with a pack qualifier
    and holds something before it. *)
Lemma pack_rejects_qualified (p q : str) :
  not_blank p -> pack_qualifier q -> Re.match_ _PACK_PATTERN (p ++ q) = None.
Proof.
  intros Hp Hq. unfold Re.match_.
  destruct (Re.match_here _PACK_PATTERN (p ++ q)) as [[gs r]|] eqn:M; [|reflexivity].
  exfalso. apply pack_match_sound in M as (tok & nl & E & (d & w & pk & -> & Hd & Hw & Hpk) & Hnl).
  destruct Hq as (w1 & d' & w2 & pk' & w3 & -> & Hne & Hw1 & Hd' & Hw2 & Hpk' & Hw3).
  assert (Hnl' : forallb Py.is_space nl = true) by (destruct Hnl as [->| ->]; reflexivity).
  apply (f_equal (Py.rstrip_by Py.is_space)) in E.
  rewrite qualifier_rstrip in E by assumption.
  rewrite <- !app_assoc in E.
  pose proof (qualifier_rstrip [] [] d w pk nl Hpk Hnl') as E2.
  cbn [app] in E2. rewrite E2 in E. clear E2.
  assert (Hq'' : pack_qualifier (w1 ++ d' ++ w2 ++ pk' ++ [])).
  { exists w1, d', w2, pk', []. repeat split; assumption. }
  pose proof (before_qualifier_app p _ Hq'') as B.
  rewrite app_nil_r in B. rewrite E in B.
  rewrite before_qualifier_token in B by assumption.
  symmetry in B. apply drop_while_nil in B. rewrite forallb_rev in B.
  unfold not_blank in Hp. congruence.
Qed.

(** A segment with a pack qualifier, stripped. *)
Lemma strip_qualified (p q : str) :
  pack_qualifier q ->
  (forallb Py.is_space p = true -> pack_token (Py.strip (p ++ q)))
  /\ (not_blank p ->
      exists q', pack_qualifier q' /\ Py.strip (p ++ q) = Py.strip p ++ q').
Proof.
  intros (w1 & d & w2 & pk & w3 & -> & Hne & Hw1 & Hd & Hw2 & Hpk & Hw3). split.
  - intros Hp.
    assert (S : Py.strip (p ++ w1 ++ d ++ w2 ++ pk ++ w3) = d ++ w2 ++ pk).
    { unfold Py.strip, Py.lstrip_by.
      rewrite drop_while_app_all by exact Hp.
      rewrite drop_while_app_all by exact Hw1.
      rewrite drop_space_digits by exact Hd.
      apply (qualifier_rstrip [] [] d w2 pk w3); assumption. }
    rewrite S. exists d, w2, pk. auto.
  - intros Hp.
    destruct (Py.drop_while Py.is_space p) as [|h y] eqn:L.
    { apply drop_while_nil in L. unfold not_blank in Hp. congruence. }
    assert (Sp : Py.strip p = Py.rstrip_by Py.is_space (h :: y))
      by (unfold Py.strip, Py.lstrip_by; rewrite L; reflexivity).
    destruct (rstrip_decomp Py.is_space (h :: y)) as (wq & Ewq & Hwq).
    rewrite <- Sp in Ewq.
    exists ((wq ++ w1) ++ d ++ w2 ++ pk ++ []). split.
    + exists (wq ++ w1), d, w2, pk, []. repeat split; try assumption.
      * destruct wq; [exact Hne | discriminate].
      * rewrite forallb_app, Hwq, Hw1. reflexivity.
    + unfold Py.strip at 1, Py.lstrip_by.
      rewrite (drop_while_app_keep _ _ _ _ _ L), Ewq, <- app_assoc.
      replace (Py.strip p ++ wq ++ w1 ++ d ++ w2 ++ pk ++ w3)
        with ((Py.strip p ++ wq) ++ w1 ++ d ++ w2 ++ pk ++ w3)
        by (rewrite <- app_assoc; reflexivity).
      rewrite qualifier_rstrip by assumption.
      rewrite !app_nil_r, <- !app_assoc. reflexivity.
Qed.

Lemma name_part_qualified (p q : str) :
  pack_qualifier q ->
  name_part (p ++ q) = if nonempty (Py.strip p) then [Py.strip p] else [].
Proof.
  intros Hq. destruct (strip_qualified p q Hq) as [Hb Hn].
  unfold name_part.
  destruct (forallb Py.is_space p) eqn:B.
  - rewrite (pack_match_token _ (Hb eq_refl)), (strip_blank _ B). reflexivity.
  - destruct (Hn B) as (q' & Hq' & ->).
    rewrite (pack_rejects_qualified _ _ (strip_not_blank _ B) Hq'). cbn [is_some].
    rewrite (strip_pack_suffix_qualified _ _ Hq'), strip_idem. reflexivity.
Qed.

Lemma name_part_strip (x : str) : name_part (Py.strip x) = name_part x.
Proof. unfold name_part. rewrite strip_idem. reflexivity. Qed.

Lemma i_parts_flat (f : str) :
  i_parts_of f = flat_map name_part (parse_name_by_commas f).
Proof. reflexivity. Qed.

Lemma split_join (segs : list str) :
  segs <> [] -> (forall x, In x segs -> ~ In ","%char x) ->
  Py.split "," (Py.join (txt ",") segs) = segs.
Proof.
  induction segs as [|p ps IH]; [congruence|]. intros _ H.
  destruct ps as [|q ps].
  - cbn [Py.join]. apply split_no_sep, H. left. reflexivity.
  - change (Py.join (txt ",") (p :: q :: ps))
      with (p ++ ","%char :: Py.join (txt ",") (q :: ps)).
    rewrite split_app_sep by (apply H; left; reflexivity).
    rewrite IH; [reflexivity | discriminate |].
    intros x Hx. apply H. right. exact Hx.
Qed.

Lemma build_i_parts (t f f' : str) (inv : option (list str)) :
  i_parts_of f = i_parts_of f' ->
  build_upload_table_filename t f inv = build_upload_table_filename t f' inv.
Proof.
  intros E. pose proof (build_unfold t f inv) as B. pose proof (build_unfold t f' inv) as B'.
  cbv zeta in B, B'. rewrite B, B'. unfold rest_parts. rewrite E. reflexivity.
Qed.

(** X5. The name of the workbook does not depend on the pack qualifier
    that ends a segment of the folder name: with the same text before it,
    any two qualifiers in that segment give the same name. *)
Theorem build_name_pack_insensitive
    (t : str) (before after : list str) (p q1 q2 : str) (inv : option (list str)) :
  (forall x : str, In x (before ++ after) -> ~ In ","%char x) ->
  ~ In ","%char p ->
  pack_qualifier q1 -> pack_qualifier q2 ->
  build_upload_table_filename t (Py.join (txt ",") (before ++ [p ++ q1] ++ after)) inv
  = build_upload_table_filename t (Py.join (txt ",") (before ++ [p ++ q2] ++ after)) inv.
Proof.
  intros Hx Hp H1 H2. apply build_i_parts.
  assert (P : forall q, pack_qualifier q ->
              i_parts_of (Py.join (txt ",") (before ++ [p ++ q] ++ after))
              = flat_map name_part before
                  ++ (if nonempty (Py.strip p) then [Py.strip p] else [])
                  ++ flat_map name_part after).
  { intros q Hq. rewrite i_parts_flat. unfold parse_name_by_commas.
    rewrite split_join.
    - rewrite !map_app, !flat_map_app. cbn [map flat_map]. rewrite app_nil_r.
      rewrite name_part_strip, (name_part_qualified _ _ Hq).
      assert (S : forall l, flat_map name_part (map Py.strip l) = flat_map name_part l).
      { induction l as [|a l IH]; [reflexivity|].
        cbn [map flat_map]. rewrite name_part_strip, IH. reflexivity. }
      rewrite !S. reflexivity.
    - destruct before; discriminate.
    - intros x Hin. apply in_app_or in Hin as [Hin|Hin].
      + apply Hx, in_or_app. left. exact Hin.
      + destruct Hin as [<-|Hin].
        * intros Hc. apply in_app_or in Hc as [Hc|Hc]; [exact (Hp Hc)|].
          exact (qualifier_no_comma _ Hq Hc).
        * apply Hx, in_or_app. right. exact Hin. }
  rewrite (P _ H1), (P _ H2). reflexivity.
Qed.

End PackNameParts.

(** ** The name of the workbook as a file name *)

Section BuildName.
Import PyFacts SortFacts NameFacts PackFacts ExtraStrings.

Lemma build_name_pack_insensitive_witness :
  build_upload_table_filename (txt "() pcs., LI")
    (Py.join (txt ",") ([txt "A"; txt " B"; txt " C"] ++ [txt " spr" ++ txt " 16 pack"]
                          ++ [txt " pine"])) None
  = build_upload_table_filename (txt "() pcs., LI")
      (Py.join (txt ",") ([txt "A"; txt " B"; txt " C"] ++ [txt " spr" ++ txt "  9PACK "]
                            ++ [txt " pine"])) None.
Proof.
  apply build_name_pack_insensitive.
  - intros x [<-|[<-|[<-|[<-|[]]]]]; vm_compute; intuition discriminate.
  - vm_compute; intuition discriminate.
  - exists (txt " "), (txt "16"), (txt " "), (txt "pack"), []. repeat split; discriminate.
  - exists (txt "  "), (txt "9"), [], (txt "PACK"), (txt " "). repeat split; discriminate.
Defined.

Lemma sanitize_legal (x : str) :
  forallb (fun c => negb (illegal_char c)) (sanitize x) = true.
Proof.
  induction x as [|c x IH]; [reflexivity|].
  cbn [sanitize map forallb]. fold (sanitize x). rewrite IH, andb_true_r.
  destruct (illegal_char c) eqn:E; [reflexivity | rewrite E; reflexivity].
Qed.

Lemma forallb_incl (p : ascii -> bool) (x y : str) :
  (forall c, In c y -> In c x) -> forallb p x = true -> forallb p y = true.
Proof.
  intros H Hx. rewrite forallb_forall in *. intros c Hc. apply Hx, H, Hc.
Qed.

Lemma strip_both_ends (p : ascii -> bool) (x : str) :
  let r := Py.rstrip_by p (Py.drop_while p x) in
  r = [] \/ (p (hd " "%char r) = false /\ p (last r " "%char) = false).
Proof.
  intros r. destruct r as [|h r'] eqn:E; [left; reflexivity|]. right. split.
  - cbn [hd]. subst r.
    destruct (Py.drop_while p x) as [|c y] eqn:L; [discriminate|].
    pose proof (drop_while_stops _ _ _ _ L) as Hc.
    destruct (rstrip_head p c y) as [E0|(r0 & E0)]; rewrite E0 in E; [discriminate|].
    inversion E; subst. exact Hc.
  - assert (Hne : h :: r' <> []) by discriminate.
    destruct (exists_last Hne) as (a & c & Ea).
    rewrite Ea, last_last. subst r. rewrite Ea in E.
    exact (rstrip_last _ _ _ _ E).
Qed.

(** X6. Whatever the two names and the invoice numbers are, the name
    built for the workbook is not empty, holds none of the characters that
    are replaced in file names, and neither begins nor ends with a comma
    or an underscore. *)
Theorem build_name_is_file_name
    (template_name invoice_folder_name : str) (invoice_numbers : option (list str)) :
  let name :=
    build_upload_table_filename template_name invoice_folder_name invoice_numbers in
  name <> []
  /\ forallb (fun c => negb (illegal_char c)) name = true
  /\ strippable (hd " "%char name) = false
  /\ strippable (last name " "%char) = false.
Proof.
  intros name. subst name.
  pose proof (build_unfold template_name invoice_folder_name invoice_numbers) as B.
  cbv zeta in B. rewrite B. clear B.
  set (raw := sanitize _).
  pose proof (sanitize_legal
                (Py.join (txt ", ")
                   (filter nonempty
                      ([first_part_of template_name invoice_numbers]
                         ++ rest_parts template_name invoice_folder_name)))) as L.
  fold raw in L.
  rewrite strip_chars_strippable.
  pose proof (strip_both_ends strippable raw) as E. cbv zeta in E.
  assert (I : forallb (fun c => negb (illegal_char c))
                (Py.rstrip_by strippable (Py.drop_while strippable raw)) = true).
  { apply (forallb_incl _ raw); [|exact L].
    intros c Hc. apply rstrip_incl, drop_while_incl in Hc. exact Hc. }
  destruct (Py.rstrip_by strippable (Py.drop_while strippable raw)) as [|h r] eqn:R.
  - split; [discriminate|]. split; [reflexivity|]. split; reflexivity.
  - destruct E as [E|[E1 E2]]; [discriminate|].
    split; [discriminate|]. split; [exact I|]. split; [exact E1 | exact E2].
Qed.

Lemma range_string_perm (l l' : list str) :
  Permutation l l' ->
  _invoice_numbers_to_range_string l = _invoice_numbers_to_range_string l'.
Proof.
  intros P. unfold _invoice_numbers_to_range_string.
  rewrite (sorted_by_perm_eq _ _ (numbers_perm _ _ P)). reflexivity.
Qed.

(** X7. The name built from a list of invoice numbers does not depend
    on the order of the list. *)
Theorem build_name_order_independent
    (template_name invoice_folder_name : str) (numbers numbers' : list str) :
  Permutation numbers numbers' ->
  build_upload_table_filename template_name invoice_folder_name (Some numbers)
  = build_upload_table_filename template_name invoice_folder_name (Some numbers').
Proof.
  intros P.
  pose proof (build_unfold template_name invoice_folder_name (Some numbers)) as B.
  pose proof (build_unfold template_name invoice_folder_name (Some numbers')) as B'.
  cbv zeta in B, B'. rewrite B, B'.
  assert (E : first_part_of template_name (Some numbers)
              = first_part_of template_name (Some numbers')).
  { unfold first_part_of.
    destruct numbers as [|a l], numbers' as [|a' l'].
    - reflexivity.
    - apply Permutation_nil in P. discriminate.
    - apply Permutation_sym, Permutation_nil in P. discriminate.
    - rewrite (range_string_perm _ _ P), (Permutation_length P). reflexivity. }
  rewrite E. reflexivity.
Qed.

Lemma build_name_order_independent_witness :
  build_upload_table_filename example_template_name example_folder_name
    (Some [txt "97"; txt "43"; txt "96"])
  = build_upload_table_filename example_template_name example_folder_name
      (Some [txt "43"; txt "96"; txt "97"]).
Proof.
  apply build_name_order_independent.
  apply perm_trans with (l' := [txt "43"; txt "97"; txt "96"]).
  - apply perm_swap.
  - apply perm_skip, perm_swap.
Defined.

End BuildName.

(** ** Stability of the sort *)

Section Stability.
Import SortFacts.
Context {A : Type} (key : A -> N).

(** Insertion leaves the elements with any given key in their order. *)
Lemma insert_by_stable (k : N) (x : A) (l : list A) :
  filter (fun y => (key y =? k)%N) (insert_by key x l)
  = filter (fun y => (key y =? k)%N) (x :: l).
Proof.
  induction l as [|y l IH]; [reflexivity|].
  cbn [insert_by]. destruct (N.leb_spec (key x) (key y)) as [L|L]; [reflexivity|].
  cbn [filter] in *. rewrite IH.
  destruct (N.eqb_spec (key x) k) as [Ex|Ex]; [|reflexivity].
  destruct (N.eqb_spec (key y) k) as [Ey|Ey]; [lia | reflexivity].
Qed.

Lemma sorted_by_stable (k : N) (l : list A) :
  filter (fun y => (key y =? k)%N) (sorted_by key l)
  = filter (fun y => (key y =? k)%N) l.
Proof.
  induction l as [|x l IH]; [reflexivity|].
  cbn [sorted_by fold_right]. fold (sorted_by key l).
  rewrite insert_by_stable. cbn [filter]. rewrite IH. reflexivity.
Qed.

End Stability.

Section SortNumbers.
Import SortFacts.

(** X8. Sorting invoice numbers rearranges the list into ascending
    order of the sort key and is stable: the numbers that have any one
    key, among them all that are not numeric, keep the order they had. *)
Theorem sort_invoice_numbers_stable (numbers : list str) :
  let r := _sort_invoice_numbers_as_int numbers in
  Permutation r numbers
  /\ StronglySorted (key_le _invoice_number_sort_key) r
  /\ forall k : N,
       filter (fun x => (_invoice_number_sort_key x =? k)%N) r
       = filter (fun x => (_invoice_number_sort_key x =? k)%N) numbers.
Proof.
  intros r. split; [apply sorted_by_perm|]. split; [apply sorted_by_sorted|].
  intros k. apply sorted_by_stable.
Qed.

End SortNumbers.

(** ** Counts of the final summary *)

Section Statistics.
Import PyFacts ScanFacts.

Lemma list_sum_cons (a : nat) (l : list nat) : list_sum (a :: l) = a + list_sum l.
Proof. reflexivity. Qed.

Lemma count_step_classify (acc : nat * nat) (f : str * bool) :
  count_step acc f
  = (fst acc + length (generic_ids f), snd acc + length (declaration_ids f)).
Proof.
  destruct acc as [e g], f as [name is_file].
  unfold count_step, generic_ids, declaration_ids, classify. cbn [fst snd].
  destruct is_file; cbn [negb]; [|cbn [length]; rewrite !Nat.add_0_r; reflexivity].
  destruct (Py.startswith (txt "GTD_") name).
  - destruct (Re.match_ _GTD_PATTERN name) as [gs|] eqn:M; cbn [is_some].
    + destruct (gtd_match_sound _ _ M) as (a & b & c & -> & _).
      cbn [length]. f_equal; lia.
    + cbn [length]. f_equal; lia.
  - destruct (Re.match_ _ESD_PATTERN name) as [gs|]; cbn [is_some length]; f_equal; lia.
Qed.

Lemma count_fold (fs : list (str * bool)) (acc : nat * nat) :
  fold_left count_step fs acc
  = (fst acc + length (flat_map generic_ids fs),
     snd acc + length (flat_map declaration_ids fs)).
Proof.
  revert acc. induction fs as [|f fs IH]; intros acc.
  - destruct acc. cbn. f_equal; lia.
  - cbn [fold_left flat_map]. rewrite IH, count_step_classify. cbn [fst snd].
    rewrite !length_app. f_equal; lia.
Qed.

Lemma collect_lengths (fd : folder) :
  (length (fst (_collect_esd_and_gtd_from_one_folder fd)),
   length (snd (_collect_esd_and_gtd_from_one_folder fd)))
  = if is_dir fd
    then (length (flat_map generic_ids (children fd)),
          length (flat_map declaration_ids (children fd)))
    else (0, 0).
Proof.
  unfold _collect_esd_and_gtd_from_one_folder.
  destruct (is_dir fd); cbn [negb]; [|reflexivity].
  rewrite scan_fold. reflexivity.
Qed.

(** X9. The counts of the final summary agree with the scanner: over
    any folders, [_count_esd_gtd_in_folders] returns the number of generic
    records and the number of declarations that
    [_collect_esd_and_gtd_from_one_folder] lists for these folders. *)
Theorem count_esd_gtd_agrees_with_scanner (folders : list folder) :
  _count_esd_gtd_in_folders folders
  = (list_sum (map (fun fd => length (fst (_collect_esd_and_gtd_from_one_folder fd))) folders),
     list_sum (map (fun fd => length (snd (_collect_esd_and_gtd_from_one_folder fd))) folders)).
Proof.
  unfold _count_esd_gtd_in_folders.
  assert (G : forall acc,
            fold_left
              (fun acc folder =>
                 if negb (is_dir folder) then acc
                 else fold_left count_step (children folder) acc)
              folders acc
            = (fst acc
               + list_sum (map (fun fd => length (fst (_collect_esd_and_gtd_from_one_folder fd)))
                               folders),
               snd acc
               + list_sum (map (fun fd => length (snd (_collect_esd_and_gtd_from_one_folder fd)))
                               folders))).
  { induction folders as [|fd fds IH]; intros acc.
    - destruct acc. cbn. f_equal; lia.
    - cbn [fold_left map list_sum]. rewrite IH.
      pose proof (collect_lengths fd) as L.
      destruct (is_dir fd); cbn [negb]; injection L as L1 L2.
      + rewrite count_fold, !list_sum_cons. cbn [fst snd]. rewrite L1, L2.
        f_equal; lia.
      + rewrite !list_sum_cons, L1, L2. f_equal; lia. }
  rewrite G. reflexivity.
Qed.

Lemma count_one_folder (fd : folder) :
  list_sum
    (flat_map (fun p => if negb (Py.startswith (txt "~$") (doc_name p)) then [1] else [])
              (xlsx fd))
  = length (filter (fun d => negb (Py.startswith (txt "~$") (doc_name d))) (xlsx fd)).
Proof.
  induction (xlsx fd) as [|d l IH]; [reflexivity|].
  cbn [flat_map filter]. destruct (negb _); cbn [app length]; rewrite ?list_sum_cons, IH; reflexivity.
Qed.

(** X10. The number of invoices reported in the final summary is at
    least the number of documents the processing of the group discovers,
    and it is that number when [rglob] finds nothing in a folder that is
    not a directory. *)
Theorem count_invoices_counts_discovered (folders : list folder) :
  length (all_paths folders) <= count_invoices_in_folders folders
  /\ ((forall fd : folder, In fd folders -> is_dir fd = false -> xlsx fd = []) ->
      count_invoices_in_folders folders = length (all_paths folders)).
Proof.
  unfold count_invoices_in_folders, all_paths.
  induction folders as [|fd fds [IH1 IH2]]; [split; reflexivity|].
  cbn [flat_map]. rewrite list_sum_app, length_app, count_one_folder. split.
  - destruct (is_dir fd); [rewrite length_map|cbn [length]]; lia.
  - intros H. rewrite IH2 by (intros x Hx; apply H; right; exact Hx).
    destruct (is_dir fd) eqn:D; [rewrite length_map; reflexivity|].
    rewrite (H fd (or_introl eq_refl) D). reflexivity.
Qed.

Lemma folders_without_xlsx_fold (folders acc : list folder) :
  fold_left
    (fun empty folder =>
       if negb (is_dir folder) then empty
       else
         let has_xlsx :=
           existsb (fun p => negb (Py.startswith (txt "~$") (doc_name p))) (xlsx folder) in
         if negb has_xlsx then empty ++ [folder] else empty)
    folders acc
  = acc ++ filter (fun fd => is_dir fd && (length (all_paths [fd]) =? 0)) folders.
Proof.
  revert acc. induction folders as [|fd fds IH]; intros acc.
  - cbn. rewrite app_nil_r. reflexivity.
  - cbn [fold_left filter]. rewrite IH. unfold all_paths. cbn [flat_map].
    rewrite app_nil_r.
    destruct (is_dir fd); cbn [negb andb]; [|reflexivity].
    rewrite length_map.
    induction (xlsx fd) as [|d l IHl].
    + cbn. rewrite <- app_assoc. reflexivity.
    + cbn [existsb filter]. destruct (negb (Py.startswith (txt "~$") (doc_name d))).
      * reflexivity.
      * cbn [orb]. exact IHl.
Qed.

(** X11. The folders reported as having no invoice are, in their
    order, the directories from which the processing of the group gets no
    document. *)
Theorem folders_without_xlsx_spec (folders : list folder) :
  _folders_without_xlsx folders
  = filter (fun fd => is_dir fd && (length (all_paths [fd]) =? 0)) folders.
Proof. apply folders_without_xlsx_fold. Qed.

End Statistics.

Section StatisticsWitness.

Lemma count_invoices_counts_discovered_witness :
  count_invoices_in_folders sample_group = length (all_paths sample_group).
Proof.
  apply (proj2 (count_invoices_counts_discovered sample_group)).
  intros fd [<-|[]] H. discriminate H.
Defined.

End StatisticsWitness.

(** ** The grouping as a partition *)

Section Partition.
Import PyFacts.

Lemma eqb_sym (x y : str) : Py.eqb x y = Py.eqb y x.
Proof.
  destruct (Py.eqb x y) eqn:E.
  - apply eqb_eq in E. subst. symmetry. apply eqb_refl.
  - apply eqb_neq in E. symmetry. apply eqb_neq. congruence.
Qed.

Lemma fold_left_ext {A B : Type} (f g : A -> B -> A) (l : list B) (a : A) :
  (forall a b, f a b = g a b) -> fold_left f l a = fold_left g l a.
Proof.
  intros H. revert a. induction l as [|b l IH]; intros a; [reflexivity|].
  cbn [fold_left]. rewrite H. apply IH.
Qed.

Lemma analyze_fold (entries : list folder) :
  analyze_and_group_invoice_folders true entries = fold_left group_step entries [].
Proof.
  unfold analyze_and_group_invoice_folders. cbn [negb].
  apply fold_left_ext. intros by_group item. unfold group_step, eligible.
  destruct (is_dir item && negb (Py.startswith (txt ".") (folder_name item)));
    [|reflexivity].
  cbv zeta. cbn [andb].
  destruct (length (parse_name_by_commas (folder_name item)) <? 3); [reflexivity|].
  cbn [negb].
  destruct (nonempty (get_group_key (folder_name item))); reflexivity.
Qed.

Lemma group_items_append (k kx : str) (x : folder) (g : list (str * list folder)) :
  group_items k (group_append kx x g)
  = if Py.eqb kx k then group_items k g ++ [x] else group_items k g.
Proof.
  unfold group_items. induction g as [|[k0 items] g IH].
  - cbn [group_append find fst snd]. destruct (Py.eqb kx k); reflexivity.
  - cbn [group_append]. destruct (Py.eqb k0 kx) eqn:E0.
    + apply eqb_eq in E0. subst k0. cbn [find fst snd].
      destruct (Py.eqb kx k); reflexivity.
    + cbn [find fst snd]. destruct (Py.eqb k0 k) eqn:E1.
      * apply eqb_eq in E1. subst k0. rewrite (eqb_sym kx k), E0. reflexivity.
      * exact IH.
Qed.

Lemma keys_append (kx : str) (x : folder) (g : list (str * list folder)) :
  map fst (group_append kx x g)
  = if Py.mem kx (map fst g) then map fst g else map fst g ++ [kx].
Proof.
  induction g as [|[k0 items] g IH]; [reflexivity|].
  cbn [group_append map fst]. unfold Py.mem in *. cbn [existsb].
  rewrite (eqb_sym kx k0). destruct (Py.eqb k0 kx); [reflexivity|].
  cbn [orb map fst]. rewrite IH. destruct (existsb (Py.eqb kx) (map fst g)); reflexivity.
Qed.

Lemma group_items_In (k : str) (items : list folder) (g : list (str * list folder)) :
  NoDup (map fst g) -> In (k, items) g -> group_items k g = items.
Proof.
  unfold group_items. induction g as [|[k0 items0] g IH]; [intros _ []|].
  cbn [map fst]. intros N H. inversion N as [|? ? N1 N2]; subst.
  cbn [find fst snd]. destruct H as [H|H].
  - inversion H; subst. rewrite eqb_refl. reflexivity.
  - destruct (Py.eqb k0 k) eqn:E.
    + apply eqb_eq in E. subst k0. exfalso. apply N1.
      apply in_map_iff. exists (k, items). auto.
    + apply IH; assumption.
Qed.

Lemma groups_invariant (entries : list folder) :
  let g := fold_left group_step entries [] in
  NoDup (map fst g)
  /\ (forall k, group_items k g = filter (has_key k) (filter eligible entries))
  /\ (forall k, In k (map fst g) <->
                exists e, In e entries /\ eligible e = true
                          /\ get_group_key (folder_name e) = k).
Proof.
  induction entries as [|x l (N & G & K)] using rev_ind.
  - cbn. split; [constructor|]. split; [reflexivity|].
    intros k. split; [intros [] | intros (e & [] & _)].
  - rewrite fold_left_app. cbn [fold_left]. cbv zeta in *.
    set (g := fold_left group_step l []) in *.
    unfold group_step.
    destruct (eligible x) eqn:E.
    + set (kx := get_group_key (folder_name x)).
      split; [|split].
      * rewrite keys_append. destruct (Py.mem kx (map fst g)) eqn:M; [exact N|].
        apply mem_not_In in M.
        apply NoDup_app; [exact N | repeat constructor; intros [] | ].
        intros a Ha [<-|[]]. exact (M Ha).
      * intros k. rewrite group_items_append, G, !filter_app.
        cbn [filter]. rewrite E. cbn [filter]. change (has_key k x) with (Py.eqb kx k).
        destruct (Py.eqb kx k); [reflexivity | symmetry; apply app_nil_r].
      * intros k. rewrite keys_append. split.
        -- intros H.
           assert (H' : In k (map fst g) \/ k = kx).
           { destruct (Py.mem kx (map fst g)); [left; exact H|].
             apply in_app_or in H as [H|[<-|[]]]; auto. }
           destruct H' as [H'| ->].
           ++ apply K in H' as (e & He & Hel & Hk).
              exists e. split; [apply in_or_app; left; exact He | auto].
           ++ exists x. split; [apply in_or_app; right; left; reflexivity | auto].
        -- intros (e & He & Hel & Hk).
           apply in_app_or in He as [He|[<-|[]]].
           ++ assert (H : In k (map fst g)) by (apply K; exists e; auto).
              destruct (Py.mem kx (map fst g)); [exact H | apply in_or_app; left; exact H].
           ++ fold kx in Hk. subst k.
              destruct (Py.mem kx (map fst g)) eqn:M.
              ** apply mem_In. exact M.
              ** apply in_or_app. right. left. reflexivity.
    + split; [exact N|]. split.
      * intros k. rewrite G, !filter_app. cbn [filter]. rewrite E. cbn [filter].
        rewrite !app_nil_r. reflexivity.
      * intros k. rewrite K. split.
        -- intros (e & He & Hel & Hk). exists e.
           split; [apply in_or_app; left; exact He | auto].
        -- intros (e & He & Hel & Hk).
           apply in_app_or in He as [He|[<-|[]]]; [|congruence].
           exists e. auto.
Qed.

(** X12. The grouping partitions the eligible entries of the base
    directory: the keys of the groups are pairwise different and not
    empty, no group is empty, the folders of a group are the eligible
    entries with its key in the order of enumeration, and every eligible
    entry is in the group of its key. A base path that is no directory
    gives no group. *)
Theorem grouping_partitions_folders (entries : list folder) :
  let groups := analyze_and_group_invoice_folders true entries in
  NoDup (map fst groups)
  /\ (forall (key : str) (items : list folder),
        In (key, items) groups ->
        key <> [] /\ items <> []
        /\ items = filter (has_key key) (filter eligible entries))
  /\ (forall item : folder,
        In item entries -> eligible item = true ->
        exists items : list folder,
          In (get_group_key (folder_name item), items) groups /\ In item items)
  /\ analyze_and_group_invoice_folders false entries = [].
Proof.
  intros groups. subst groups. rewrite analyze_fold.
  destruct (groups_invariant entries) as (N & G & K). cbv zeta in *.
  set (g := fold_left group_step entries []) in *.
  split; [exact N|]. split; [|split; [|reflexivity]].
  - intros key items H.
    assert (Hk : In key (map fst g)) by (apply in_map_iff; exists (key, items); auto).
    apply K in Hk as (e & He & Hel & Hk).
    pose proof (group_items_In _ _ _ N H) as E. rewrite G in E.
    assert (Hin : In e items).
    { rewrite <- E. apply filter_In. split.
      - apply filter_In. auto.
      - unfold has_key. rewrite Hk. apply eqb_refl. }
    split; [|split].
    + unfold eligible in Hel. apply andb_true_iff in Hel as [_ Hel].
      rewrite Hk in Hel. intros ->. discriminate.
    + intros ->. exact Hin.
    + symmetry. exact E.
  - intros item Hin Hel.
    assert (Hk : In (get_group_key (folder_name item)) (map fst g))
      by (apply K; exists item; auto).
    apply in_map_iff in Hk as ([k items] & Ek & H). cbn [fst] in Ek. subst k.
    exists items. split; [exact H|].
    pose proof (group_items_In _ _ _ N H) as E. rewrite G in E. rewrite <- E.
    apply filter_In. split.
    + apply filter_In. auto.
    + unfold has_key. apply eqb_refl.
Qed.

Lemma grouping_partitions_folders_witness :
  let entries := sample_group ++ [mk_folder (txt "x, y") true [] []] in
  (txt "App" <> [] /\ sample_group <> []
   /\ sample_group = filter (has_key (txt "App")) (filter eligible entries))
  /\ exists items : list folder,
       In (get_group_key (txt "A, B, C, App"), items)
          (analyze_and_group_invoice_folders true entries)
       /\ In (hd (mk_folder [] false [] []) sample_group) items.
Proof.
  intros entries. split.
  - apply (proj1 (proj2 (grouping_partitions_folders entries)) (txt "App") sample_group).
    left. reflexivity.
  - exact (proj1 (proj2 (proj2 (grouping_partitions_folders entries)))
             (hd (mk_folder [] false [] []) sample_group)
             (or_introl eq_refl) eq_refl).
Defined.

End Partition.

(** ** Cells of the summary sheet *)

Section Summary.
Import PyFacts.

Lemma cell_set (r c : nat) (v : str) (t : sheet) (r' c' : nat) :
  cell_value (set_cell r c v t) r' c'
  = if (r =? r') && (c =? c') then Some v else cell_value t r' c'.
Proof.
  unfold cell_value, set_cell. cbn [written find fst snd].
  destruct ((r =? r') && (c =? c')); reflexivity.
Qed.

Lemma fill_rows_unfold (numbers : list str) (itf : list (str * folder)) (t : sheet) :
  fill_rows numbers itf t
  = fold_left (fill_row itf) (combine (seq 0 (length numbers)) numbers)
      (fold_left clear_row (seq 4 (length numbers)) t).
Proof. reflexivity. Qed.

Lemma fill_row_cell (itf : list (str * folder)) (t : sheet) (i : nat) (inv : str)
      (r c : nat) :
  cell_value (fill_row itf t (i, inv)) r c
  = if (4 + i =? r) && (c =? _COL_GTD) then Some (snd (row_texts itf inv))
    else if (4 + i =? r) && (c =? _COL_ESD) then Some (fst (row_texts itf inv))
    else if (4 + i =? r) && (c =? 2) then Some inv
    else cell_value t r c.
Proof.
  unfold fill_row, row_texts.
  destruct (dict_get itf inv) as [fd|].
  - destruct (_collect_esd_and_gtd_from_one_folder fd) as [e g].
    rewrite !cell_set. cbn [fst snd].
    rewrite (Nat.eqb_sym _COL_GTD c), (Nat.eqb_sym _COL_ESD c), (Nat.eqb_sym 2 c).
    reflexivity.
  - rewrite !cell_set. cbn [fst snd].
    rewrite (Nat.eqb_sym _COL_GTD c), (Nat.eqb_sym _COL_ESD c), (Nat.eqb_sym 2 c).
    reflexivity.
Qed.

Lemma fill_row_other (itf : list (str * folder)) (t : sheet) (i : nat) (inv : str)
      (r c : nat) :
  4 + i <> r \/ (c <> 2 /\ c <> _COL_ESD /\ c <> _COL_GTD) ->
  cell_value (fill_row itf t (i, inv)) r c = cell_value t r c.
Proof.
  intros H. rewrite fill_row_cell.
  destruct (Nat.eqb_spec (4 + i) r) as [Er|Er]; [|reflexivity].
  destruct H as [H|(H2 & H10 & H15)]; [congruence|].
  destruct (Nat.eqb_spec c _COL_GTD); [congruence|].
  destruct (Nat.eqb_spec c _COL_ESD); [congruence|].
  destruct (Nat.eqb_spec c 2); [congruence|]. reflexivity.
Qed.

Lemma fill_fold_other (itf : list (str * folder)) (l : list (nat * str)) (t : sheet)
      (r c : nat) :
  (forall i inv, In (i, inv) l ->
     4 + i <> r \/ (c <> 2 /\ c <> _COL_ESD /\ c <> _COL_GTD)) ->
  cell_value (fold_left (fill_row itf) l t) r c = cell_value t r c.
Proof.
  revert t. induction l as [|[i inv] l IH]; intros t H; [reflexivity|].
  cbn [fold_left]. rewrite IH.
  - apply fill_row_other, (H i inv). left. reflexivity.
  - intros j x Hin. apply (H j x). right. exact Hin.
Qed.

Lemma clear_fold_other (l : list nat) (t : sheet) (r c : nat) :
  (forall r', In r' l -> r' <> r \/ (c <> 2 /\ c <> _COL_ESD /\ c <> _COL_GTD)) ->
  cell_value (fold_left clear_row l t) r c = cell_value t r c.
Proof.
  revert t. induction l as [|r' l IH]; intros t H; [reflexivity|].
  cbn [fold_left]. rewrite IH by (intros x Hx; apply H; right; exact Hx).
  unfold clear_row. rewrite !cell_set.
  destruct (Nat.eqb_spec r' r) as [Er|Er]; [|reflexivity].
  destruct (H r' (or_introl eq_refl)) as [H'|(H2 & H10 & H15)]; [congruence|].
  destruct (Nat.eqb_spec _COL_GTD c); [congruence|].
  destruct (Nat.eqb_spec _COL_ESD c); [congruence|].
  destruct (Nat.eqb_spec 2 c); [congruence|]. reflexivity.
Qed.

Lemma combine_seq_index (numbers : list str) (s i : nat) (inv : str) :
  In (i, inv) (combine (seq s (length numbers)) numbers) ->
  s <= i < s + length numbers.
Proof.
  intros H. apply in_combine_l, in_seq in H. exact H.
Qed.

(** The cells of the row of the [i]-th number after the loop. *)
Lemma fill_fold_row (itf : list (str * folder)) (numbers : list str) :
  forall (s : nat) (t : sheet) (i : nat) (inv : str) (c : nat),
    nth_error numbers i = Some inv ->
    cell_value (fold_left (fill_row itf) (combine (seq s (length numbers)) numbers) t)
               (4 + (s + i)) c
    = cell_value (fill_row itf t (s + i, inv)) (4 + (s + i)) c.
Proof.
  induction numbers as [|a numbers IH]; intros s t i inv c H.
  - destruct i; discriminate.
  - cbn [length seq combine fold_left]. destruct i as [|i].
    + cbn [nth_error] in H. inversion H; subst a. rewrite Nat.add_0_r.
      apply fill_fold_other. intros j x Hin.
      apply combine_seq_index in Hin. left. lia.
    + cbn [nth_error] in H.
      replace (s + S i) with (S s + i) by lia.
      rewrite (IH (S s) _ i inv c H).
      rewrite !fill_row_cell.
      destruct ((4 + (S s + i) =? 4 + (S s + i)) && (c =? _COL_GTD)); [reflexivity|].
      destruct ((4 + (S s + i) =? 4 + (S s + i)) && (c =? _COL_ESD)); [reflexivity|].
      destruct ((4 + (S s + i) =? 4 + (S s + i)) && (c =? 2)); [reflexivity|].
      destruct (Nat.eqb_spec (4 + s) (4 + (S s + i))) as [E|E]; [lia|]. reflexivity.
Qed.

Lemma fill_rows_row (numbers : list str) (itf : list (str * folder)) (t : sheet)
      (i : nat) (inv : str) :
  nth_error numbers i = Some inv ->
  cell_value (fill_rows numbers itf t) (4 + i) 2 = Some inv
  /\ cell_value (fill_rows numbers itf t) (4 + i) _COL_ESD = Some (fst (row_texts itf inv))
  /\ cell_value (fill_rows numbers itf t) (4 + i) _COL_GTD = Some (snd (row_texts itf inv)).
Proof.
  intros H. rewrite fill_rows_unfold.
  pose proof (fun c => fill_fold_row itf numbers 0
                         (fold_left clear_row (seq 4 (length numbers)) t) i inv c H) as R.
  cbn [Nat.add] in R. rewrite !R, !fill_row_cell, Nat.eqb_refl.
  repeat split; reflexivity.
Qed.

Lemma fill_rows_other (numbers : list str) (itf : list (str * folder)) (t : sheet)
      (r c : nat) :
  numbers <> [] -> in_table numbers r c = false ->
  cell_value (fill_rows numbers itf t) r c = cell_value t r c.
Proof.
  intros Hne H. rewrite fill_rows_unfold.
  assert (O : r < 4 \/ 4 + length numbers <= r
              \/ (c <> 2 /\ c <> _COL_ESD /\ c <> _COL_GTD)).
  { unfold in_table in H. destruct numbers as [|a l]; [congruence|].
    destruct (Nat.leb_spec 4 r); [|lia].
    destruct (Nat.ltb_spec r (4 + length (a :: l))); [|lia].
    cbn [andb] in H. apply orb_false_iff in H as [H H15].
    apply orb_false_iff in H as [H2 H10].
    apply Nat.eqb_neq in H2, H10, H15. right. right. auto. }
  rewrite fill_fold_other.
  - apply clear_fold_other. intros r' Hr'. apply in_seq in Hr'. lia.
  - intros i inv Hin. apply combine_seq_index in Hin. lia.
Qed.

Lemma find_update_first (p : sheet -> bool) (f : sheet -> sheet) (wb : workbook) :
  (forall sh, p (f sh) = p sh) ->
  find p (update_first p f wb) = option_map f (find p wb).
Proof.
  intros H. induction wb as [|sh wb IH]; [reflexivity|].
  cbn [update_first find]. destruct (p sh) eqn:E.
  - cbn [find]. rewrite H, E. reflexivity.
  - cbn [find]. rewrite E. exact IH.
Qed.

Lemma update_first_split (p : sheet -> bool) (f : sheet -> sheet) (wb : workbook)
      (t : sheet) :
  find p wb = Some t ->
  exists pre post,
    wb = pre ++ t :: post /\ update_first p f wb = pre ++ f t :: post
    /\ forallb (fun sh => negb (p sh)) pre = true.
Proof.
  induction wb as [|sh wb IH]; [discriminate|].
  cbn [find update_first]. destruct (p sh) eqn:E.
  - intros H. inversion H; subst. exists [], wb. auto.
  - intros H. destruct (IH H) as (pre & post & E1 & E2 & E3).
    exists (sh :: pre), post. cbn [app forallb]. rewrite E, E3, <- E1, E2. auto.
Qed.

Lemma is_total_title (sh sh' : sheet) : title sh' = title sh -> is_total sh' = is_total sh.
Proof. unfold is_total. intros ->. reflexivity. Qed.

(** What [_fill_total_sheet] does to the workbook: the first summary sheet
    is replaced by its filled version. *)
Lemma fill_total_unfold (wb : workbook) (itf : list (str * folder)) (t : sheet) :
  _find_total_sheet wb = Some t ->
  let numbers := _get_sorted_invoice_numbers_from_wb wb in
  let t' := match numbers with
            | [] => set_cell 4 2 [] t
            | _ => fill_rows numbers itf t
            end in
  _find_total_sheet (_fill_total_sheet wb itf) = Some t'
  /\ exists pre post,
       wb = pre ++ t :: post /\ _fill_total_sheet wb itf = pre ++ t' :: post
       /\ forallb (fun sh => negb (is_total sh)) pre = true.
Proof.
  intros H numbers t'. subst numbers t'. unfold _fill_total_sheet, _find_total_sheet in *.
  rewrite H.
  destruct (_get_sorted_invoice_numbers_from_wb wb) as [|a l].
  - split.
    + rewrite find_update_first by (intros sh; apply is_total_title; reflexivity).
      rewrite H. reflexivity.
    + apply update_first_split, H.
  - split.
    + rewrite find_update_first
        by (intros sh; apply is_total_title, fill_rows_sheet).
      rewrite H. reflexivity.
    + apply update_first_split, H.
Qed.

(** X13. In a workbook with a summary sheet, after [_fill_total_sheet]
    the row 4 + i of the first summary sheet holds the i-th invoice number
    in column 2 and, in the columns of the two kinds of supporting
    documents, the identifiers found in the folder recorded for that
    number, joined by commas, or a dash where there is none or no folder
    is recorded. With no invoice number the cell of the first number is
    emptied. *)
Theorem fill_total_sheet_rows (wb : workbook) (inv_to_folder : list (str * folder))
    (total : sheet) :
  _find_total_sheet wb = Some total ->
  let numbers := _get_sorted_invoice_numbers_from_wb wb in
  exists total' : sheet,
    _find_total_sheet (_fill_total_sheet wb inv_to_folder) = Some total'
    /\ (numbers = [] -> cell_value total' 4 2 = Some [])
    /\ forall (i : nat) (inv_num : str),
         nth_error numbers i = Some inv_num ->
         cell_value total' (4 + i) 2 = Some inv_num
         /\ cell_value total' (4 + i) _COL_ESD
            = Some (fst (row_texts inv_to_folder inv_num))
         /\ cell_value total' (4 + i) _COL_GTD
            = Some (snd (row_texts inv_to_folder inv_num)).
Proof.
  intros H numbers.
  destruct (fill_total_unfold wb inv_to_folder total H) as [F _]. cbv zeta in F.
  fold numbers in F. eexists. split; [exact F|].
  destruct numbers as [|a l] eqn:E.
  - split; [intros _; apply cell_set|].
    intros i inv Hi. destruct i; discriminate.
  - split; [discriminate|].
    intros i inv Hi. apply fill_rows_row, Hi.
Qed.

(** X14. [_fill_total_sheet] changes nothing else: a workbook without
    a summary sheet comes back unchanged; otherwise only the first summary
    sheet is touched, it keeps its title and origin, and every cell of it
    outside the rows of the current invoice numbers and the three columns
    written keeps its value, so the rows left from a longer list are not
    cleared. *)
Theorem fill_total_sheet_keeps_the_rest (wb : workbook)
    (inv_to_folder : list (str * folder)) :
  (_find_total_sheet wb = None -> _fill_total_sheet wb inv_to_folder = wb)
  /\ forall total : sheet,
       _find_total_sheet wb = Some total ->
       exists (pre post : list sheet) (total' : sheet),
         wb = pre ++ total :: post
         /\ _fill_total_sheet wb inv_to_folder = pre ++ total' :: post
         /\ forallb (fun sh => negb (is_total sh)) pre = true
         /\ title total' = title total
         /\ copied_from total' = copied_from total
         /\ forall r c : nat,
              in_table (_get_sorted_invoice_numbers_from_wb wb) r c = false ->
              cell_value total' r c = cell_value total r c.
Proof.
  split.
  - intros H. unfold _fill_total_sheet. rewrite H. reflexivity.
  - intros total H.
    destruct (fill_total_unfold wb inv_to_folder total H) as [_ (pre & post & E1 & E2 & E3)].
    cbv zeta in E2. exists pre, post. eexists. split; [exact E1|]. split; [exact E2|].
    split; [exact E3|].
    destruct (_get_sorted_invoice_numbers_from_wb wb) as [|a l] eqn:E.
    + split; [reflexivity|]. split; [reflexivity|].
      intros r c Hrc. rewrite cell_set. cbn [in_table] in Hrc.
      rewrite (Nat.eqb_sym 4 r), (Nat.eqb_sym 2 c), Hrc. reflexivity.
    + split; [apply fill_rows_sheet|]. split; [apply fill_rows_sheet|].
      intros r c Hrc. apply fill_rows_other; [discriminate | exact Hrc].
Qed.

End Summary.

Section SummaryWitness.

Lemma fill_total_sheet_rows_witness :
  (exists total' : sheet,
      _find_total_sheet (_fill_total_sheet sample_book sample_inv_to_folder) = Some total'
      /\ cell_value total' 4 2 = Some (txt "2")
      /\ cell_value total' 4 _COL_ESD
         = Some (fst (row_texts sample_inv_to_folder (txt "2")))
      /\ cell_value total' 4 _COL_GTD
         = Some (snd (row_texts sample_inv_to_folder (txt "2"))))
  /\ exists total' : sheet,
       _find_total_sheet (_fill_total_sheet [plain_sheet (txt "Total")] []) = Some total'
       /\ cell_value total' 4 2 = Some [].
Proof.
  split.
  - destruct (fill_total_sheet_rows sample_book sample_inv_to_folder
                (plain_sheet (txt "Total")) eq_refl) as (t' & F & _ & R).
    exists t'. split; [exact F|]. apply (R 0 (txt "2")). reflexivity.
  - destruct (fill_total_sheet_rows [plain_sheet (txt "Total")] []
                (plain_sheet (txt "Total")) eq_refl) as (t' & F & E & _).
    exists t'. split; [exact F|]. apply E. reflexivity.
Defined.

Lemma fill_total_sheet_keeps_the_rest_witness :
  _fill_total_sheet [plain_sheet (txt "1"); plain_sheet (txt "2")] sample_inv_to_folder
  = [plain_sheet (txt "1"); plain_sheet (txt "2")]
  /\ exists (pre post : list sheet) (total' : sheet),
       sample_book = pre ++ plain_sheet (txt "Total") :: post
       /\ _fill_total_sheet sample_book sample_inv_to_folder = pre ++ total' :: post
       /\ title total' = txt "Total"
       /\ cell_value total' 6 2 = cell_value (plain_sheet (txt "Total")) 6 2
       /\ cell_value total' 4 3 = cell_value (plain_sheet (txt "Total")) 4 3.
Proof.
  split.
  - apply (proj1 (fill_total_sheet_keeps_the_rest
                    [plain_sheet (txt "1"); plain_sheet (txt "2")] sample_inv_to_folder)).
    reflexivity.
  - destruct (proj2 (fill_total_sheet_keeps_the_rest sample_book sample_inv_to_folder)
                (plain_sheet (txt "Total")) eq_refl)
      as (pre & post & t' & E1 & E2 & _ & T & _ & K).
    exists pre, post, t'.
    split; [exact E1|]. split; [exact E2|]. split; [exact T|].
    split; apply K; reflexivity.
Defined.

End SummaryWitness.

(** ** The summary sheet after an update *)

Section Refresh.
Import PyFacts.

Lemma discover_new_fst (existing : list str) (paths : list (document * folder)) :
  forall (itf : list (str * folder)) (np : list (document * str)) (t : str),
    dict_get (fst (discover_new existing paths itf np)) t
    = match last_folder paths t with
      | Some fd => Some fd
      | None => dict_get itf t
      end.
Proof.
  induction paths as [|[d fd] paths IH]; intros itf np t; [reflexivity|].
  cbn [discover_new last_folder]. destruct (doc_sheet d) as [sn|].
  - rewrite IH. destruct (last_folder paths t); [reflexivity|].
    unfold dict_get, dict_set. cbn [find fst snd].
    destruct (Py.eqb t sn); reflexivity.
  - rewrite IH. destruct (last_folder paths t); reflexivity.
Qed.

Lemma process_update_unfold (app_name : str) (first_folder : folder) (rest : list folder)
      (template_path : template) (output_dir : directory) (wb : workbook) :
  let folders := first_folder :: rest in
  let out := out_path_of first_folder template_path in
  dict_get output_dir out = Some wb ->
  process_application app_name folders template_path output_dir
  = Some (length (filter copy_succeeds (to_copy_update (titles wb) folders)), out,
          dict_set output_dir out
            (_fill_total_sheet
               (transplant (to_copy_update (titles wb) folders) wb)
               (fst (discover_new (titles wb) (all_paths folders) [] [])))).
Proof.
  cbv zeta. intros G. unfold process_application.
  fold (out_path_of first_folder template_path). rewrite G.
  unfold to_copy_update.
  destruct (discover_new (titles wb) (all_paths (first_folder :: rest)) [] [])
    as [itf new_paths].
  cbn [fst snd]. rewrite copy_new_transplant. reflexivity.
Qed.

Lemma numbers_of_titles (wb1 wb2 : workbook) :
  titles wb1 = titles wb2 ->
  _get_sorted_invoice_numbers_from_wb wb1 = _get_sorted_invoice_numbers_from_wb wb2.
Proof.
  intros T. rewrite !sorted_invoice_numbers_unfold.
  assert (E : forall wb,
            map title (filter (fun sh => negb (reserved_title (title sh))) (skipn 1 wb))
            = filter (fun t => negb (reserved_title t)) (skipn 1 (titles wb))).
  { intros wb. unfold titles. rewrite skipn_map, filter_map_swap. reflexivity. }
  rewrite !E, T. reflexivity.
Qed.

(** X21. A run on an existing workbook rewrites the summary rows of all
    invoice numbers of the workbook: the folder recorded for a number is
    the folder of the last discovered document whose first sheet has that
    title, and the row of a number for which no document was discovered
    gets dashes. *)
Theorem update_run_refreshes_summary
    (app_name : str) (invoice_folders : list folder) (template_path : template)
    (output_dir : directory) (n : nat) (out_path : str) (output_dir' : directory)
    (wb : workbook) :
  process_application app_name invoice_folders template_path output_dir
  = Some (n, out_path, output_dir') ->
  dict_get output_dir out_path = Some wb ->
  exists (wb' : workbook) (inv_to_folder : list (str * folder)),
    dict_get output_dir' out_path = Some wb'
    /\ (forall t : str,
          dict_get inv_to_folder t = last_folder (all_paths invoice_folders) t)
    /\ forall total' : sheet,
         _find_total_sheet wb' = Some total' ->
         forall (i : nat) (inv_num : str),
           nth_error (_get_sorted_invoice_numbers_from_wb wb') i = Some inv_num ->
           cell_value total' (4 + i) 2 = Some inv_num
           /\ cell_value total' (4 + i) _COL_ESD
              = Some (fst (row_texts inv_to_folder inv_num))
           /\ cell_value total' (4 + i) _COL_GTD
              = Some (snd (row_texts inv_to_folder inv_num)).
Proof.
  destruct invoice_folders as [|first_folder rest]; [discriminate|].
  intros H G.
  assert (Eo : out_path = out_path_of first_folder template_path).
  { destruct (process_application_unfold app_name first_folder rest template_path output_dir)
      as [itf0 E0].
    cbv zeta in E0. rewrite E0 in H.
    destruct (dict_get output_dir (out_path_of first_folder template_path));
      inversion H; reflexivity. }
  subst out_path.
  pose proof (process_update_unfold app_name first_folder rest template_path output_dir wb G)
    as E.
  cbv zeta in E. rewrite E in H. inversion H; subst. clear H E.
  set (folders := first_folder :: rest).
  set (itf := fst (discover_new (titles wb) (all_paths folders) [] [])).
  set (mid := transplant (to_copy_update (titles wb) folders) wb).
  exists (_fill_total_sheet mid itf), itf.
  split; [apply dict_get_set|]. split.
  - intros t. unfold itf. rewrite discover_new_fst.
    destruct (last_folder (all_paths folders) t); reflexivity.
  - intros total' F i inv Hi.
    rewrite (numbers_of_titles _ mid (proj1 (fill_total_sheets mid itf))) in Hi.
    destruct (_find_total_sheet mid) as [total|] eqn:Fm.
    + destruct (fill_total_unfold mid itf total Fm) as [F' _]. cbv zeta in F'.
      rewrite F in F'. inversion F'; subst total'. clear F'.
      destruct (_get_sorted_invoice_numbers_from_wb mid) as [|a l] eqn:En.
      * destruct i; discriminate.
      * apply fill_rows_row, Hi.
    + exfalso. unfold _fill_total_sheet in F. rewrite Fm in F. congruence.
Qed.

Lemma update_run_refreshes_summary_witness :
  exists n out_path output_dir' wb' total',
    process_application [] sample_group sample_template sample_directory
    = Some (n, out_path, output_dir')
    /\ dict_get output_dir' out_path = Some wb'
    /\ _find_total_sheet wb' = Some total'
    /\ cell_value total' (4 + 1) 2 = Some (txt "2")
    /\ cell_value total' (4 + 1) _COL_ESD = Some (txt "E1").
Proof.
  destruct (process_application [] sample_group sample_template sample_directory)
    as [[[n p] d]|] eqn:E; [|vm_compute in E; discriminate].
  pose proof E as E'. vm_compute in E'. inversion E'; subst n p d. clear E'.
  destruct (update_run_refreshes_summary _ _ _ _ _ _ _ sample_book E eq_refl)
    as (wb' & itf & G & A & R).
  pose proof G as G'. vm_compute in G'. inversion G' as [Ew]. clear G'.
  assert (F : exists t, _find_total_sheet wb' = Some t)
    by (rewrite <- Ew; eexists; vm_compute; reflexivity).
  destruct F as [t F].
  destruct (R t F 1 (txt "2")) as (R1 & R2 & _).
  { rewrite <- Ew. vm_compute. reflexivity. }
  eexists _, _, _, wb', t. split; [reflexivity|]. split; [exact G|].
  split; [exact F|]. split; [exact R1|].
  rewrite R2. unfold row_texts. rewrite A. vm_compute. reflexivity.
Defined.

End Refresh.

(** ** Copies that fail *)

Section FailedCopies.

Lemma creates_split (l : list document) :
  length (filter creates_sheet l)
  = length (filter copy_succeeds l) + length (filter fails_after_create l).
Proof.
  induction l as [|d l IH]; [reflexivity|].
  cbn [filter]. unfold fails_after_create at 1.
  destruct (copy_succeeds d) eqn:S.
  - rewrite (copy_succeeds_creates d S). cbn [andb negb length]. rewrite IH. reflexivity.
  - destruct (creates_sheet d); cbn [andb negb length]; rewrite IH; lia.
Qed.

Lemma fails_after_creates (l : list document) :
  filter fails_after_create (filter creates_sheet l) = filter fails_after_create l.
Proof.
  induction l as [|d l IH]; [reflexivity|]. cbn [filter]. unfold fails_after_create at 2.
  destruct (creates_sheet d) eqn:C; cbn [filter andb].
  - unfold fails_after_create at 1. rewrite C, IH. reflexivity.
  - exact IH.
Qed.

(** X20. A copy that raises after the sheet was created leaves that
    sheet in the workbook and is not counted: the saved workbook has the
    sheets it started with, one for each copy counted, and one for each
    such failed copy. *)
Theorem failed_copies_leave_sheets
    (app_name : str) (invoice_folders : list folder) (template_path : template)
    (output_dir : directory) (n : nat) (out_path : str) (output_dir' : directory) :
  process_application app_name invoice_folders template_path output_dir
  = Some (n, out_path, output_dir') ->
  let found := dict_get output_dir out_path in
  exists wb' : workbook,
    dict_get output_dir' out_path = Some wb'
    /\ length wb'
       = length (start_book template_path found) + n
         + length (filter fails_after_create (wanted invoice_folders found)).
Proof.
  destruct invoice_folders as [|first_folder rest]; [discriminate|].
  destruct (process_application_unfold app_name first_folder rest template_path output_dir)
    as [itf ->].
  cbv zeta. intros H.
  assert (G : forall (wb0 : workbook) (docs l : list document),
            Permutation docs l ->
            length (_fill_total_sheet (transplant docs wb0) itf)
            = length wb0 + length (filter copy_succeeds docs)
              + length (filter fails_after_create l)).
  { intros wb0 docs l P.
    rewrite <- (length_map title (_fill_total_sheet _ _)).
    fold (titles (_fill_total_sheet (transplant docs wb0) itf)).
    rewrite (proj1 (fill_total_sheets _ _)). unfold titles. rewrite length_map.
    destruct (transplant_appends docs wb0) as (new & -> & Hnew).
    rewrite length_app, <- (length_map copied_from new), Hnew, length_map, creates_split.
    rewrite (Permutation_length (filter_permutation fails_after_create _ _ P)). lia. }
  destruct (dict_get output_dir (out_path_of first_folder template_path)) as [wb|] eqn:E;
    inversion H; subst; clear H; rewrite E; cbn [start_book wanted];
    eexists; (split; [apply dict_get_set|]).
  - apply G, to_copy_update_perm.
  - apply G, to_copy_create_perm.
Qed.

Lemma failed_copies_leave_sheets_witness :
  exists n out_path output_dir',
    process_application [] failing_group sample_template [] = Some (n, out_path, output_dir')
    /\ exists wb' : workbook,
         dict_get output_dir' out_path = Some wb'
         /\ length wb'
            = length (template_book sample_template) + n
              + length (filter fails_after_create (wanted failing_group None)).
Proof.
  eexists _, _, _. split; [vm_compute; reflexivity|].
  refine (failed_copies_leave_sheets [] failing_group sample_template [] _ _ _ _).
  vm_compute. reflexivity.
Defined.

End FailedCopies.

(** ** The title of a copied sheet *)

Section TitleSpec.
Import PyFacts IntFacts.

Lemma next_free_ge (existing : list str) (base : str) (fuel n : nat) :
  n <= next_free existing base n fuel.
Proof.
  revert n. induction fuel as [|fuel IH]; intros n; [apply le_n|].
  cbn [next_free]. destruct (Py.mem (suffixed base n) existing); [|apply le_n].
  specialize (IH (S n)). lia.
Qed.

(** X15. The title given to a copied sheet has at most 31 characters.
    It is the desired title cut to 31 characters when no sheet has that
    title; otherwise it is that title with the suffix of the least number
    from 1 on for which the suffixed title is free, cut to 31 characters,
    and it is a title no sheet has whenever the suffixed title fits into
    31 characters. *)
Theorem new_sheet_title_spec (desired : str) (existing : list str) :
  let name := Py.take 31 desired in
  let t := new_sheet_title desired existing in
  length t <= 31
  /\ (~ In name existing -> t = name)
  /\ (In name existing ->
      exists n : nat,
        1 <= n
        /\ t = Py.take 31 (suffixed name n)
        /\ ~ In (suffixed name n) existing
        /\ (forall k : nat, 1 <= k < n -> In (suffixed name k) existing)
        /\ (length (suffixed name n) <= 31 -> t = suffixed name n /\ ~ In t existing)).
Proof.
  intros name t. subst name t. split; [apply new_sheet_title_length|].
  unfold new_sheet_title. split.
  - intros H. apply mem_not_In in H. rewrite H. reflexivity.
  - intros H. apply mem_In in H. rewrite H.
    set (name := Py.take 31 desired).
    set (n := next_free existing name 1 (length existing)).
    exists n. split; [apply next_free_ge|]. split; [reflexivity|].
    pose proof (next_free_fresh existing name) as F. fold n in F.
    split; [exact F|]. split.
    + intros k Hk. apply (next_free_least existing name (length existing) 1 k). exact Hk.
    + intros L. rewrite take_short by exact L. split; [reflexivity | exact F].
Qed.

Lemma new_sheet_title_spec_witness :
  new_sheet_title (txt "8") [txt "7"; txt "7_1"] = Py.take 31 (txt "8")
  /\ new_sheet_title (txt "7") [txt "7"; txt "7_1"] = txt "7_2"
  /\ ~ In (new_sheet_title (txt "7") [txt "7"; txt "7_1"]) [txt "7"; txt "7_1"].
Proof.
  split.
  - apply (proj1 (proj2 (new_sheet_title_spec (txt "8") [txt "7"; txt "7_1"]))).
    vm_compute. intuition discriminate.
  - destruct (proj2 (proj2 (new_sheet_title_spec (txt "7") [txt "7"; txt "7_1"])))
      as (n & Hn & _ & Hfree & Hleast & Hfit).
    { left. reflexivity. }
    destruct n as [|[|[|n]]].
    + lia.
    + exfalso. apply Hfree. right. left. reflexivity.
    + destruct Hfit as [E F]; [vm_compute; lia|]. split; [exact E | exact F].
    + exfalso. assert (H : In (suffixed (Py.take 31 (txt "7")) 2) [txt "7"; txt "7_1"])
        by (apply Hleast; lia).
      vm_compute in H. intuition discriminate.
Defined.

End TitleSpec.

(** ** One run on a group *)

Section OneGroup.
Import PyFacts.

Lemma dict_get_set_other {V : Type} (d : list (str * V)) (k k' : str) (v : V) :
  k' <> k -> dict_get (dict_set d k v) k' = dict_get d k'.
Proof.
  intros N. unfold dict_get, dict_set. cbn [find fst].
  apply eqb_neq in N. rewrite N. reflexivity.
Qed.

Lemma filter_length_le {A : Type} (p : A -> bool) (l : list A) :
  length (filter p l) <= length l.
Proof.
  induction l as [|a l IH]; [apply le_n|]. cbn [filter].
  destruct (p a); cbn [length]; lia.
Qed.

Lemma no_creation_no_success (docs : list document) :
  (forall d, In d docs -> creates_sheet d = false) -> filter copy_succeeds docs = [].
Proof.
  induction docs as [|d docs IH]; intros H; [reflexivity|]. cbn [filter].
  destruct (copy_succeeds d) eqn:S.
  - apply copy_succeeds_creates in S.
    rewrite (H d (or_introl eq_refl)) in S. discriminate.
  - apply IH. intros d' Hd'. apply H. right. exact Hd'.
Qed.

(** One run on a group, seen from the output directory. *)
Lemma process_application_step (app_name : str) (first_folder : folder)
      (rest : list folder) (template_path : template) (output_dir : directory) :
  let folders := first_folder :: rest in
  let out := out_path_of first_folder template_path in
  let wb0 := start_book template_path (dict_get output_dir out) in
  exists n wb1,
    process_application app_name folders template_path output_dir
    = Some (n, out, dict_set output_dir out wb1)
    /\ n <= length (all_paths folders)
    /\ (forall t, In t (titles wb0) -> In t (titles wb1))
    /\ (plain_numbers folders ->
        forall d, In d (map fst (all_paths folders)) -> creates_sheet d = true ->
                  In (invoice_number d) (titles wb1))
    /\ (settled template_path output_dir folders -> n = 0 /\ titles wb1 = titles wb0).
Proof.
  intros folders out wb0.
  destruct (process_application_unfold app_name first_folder rest template_path output_dir)
    as [itf E].
  cbv zeta in E. fold out folders in E. rewrite E. clear E. subst wb0.
  destruct (dict_get output_dir out) as [wb|] eqn:G; cbn [start_book].
  - set (docs := to_copy_update (titles wb) folders).
    pose proof (to_copy_update_perm (titles wb) folders) as P. fold docs in P.
    eexists _, _. split; [reflexivity|]. split; [|split; [|split]].
    + etransitivity; [apply filter_length_le|].
      rewrite (Permutation_length P).
      etransitivity; [apply filter_length_le|]. rewrite length_map. apply le_n.
    + intros t Ht. rewrite (proj1 (fill_total_sheets _ _)).
      apply transplant_keeps_titles, Ht.
    + intros Hs d Hd Hc. rewrite (proj1 (fill_total_sheets _ _)).
      destruct (in_dec str_eq_dec (invoice_number d) (titles wb)) as [Hin|Hin].
      * apply transplant_keeps_titles, Hin.
      * destruct (Hs d Hd Hc) as (Hne & Hl & Hu).
        apply transplant_present; [|assumption..].
        apply (Permutation_in _ (Permutation_sym P)).
        apply filter_In. split; [exact Hd | apply creates_missing; assumption].
    + intros (wb' & G' & Hall). cbn [settled] in *. fold out in G'.
      rewrite G in G'. inversion G'; subst wb'. clear G'.
      assert (Hnone : forall d, In d docs -> creates_sheet d = false).
      { intros d Hd. apply (Permutation_in _ P) in Hd.
        apply filter_In in Hd as [Hd Hm].
        destruct (creates_sheet d) eqn:C; [|reflexivity].
        exfalso. apply (missing_not_title _ _ Hm). apply Hall; assumption. }
      rewrite (no_creation_no_success docs Hnone), (transplant_noop docs wb Hnone).
      split; [reflexivity | apply fill_total_sheets].
  - set (docs := to_copy_create folders).
    pose proof (to_copy_create_perm folders) as P. fold docs in P.
    eexists _, _. split; [reflexivity|]. split; [|split; [|split]].
    + etransitivity; [apply filter_length_le|].
      rewrite (Permutation_length P).
      etransitivity; [apply filter_length_le|]. rewrite length_map. apply le_n.
    + intros t Ht. rewrite (proj1 (fill_total_sheets _ _)).
      apply transplant_keeps_titles, Ht.
    + intros Hs d Hd Hc. rewrite (proj1 (fill_total_sheets _ _)).
      destruct (Hs d Hd Hc) as (Hne & Hl & Hu).
      apply transplant_present; [|assumption..].
      apply (Permutation_in _ (Permutation_sym P)).
      apply filter_In. split; [exact Hd | apply creates_readable; exact Hc].
    + intros (wb' & G' & _). cbn [settled] in *. fold out in G'. congruence.
Qed.

(** X16. The processing of a group saves one file: the path returned
    is the name built from the template name and the name of the first
    folder, with the lower-cased suffix of the template; every other file
    of the output directory is left as it was; and the count returned is
    at most the number of documents discovered. *)
Theorem process_application_touches_one_file
    (app_name : str) (invoice_folders : list folder) (template_path : template)
    (output_dir : directory) (n : nat) (out_path : str) (output_dir' : directory) :
  process_application app_name invoice_folders template_path output_dir
  = Some (n, out_path, output_dir') ->
  out_path
  = build_upload_table_filename (template_stem template_path)
      (folder_name (hd (mk_folder [] false [] []) invoice_folders)) None
    ++ Py.lower (template_suffix template_path)
  /\ (forall path : str,
        path <> out_path -> dict_get output_dir' path = dict_get output_dir path)
  /\ n <= length (all_paths invoice_folders).
Proof.
  destruct invoice_folders as [|first_folder rest]; [discriminate|].
  pose proof (process_application_step app_name first_folder rest template_path output_dir)
    as St.
  cbv zeta in St. destruct St as (n' & wb1 & E & Hn & _).
  rewrite E. intros H. inversion H; subst. clear H.
  split; [reflexivity|]. split; [|exact Hn].
  intros path Hp. apply dict_get_set_other, Hp.
Qed.

Lemma process_application_touches_one_file_witness :
  exists n out_path output_dir',
    process_application [] sample_group sample_template [] = Some (n, out_path, output_dir')
    /\ n <= length (all_paths sample_group).
Proof.
  eexists _, _, _. split; [vm_compute; reflexivity|].
  refine (proj2 (proj2 (process_application_touches_one_file
                          [] sample_group sample_template [] _ _ _ _))).
  vm_compute. reflexivity.
Defined.

End OneGroup.

(** ** The run over all groups *)

Section AllGroups.
Import PyFacts.
Context (template_path : template).

Lemma settled_after_step (output_dir : directory) (out : str) (wb1 : workbook)
      (folders : list folder) :
  (forall t, In t (titles (start_book template_path (dict_get output_dir out))) ->
             In t (titles wb1)) ->
  settled template_path output_dir folders ->
  settled template_path (dict_set output_dir out wb1) folders.
Proof.
  intros Hsub. destruct folders as [|first_folder rest]; [exact (fun H => H)|].
  cbn [settled]. intros (wb & G & Hall).
  destruct (str_eq_dec (out_path_of first_folder template_path) out) as [E|E].
  - exists wb1. rewrite E, dict_get_set. split; [reflexivity|].
    intros d Hd Hc. apply Hsub. rewrite <- E, G. cbn [start_book]. apply Hall; assumption.
  - exists wb. rewrite dict_get_set_other by exact E. split; [exact G | exact Hall].
Qed.

(** One iteration of the loop on a group with a folder. *)
Lemma main_step (app_name : str) (first_folder : folder) (rest : list folder)
      (by_app : list (str * list folder)) (output_dir : directory) (total : nat)
      (rename_list : list (str * str * str)) :
  let folders := first_folder :: rest in
  let out := out_path_of first_folder template_path in
  let wb0 := start_book template_path (dict_get output_dir out) in
  exists n wb1,
    main_process_groups ((app_name, folders) :: by_app) template_path output_dir total
      rename_list
    = main_process_groups by_app template_path (dict_set output_dir out wb1) (total + n)
        (rename_list ++ [(out, template_stem template_path, folder_name first_folder)])
    /\ (forall t, In t (titles wb0) -> In t (titles wb1))
    /\ (plain_numbers folders ->
        forall d, In d (map fst (all_paths folders)) -> creates_sheet d = true ->
                  In (invoice_number d) (titles wb1))
    /\ (settled template_path output_dir folders -> n = 0 /\ titles wb1 = titles wb0).
Proof.
  intros folders out wb0.
  pose proof (process_application_step app_name first_folder rest template_path output_dir)
    as St.
  cbv zeta in St. destruct St as (n & wb1 & E & _ & H1 & H2 & H3).
  exists n, wb1. split; [|auto].
  cbn [main_process_groups]. subst folders. rewrite E. reflexivity.
Qed.

Lemma main_skip (app_name : str) (by_app : list (str * list folder))
      (output_dir : directory) (total : nat) (rename_list : list (str * str * str)) :
  main_process_groups ((app_name, []) :: by_app) template_path output_dir total rename_list
  = main_process_groups by_app template_path output_dir total rename_list.
Proof. reflexivity. Qed.

Lemma main_first_run (by_app : list (str * list folder)) :
  (forall g, In g by_app -> plain_numbers (snd g)) ->
  forall (output_dir : directory) (total : nat) (rename_list : list (str * str * str)),
    let r := main_process_groups by_app template_path output_dir total rename_list in
    (forall fs, settled template_path output_dir fs -> settled template_path (snd r) fs)
    /\ (forall g, In g by_app -> settled template_path (snd r) (snd g)).
Proof.
  induction by_app as [|[app_name folders] by_app IH]; intros Hs output_dir total rename_list.
  - cbn. split; [auto | intros g []].
  - assert (Hs' : forall g, In g by_app -> plain_numbers (snd g))
      by (intros g Hg; apply Hs; right; exact Hg).
    destruct folders as [|first_folder rest].
    + rewrite main_skip. destruct (IH Hs' output_dir total rename_list) as [A B].
      split; [exact A|]. intros g [<-|Hg]; [exact I | apply B, Hg].
    + pose proof (main_step app_name first_folder rest by_app output_dir total rename_list)
        as St.
      cbv zeta in St. destruct St as (n & wb1 & E & H1 & H2 & _).
      cbv zeta. rewrite E.
      match goal with
      | |- context [main_process_groups by_app template_path ?d ?t ?r] =>
          destruct (IH Hs' d t r) as [A B]
      end.
      split.
      * intros fs Hfs. apply A, settled_after_step; assumption.
      * intros g [<-|Hg]; [|apply B, Hg].
        apply A. cbn [snd settled].
        exists wb1. split; [apply dict_get_set|].
        apply H2. apply (Hs (app_name, first_folder :: rest)). left. reflexivity.
Qed.

Lemma sheet_titles_step (output_dir : directory) (out : str) (wb wb1 : workbook) :
  dict_get output_dir out = Some wb -> titles wb1 = titles wb ->
  forall path, sheet_titles (dict_set output_dir out wb1) path = sheet_titles output_dir path.
Proof.
  intros G T path. unfold sheet_titles.
  destruct (str_eq_dec path out) as [->|N].
  - rewrite dict_get_set, G. cbn [option_map]. rewrite T. reflexivity.
  - rewrite dict_get_set_other by exact N. reflexivity.
Qed.

Lemma main_second_run (by_app : list (str * list folder)) :
  forall (output_dir : directory) (total : nat) (rename_list : list (str * str * str)),
    (forall g, In g by_app -> settled template_path output_dir (snd g)) ->
    exists output_dir2,
      main_process_groups by_app template_path output_dir total rename_list
      = (total, rename_list ++ rename_entries template_path by_app, output_dir2)
      /\ forall path, sheet_titles output_dir2 path = sheet_titles output_dir path.
Proof.
  induction by_app as [|[app_name folders] by_app IH]; intros output_dir total rename_list Hs.
  - exists output_dir. cbn. rewrite app_nil_r. auto.
  - destruct folders as [|first_folder rest].
    + rewrite main_skip.
      destruct (IH output_dir total rename_list) as (dir2 & E & T).
      { intros g Hg. apply Hs. right. exact Hg. }
      exists dir2. split; [exact E | exact T].
    + pose proof (main_step app_name first_folder rest by_app output_dir total rename_list)
        as St.
      cbv zeta in St. destruct St as (n & wb1 & E & H1 & _ & H3).
      pose proof (Hs _ (or_introl eq_refl)) as Hg. cbn [snd] in Hg.
      destruct (H3 Hg) as [-> T1].
      destruct Hg as (wb & G & _). rewrite G in T1, H1. cbn [start_book] in T1, H1.
      rewrite E, Nat.add_0_r.
      match goal with
      | |- context [main_process_groups by_app template_path ?d ?t ?r] =>
          destruct (IH d t r) as (dir2 & E2 & T2)
      end.
      { intros g Hin. apply settled_after_step.
        - rewrite G. exact H1.
        - apply Hs. right. exact Hin. }
      exists dir2. split.
      * rewrite E2. unfold rename_entries. cbn [flat_map snd].
        rewrite <- app_assoc. reflexivity.
      * intros path. rewrite T2. apply (sheet_titles_step _ _ wb); assumption.
Qed.

Lemma main_rename_list (by_app : list (str * list folder)) :
  forall (output_dir : directory) (total : nat) (rename_list : list (str * str * str)),
    snd (fst (main_process_groups by_app template_path output_dir total rename_list))
    = rename_list ++ rename_entries template_path by_app.
Proof.
  induction by_app as [|[app_name folders] by_app IH]; intros output_dir total rename_list.
  - cbn. rewrite app_nil_r. reflexivity.
  - destruct folders as [|first_folder rest].
    + rewrite main_skip. apply IH.
    + pose proof (main_step app_name first_folder rest by_app output_dir total rename_list)
        as St.
      cbv zeta in St. destruct St as (n & wb1 & E & _).
      rewrite E, IH. unfold rename_entries. cbn [flat_map snd].
      rewrite <- app_assoc. reflexivity.
Qed.

End AllGroups.

(** X17. After the loop over the groups, when the invoice number of
    every document that becomes a sheet is not empty and has at most 31
    characters, all of them ASCII characters other than letters, the
    output directory holds for every group the workbook of its path, and
    this workbook has a sheet titled with the invoice number of every
    document of the group whose copy creates a sheet, also where invoice
    numbers collide and where several groups share one file. *)
Theorem main_run_files_every_invoice
    (by_app : list (str * list folder)) (template_path : template)
    (output_dir : directory) (total : nat) (rename_list : list (str * str * str))
    (output_dir' : directory) :
  (forall app_name folders d,
      In (app_name, folders) by_app -> In d (map fst (all_paths folders)) ->
      creates_sheet d = true ->
      invoice_number d <> []
      /\ length (invoice_number d) <= 31
      /\ uncased (invoice_number d) = true) ->
  main_process_groups by_app template_path output_dir 0 [] = (total, rename_list, output_dir') ->
  forall (app_name : str) (first_folder : folder) (rest : list folder),
    In (app_name, first_folder :: rest) by_app ->
    exists wb : workbook,
      dict_get output_dir' (out_path_of first_folder template_path) = Some wb
      /\ forall d : document,
           In d (map fst (all_paths (first_folder :: rest))) ->
           creates_sheet d = true ->
           In (invoice_number d) (titles wb).
Proof.
  intros Hs E app_name first_folder rest Hin.
  assert (Hs' : forall g, In g by_app -> plain_numbers (snd g)).
  { intros [a fs] Hg d Hd Hc. exact (Hs a fs d Hg Hd Hc). }
  destruct (main_first_run template_path by_app Hs' output_dir 0 []) as [_ B].
  cbv zeta in B. rewrite E in B. exact (B _ Hin).
Qed.

(** X18. Running the loop over the groups a second time on the output
    directory the first run left, where the invoice number of every
    document that becomes a sheet is not empty and has at most 31
    characters, all of them ASCII characters other than letters, adds
    nothing: the total is zero, the list of files is the same, and every
    file has the sheet titles it had, also where invoice numbers collide
    and where several groups share one file. *)
Theorem main_second_run_adds_nothing
    (by_app : list (str * list folder)) (template_path : template)
    (output_dir : directory) (total : nat) (rename_list : list (str * str * str))
    (output_dir1 : directory) :
  (forall app_name folders d,
      In (app_name, folders) by_app -> In d (map fst (all_paths folders)) ->
      creates_sheet d = true ->
      invoice_number d <> []
      /\ length (invoice_number d) <= 31
      /\ uncased (invoice_number d) = true) ->
  main_process_groups by_app template_path output_dir 0 []
  = (total, rename_list, output_dir1) ->
  exists output_dir2 : directory,
    main_process_groups by_app template_path output_dir1 0 [] = (0, rename_list, output_dir2)
    /\ forall path : str, sheet_titles output_dir2 path = sheet_titles output_dir1 path.
Proof.
  intros Hs E.
  assert (Hs' : forall g, In g by_app -> plain_numbers (snd g)).
  { intros [a fs] Hg d Hd Hc. exact (Hs a fs d Hg Hd Hc). }
  destruct (main_first_run template_path by_app Hs' output_dir 0 []) as [_ B].
  cbv zeta in B. rewrite E in B. cbn [snd] in B.
  destruct (main_second_run template_path by_app output_dir1 0 [] B) as (dir2 & E2 & T2).
  exists dir2. split; [|exact T2].
  rewrite E2. cbn [app].
  pose proof (main_rename_list template_path by_app output_dir 0 []) as R.
  rewrite E in R. cbn [fst snd app] in R. rewrite R. reflexivity.
Qed.

Section MainWitness.

Lemma main_run_files_every_invoice_witness :
  exists total rename_list output_dir',
    main_process_groups sample_groups sample_template [] 0 []
    = (total, rename_list, output_dir')
    /\ exists wb : workbook,
         dict_get output_dir'
           (out_path_of (hd (mk_folder [] false [] []) numbered_twin) sample_template)
         = Some wb
         /\ In (txt "2_1") (titles wb)
         /\ In (txt "7") (titles wb).
Proof.
  destruct (main_process_groups sample_groups sample_template [] 0 [])
    as [[total rename_list] output_dir'] eqn:E.
  assert (Hs : forall app_name folders d,
             In (app_name, folders) sample_groups ->
             In d (map fst (all_paths folders)) ->
             creates_sheet d = true ->
             invoice_number d <> []
             /\ length (invoice_number d) <= 31
             /\ uncased (invoice_number d) = true).
  { intros app_name folders d [H|[H|[]]] Hd Hc; inversion H; subst; vm_compute in Hd;
      repeat (destruct Hd as [<-|Hd];
              [first [discriminate Hc
                     | split; [discriminate | split; [vm_compute; lia | reflexivity]]]|]);
      destruct Hd. }
  destruct (main_run_files_every_invoice _ _ _ _ _ _ Hs E
              (txt "App | x") (hd (mk_folder [] false [] []) numbered_twin)
              (tl numbered_twin) (or_intror (or_introl eq_refl)))
    as (wb & G & Hall).
  exists total, rename_list, output_dir'. split; [reflexivity|].
  exists wb. split; [exact G|]. split.
  - apply (Hall (mk_document (txt "e.xlsx") (Some (txt "2_1")) CopyOk)).
    + left. reflexivity.
    + reflexivity.
  - apply (Hall (mk_document (txt "f.xlsx") (Some (txt "7")) FailsAfterCreate)).
    + right. left. reflexivity.
    + reflexivity.
Defined.

Lemma main_second_run_adds_nothing_witness :
  exists total rename_list output_dir1,
    main_process_groups sample_groups sample_template [] 0 []
    = (total, rename_list, output_dir1)
    /\ exists output_dir2 : directory,
         main_process_groups sample_groups sample_template output_dir1 0 []
         = (0, rename_list, output_dir2)
         /\ forall path : str,
              sheet_titles output_dir2 path = sheet_titles output_dir1 path.
Proof.
  eexists _, _, _. split; [vm_compute; reflexivity|].
  refine (main_second_run_adds_nothing sample_groups sample_template [] _ _ _ _ _).
  - intros app_name folders d [H|[H|[]]] Hd Hc; inversion H; subst; vm_compute in Hd;
      repeat (destruct Hd as [<-|Hd];
              [first [discriminate Hc
                     | split; [discriminate | split; [vm_compute; lia | reflexivity]]]|]);
      destruct Hd.
  - vm_compute. reflexivity.
Defined.

End MainWitness.

(** ** Sorting, filtering and mapping *)

Section SortCommute.
Import SortFacts.
Context {A B : Type}.

Lemma insert_by_map (k : B -> N) (f : A -> B) (x : A) (l : list A) :
  map f (insert_by (fun a => k (f a)) x l) = insert_by k (f x) (map f l).
Proof.
  induction l as [|y l IH]; [reflexivity|].
  cbn [insert_by map]. destruct (k (f x) <=? k (f y))%N; [reflexivity|].
  cbn [map]. rewrite IH. reflexivity.
Qed.

Lemma sorted_by_map (k : B -> N) (f : A -> B) (l : list A) :
  map f (sorted_by (fun a => k (f a)) l) = sorted_by k (map f l).
Proof.
  induction l as [|x l IH]; [reflexivity|].
  cbn [sorted_by fold_right map]. fold (sorted_by (fun a => k (f a)) l).
  fold (sorted_by k (map f l)). rewrite insert_by_map, IH. reflexivity.
Qed.

Lemma insert_by_ext (k k' : A -> N) (x : A) (l : list A) :
  k x = k' x -> (forall y, In y l -> k y = k' y) ->
  insert_by k x l = insert_by k' x l.
Proof.
  intros Hx. induction l as [|y l IH]; intros H; [reflexivity|].
  cbn [insert_by]. rewrite Hx, (H y (or_introl eq_refl)).
  destruct (k' x <=? k' y)%N; [reflexivity|].
  rewrite IH; [reflexivity|]. intros z Hz. apply H. right. exact Hz.
Qed.

Lemma sorted_by_ext (k k' : A -> N) (l : list A) :
  (forall x, In x l -> k x = k' x) -> sorted_by k l = sorted_by k' l.
Proof.
  induction l as [|x l IH]; intros H; [reflexivity|].
  cbn [sorted_by fold_right]. fold (sorted_by k l). fold (sorted_by k' l).
  rewrite <- IH by (intros y Hy; apply H; right; exact Hy).
  apply insert_by_ext; [apply H; left; reflexivity|].
  intros y Hy. apply H. right. exact (proj1 (sorted_by_In k y l) Hy).
Qed.

Lemma insert_by_least (k : A -> N) (x : A) (l : list A) :
  (forall y, In y l -> (k x <= k y)%N) -> insert_by k x l = x :: l.
Proof.
  intros H. destruct l as [|y l]; [reflexivity|]. cbn [insert_by].
  destruct (N.leb_spec (k x) (k y)) as [L|L]; [reflexivity|].
  specialize (H y (or_introl eq_refl)). lia.
Qed.

Lemma filter_insert_sorted (k : A -> N) (p : A -> bool) (x : A) (l : list A) :
  StronglySorted (key_le k) l ->
  filter p (insert_by k x l)
  = if p x then insert_by k x (filter p l) else filter p l.
Proof.
  induction l as [|y l IH]; intros S.
  - cbn. destruct (p x); reflexivity.
  - inversion S as [|? ? S' Hy]; subst. cbn [insert_by].
    destruct (N.leb_spec (k x) (k y)) as [L|L].
    + cbn [filter]. destruct (p x); [|reflexivity].
      symmetry. apply insert_by_least.
      intros z Hz. destruct (p y).
      * destruct Hz as [<-|Hz]; [exact L|].
        apply filter_In in Hz as [Hz _].
        rewrite Forall_forall in Hy. specialize (Hy z Hz). unfold key_le in Hy. lia.
      * apply filter_In in Hz as [Hz _].
        rewrite Forall_forall in Hy. specialize (Hy z Hz). unfold key_le in Hy. lia.
    + cbn [filter]. rewrite (IH S'). destruct (p y), (p x); try reflexivity.
      cbn [insert_by]. destruct (N.leb_spec (k x) (k y)); [lia | reflexivity].
Qed.

Lemma sorted_by_filter (k : A -> N) (p : A -> bool) (l : list A) :
  filter p (sorted_by k l) = sorted_by k (filter p l).
Proof.
  induction l as [|x l IH]; [reflexivity|].
  cbn [sorted_by fold_right filter]. fold (sorted_by k l).
  rewrite filter_insert_sorted by apply sorted_by_sorted.
  rewrite IH. destruct (p x); reflexivity.
Qed.

End SortCommute.

(** ** Titles of the new sheets *)

Section TitlesAreNumbers.
Import PyFacts SortFacts.

Lemma to_copy_update_eq (existing : list str) (folders : list folder) :
  to_copy_update existing folders
  = sorted_by invoice_key (filter (is_missing existing) (map fst (all_paths folders))).
Proof.
  unfold to_copy_update. rewrite discover_new_snd. cbn [app].
  rewrite (sorted_by_ext _ (fun x : document * str => invoice_key (fst x))).
  - rewrite (sorted_by_map invoice_key fst), missing_pairs_fst. reflexivity.
  - intros x Hx. unfold invoice_key. rewrite (missing_pairs_number _ _ _ Hx). reflexivity.
Qed.

Lemma to_copy_create_eq (folders : list folder) :
  to_copy_create folders
  = sorted_by invoice_key (filter is_readable (map fst (all_paths folders))).
Proof.
  unfold to_copy_create.
  rewrite (sorted_by_ext _ (fun x : document * folder * str => invoice_key (fst (fst x)))).
  - rewrite (sorted_by_map invoice_key (fun x : document * folder * str => fst (fst x))).
    rewrite with_name_fst. reflexivity.
  - intros x Hx. unfold invoice_key. rewrite (with_name_number _ _ Hx). reflexivity.
Qed.

(** Copying documents with short invoice numbers that differ from each
    other and from the titles, the case of letters aside, gives sheets
    with these numbers as titles. *)
Lemma transplant_titles_distinct (docs : list document) :
  forall wb : workbook,
    NoDup (map folded_number (filter creates_sheet docs)) ->
    (forall d, In d (filter creates_sheet docs) ->
               invoice_number d <> []
               /\ length (invoice_number d) <= 31
               /\ ~ In (folded_number d) (map Py.lower (titles wb))) ->
    titles (transplant docs wb)
    = titles wb ++ map invoice_number (filter creates_sheet docs).
Proof.
  induction docs as [|d docs IH]; intros wb N H.
  - cbn. rewrite app_nil_r. reflexivity.
  - cbn [transplant filter] in *. rewrite copy_unfold.
    destruct (creates_sheet d) eqn:C; cbn [fst].
    + cbn [map] in N. inversion N as [|? ? N1 N2]; subst.
      destruct (H d (or_introl eq_refl)) as (Hne & Hl & Hn).
      pose proof (applied_title_free d wb Hne Hl Hn) as T.
      rewrite IH.
      * unfold titles. rewrite map_app. cbn [map title]. fold (titles wb).
        rewrite T, <- app_assoc. reflexivity.
      * exact N2.
      * intros d' Hd'. destruct (H d' (or_intror Hd')) as (Hne' & Hl' & Hn').
        split; [exact Hne'|]. split; [exact Hl'|].
        unfold titles. rewrite !map_app. cbn [map title]. fold (titles wb). rewrite T.
        intros Hin. apply in_app_or in Hin as [Hin|[E|[]]]; [exact (Hn' Hin)|].
        apply N1. fold (folded_number d) in E. rewrite E. apply in_map. exact Hd'.
    + apply IH; assumption.
Qed.

(** X19. When the documents of a run that become sheets have invoice
    numbers that are not empty, have at most 31 characters and differ from
    each other and from the titles already in the workbook, the case of
    letters aside, the new sheets are titled with exactly these invoice
    numbers, in ascending order of the sort key and, for equal keys, in
    the order of discovery. *)
Theorem new_sheets_carry_invoice_numbers
    (app_name : str) (invoice_folders : list folder) (template_path : template)
    (output_dir : directory) (n : nat) (out_path : str) (output_dir' : directory) :
  process_application app_name invoice_folders template_path output_dir
  = Some (n, out_path, output_dir') ->
  let found := dict_get output_dir out_path in
  let old := start_book template_path found in
  let copied := filter creates_sheet (wanted invoice_folders found) in
  NoDup (map folded_number copied) ->
  (forall d : document,
      In d copied ->
      invoice_number d <> []
      /\ length (invoice_number d) <= 31
      /\ ~ In (folded_number d) (map Py.lower (titles old))) ->
  exists wb' : workbook,
    dict_get output_dir' out_path = Some wb'
    /\ titles wb' = titles old ++ _sort_invoice_numbers_as_int (map invoice_number copied).
Proof.
  destruct invoice_folders as [|first_folder rest]; [discriminate|].
  destruct (process_application_unfold app_name first_folder rest template_path output_dir)
    as [itf ->].
  cbv zeta. intros H.
  assert (G : forall (wb0 : workbook) (l : list document),
            NoDup (map folded_number (filter creates_sheet l)) ->
            (forall d, In d (filter creates_sheet l) ->
                       invoice_number d <> []
                       /\ length (invoice_number d) <= 31
                       /\ ~ In (folded_number d) (map Py.lower (titles wb0))) ->
            titles (_fill_total_sheet (transplant (sorted_by invoice_key l) wb0) itf)
            = titles wb0
                ++ _sort_invoice_numbers_as_int (map invoice_number (filter creates_sheet l))).
  { intros wb0 l N Hd.
    rewrite (proj1 (fill_total_sheets _ _)), transplant_titles_distinct.
    - rewrite sorted_by_filter.
      unfold _sort_invoice_numbers_as_int.
      rewrite <- (sorted_by_map _invoice_number_sort_key invoice_number). reflexivity.
    - rewrite sorted_by_filter.
      apply (Permutation_NoDup
               (Permutation_map folded_number
                  (Permutation_sym (sorted_by_perm invoice_key (filter creates_sheet l))))).
      exact N.
    - intros d Hin. rewrite sorted_by_filter in Hin.
      apply Hd. exact (proj1 (sorted_by_In invoice_key d _) Hin). }
  destruct (dict_get output_dir (out_path_of first_folder template_path)) as [wb|] eqn:E;
    inversion H; subst; clear H; rewrite E; cbn [start_book wanted]; intros N Hd;
    eexists; (split; [apply dict_get_set|]).
  - rewrite to_copy_update_eq. apply G; assumption.
  - rewrite to_copy_create_eq. apply G; assumption.
Qed.

Lemma new_sheets_carry_invoice_numbers_witness :
  exists n out_path output_dir',
    process_application [] distinct_group sample_template []
    = Some (n, out_path, output_dir')
    /\ exists wb' : workbook,
         dict_get output_dir' out_path = Some wb'
         /\ titles wb'
            = titles (template_book sample_template)
                ++ _sort_invoice_numbers_as_int
                     (map invoice_number
                        (filter creates_sheet (wanted distinct_group None))).
Proof.
  eexists _, _, _. split; [vm_compute; reflexivity|].
  refine (new_sheets_carry_invoice_numbers [] distinct_group sample_template [] _ _ _ _ _ _).
  - vm_compute. reflexivity.
  - vm_compute. repeat constructor; cbn [In]; intuition discriminate.
  - intros d Hd. vm_compute in Hd.
    repeat (destruct Hd as [<-|Hd];
            [split; [discriminate
                    | split; [vm_compute; lia | vm_compute; intuition discriminate]]|]).
    destruct Hd.
Defined.

End TitlesAreNumbers.

(** ** The summary sheet of a new workbook *)

Section NewSummary.
Import PyFacts SortFacts.

Lemma with_name_In (paths : list (document * folder)) (d : document) (fd : folder)
      (sn : str) :
  In (d, fd, sn) (with_name paths) <-> In (d, fd) paths /\ doc_sheet d = Some sn.
Proof.
  unfold with_name. rewrite in_flat_map. split.
  - intros ([d' fd'] & Hin & H). destruct (doc_sheet d') as [sn'|] eqn:E; [|destruct H].
    destruct H as [H|[]]. inversion H; subst. auto.
  - intros [Hin E]. exists (d, fd). split; [exact Hin|]. rewrite E. left. reflexivity.
Qed.

(** The folders recorded by the copy loop of the creation branch, when
    the documents that become sheets have short invoice numbers that
    differ from each other and from the titles, the case of letters
    aside. *)
Lemma copy_all_folders (l : list (document * folder * str)) :
  forall (wb : workbook) (itf : list (str * folder)) (n : nat),
    let docs := map (fun x : document * folder * str => fst (fst x)) l in
    NoDup (map folded_number (filter creates_sheet docs)) ->
    (forall d, In d (filter creates_sheet docs) ->
               invoice_number d <> []
               /\ length (invoice_number d) <= 31
               /\ ~ In (folded_number d) (map Py.lower (titles wb))) ->
    let itf' := snd (fst (copy_all l wb itf n)) in
    (forall x, In x l -> copy_succeeds (fst (fst x)) = true ->
               dict_get itf' (invoice_number (fst (fst x))) = Some (snd (fst x)))
    /\ (forall t, (forall x, In x l -> copy_succeeds (fst (fst x)) = true ->
                             invoice_number (fst (fst x)) <> t) ->
                  dict_get itf' t = dict_get itf t).
Proof.
  induction l as [|[[d fd] s] l IH]; intros wb itf n docs N H itf'.
  - split; [intros x [] | reflexivity].
  - subst docs itf'. cbn [map fst snd filter copy_all] in *.
    rewrite copy_unfold.
    destruct (creates_sheet d) eqn:C.
    + cbn [map] in N. inversion N as [|? ? N1 N2]; subst.
      destruct (H d (or_introl eq_refl)) as (Hne & Hl & Hn).
      rewrite (applied_title_free d wb Hne Hl Hn).
      set (wb1 := wb ++ [mk_sheet (invoice_number d) (Some d) []]).
      assert (T1 : titles wb1 = titles wb ++ [invoice_number d]).
      { unfold wb1, titles. rewrite map_app. reflexivity. }
      assert (H1 : forall d', In d' (filter creates_sheet
                                        (map (fun x : document * folder * str => fst (fst x)) l)) ->
                              invoice_number d' <> []
                              /\ length (invoice_number d') <= 31
                              /\ ~ In (folded_number d') (map Py.lower (titles wb1))).
      { intros d' Hd'. destruct (H d' (or_intror Hd')) as (Hne' & Hl' & Hn').
        split; [exact Hne'|]. split; [exact Hl'|].
        rewrite T1, map_app. intros Hin.
        apply in_app_or in Hin as [Hin|[E|[]]]; [exact (Hn' Hin)|].
        apply N1. fold (folded_number d) in E. rewrite E. apply in_map. exact Hd'. }
      assert (Hfresh : forall x, In x l -> copy_succeeds (fst (fst x)) = true ->
                                 invoice_number (fst (fst x)) <> invoice_number d).
      { intros x Hx Hs E. apply N1. unfold folded_number at 1. rewrite <- E.
        apply (in_map folded_number).
        apply filter_In. split.
        - apply in_map_iff. exists x. auto.
        - apply copy_succeeds_creates, Hs. }
      destruct (copy_succeeds d) eqn:S.
      * assert (L : last (titles wb1) [] = invoice_number d)
          by (rewrite T1; apply last_last).
        rewrite L.
        destruct (IH wb1 (dict_set itf (invoice_number d) fd) (Datatypes.S n) N2 H1)
          as [A B].
        split.
        -- intros x [<-|Hx] Hs.
           ++ cbn [fst snd]. rewrite (B _ Hfresh). apply dict_get_set.
           ++ apply A; assumption.
        -- intros t Ht. rewrite B by (intros x Hx; apply Ht; right; exact Hx).
           apply dict_get_set_other.
           intros E. apply (Ht (d, fd, s) (or_introl eq_refl) S). symmetry. exact E.
      * destruct (IH wb1 itf n N2 H1) as [A B].
        split.
        -- intros x [<-|Hx] Hs; [cbn [fst] in Hs; congruence | apply A; assumption].
        -- intros t Ht. apply B. intros x Hx. apply Ht. right. exact Hx.
    + assert (S : copy_succeeds d = false).
      { destruct (copy_succeeds d) eqn:S; [|reflexivity].
        apply copy_succeeds_creates in S. congruence. }
      destruct (IH wb itf n N H) as [A B].
      split.
      * intros x [<-|Hx] Hs; [cbn [fst] in Hs; congruence | apply A; assumption].
      * intros t Ht. apply B. intros x Hx. apply Ht. right. exact Hx.
Qed.

Lemma process_create_unfold (app_name : str) (first_folder : folder) (rest : list folder)
      (template_path : template) (output_dir : directory) :
  let folders := first_folder :: rest in
  let out := out_path_of first_folder template_path in
  let l := sorted_by (fun x : document * folder * str => _invoice_number_sort_key (snd x))
             (with_name (all_paths folders)) in
  dict_get output_dir out = None ->
  process_application app_name folders template_path output_dir
  = Some (length (filter copy_succeeds (to_copy_create folders)), out,
          dict_set output_dir out
            (_fill_total_sheet
               (transplant (to_copy_create folders) (template_book template_path))
               (snd (fst (copy_all l (template_book template_path) [] 0))))).
Proof.
  cbv zeta. intros G. unfold process_application.
  fold (out_path_of first_folder template_path). rewrite G.
  unfold to_copy_create.
  destruct (copy_all_transplant
              (sorted_by (fun x : document * folder * str => _invoice_number_sort_key (snd x))
                 (with_name (all_paths (first_folder :: rest))))
              (template_book template_path) [] 0) as [itf E].
  rewrite E. reflexivity.
Qed.

(** X22. In a new workbook, when the documents that become sheets have
    invoice numbers that are not empty, have at most 31 characters and
    differ from each other and from the titles of the template, the case
    of letters aside, the folder recorded for the invoice number of a
    copied document is the folder the document was found in, no folder is
    recorded for any other title, and the summary rows are written from
    this record. *)
Theorem creation_run_fills_summary
    (app_name : str) (invoice_folders : list folder) (template_path : template)
    (output_dir : directory) (n : nat) (out_path : str) (output_dir' : directory) :
  process_application app_name invoice_folders template_path output_dir
  = Some (n, out_path, output_dir') ->
  dict_get output_dir out_path = None ->
  let copied := filter creates_sheet (wanted invoice_folders None) in
  NoDup (map folded_number copied) ->
  (forall d : document,
      In d copied ->
      invoice_number d <> []
      /\ length (invoice_number d) <= 31
      /\ ~ In (folded_number d) (map Py.lower (titles (template_book template_path)))) ->
  exists (wb' : workbook) (inv_to_folder : list (str * folder)),
    dict_get output_dir' out_path = Some wb'
    /\ (forall (d : document) (fd : folder),
          In (d, fd) (all_paths invoice_folders) -> copy_succeeds d = true ->
          dict_get inv_to_folder (invoice_number d) = Some fd)
    /\ (forall t : str,
          (forall d : document,
              In d (map fst (all_paths invoice_folders)) -> copy_succeeds d = true ->
              invoice_number d <> t) ->
          dict_get inv_to_folder t = None)
    /\ forall total' : sheet,
         _find_total_sheet wb' = Some total' ->
         forall (i : nat) (inv_num : str),
           nth_error (_get_sorted_invoice_numbers_from_wb wb') i = Some inv_num ->
           cell_value total' (4 + i) 2 = Some inv_num
           /\ cell_value total' (4 + i) _COL_ESD
              = Some (fst (row_texts inv_to_folder inv_num))
           /\ cell_value total' (4 + i) _COL_GTD
              = Some (snd (row_texts inv_to_folder inv_num)).
Proof.
  destruct invoice_folders as [|first_folder rest]; [discriminate|].
  intros H G.
  assert (Eo : out_path = out_path_of first_folder template_path).
  { destruct (process_application_unfold app_name first_folder rest template_path output_dir)
      as [itf0 E0].
    cbv zeta in E0. rewrite E0 in H.
    destruct (dict_get output_dir (out_path_of first_folder template_path));
      inversion H; reflexivity. }
  subst out_path.
  pose proof (process_create_unfold app_name first_folder rest template_path output_dir G)
    as E.
  cbv zeta in E. rewrite E in H. inversion H; subst. clear H E.
  set (folders := first_folder :: rest).
  set (l := sorted_by (fun x : document * folder * str => _invoice_number_sort_key (snd x))
              (with_name (all_paths folders))).
  set (itf := snd (fst (copy_all l (template_book template_path) [] 0))).
  set (mid := transplant (to_copy_create folders) (template_book template_path)).
  cbn [wanted]. intros N Hd.
  assert (Edocs : map (fun x : document * folder * str => fst (fst x)) l
                  = to_copy_create folders) by reflexivity.
  assert (P : Permutation (filter creates_sheet (to_copy_create folders))
                (filter creates_sheet (filter is_readable (map fst (all_paths folders)))))
    by apply filter_permutation, to_copy_create_perm.
  destruct (copy_all_folders l (template_book template_path) [] 0) as [A B].
  { rewrite Edocs.
    apply (Permutation_NoDup (Permutation_map folded_number (Permutation_sym P))), N. }
  { rewrite Edocs. intros d Hin. apply Hd. apply (Permutation_in _ P), Hin. }
  fold itf in A, B.
  exists (_fill_total_sheet mid itf), itf.
  split; [apply dict_get_set|]. split; [|split].
  - intros d fd Hin Hs.
    destruct (doc_sheet d) as [sn|] eqn:Es.
    + apply (A (d, fd, sn)); [|exact Hs].
      apply (sorted_by_In _ _ _). apply with_name_In. auto.
    + unfold copy_succeeds in Hs. rewrite Es in Hs. destruct (doc_copy d); discriminate.
  - intros t Ht. rewrite B; [reflexivity|].
    intros [[d fd] sn] Hx Hs. cbn [fst] in *.
    apply Ht; [|exact Hs].
    apply (proj1 (sorted_by_In _ _ _)) in Hx. apply with_name_In in Hx as [Hx _].
    apply in_map_iff. exists (d, fd). auto.
  - intros total' F i inv Hi.
    rewrite (numbers_of_titles _ mid (proj1 (fill_total_sheets mid itf))) in Hi.
    destruct (_find_total_sheet mid) as [total|] eqn:Fm.
    + destruct (fill_total_unfold mid itf total Fm) as [F' _]. cbv zeta in F'.
      rewrite F in F'. inversion F'; subst total'. clear F'.
      destruct (_get_sorted_invoice_numbers_from_wb mid) as [|a l0] eqn:En.
      * destruct i; discriminate.
      * apply fill_rows_row, Hi.
    + exfalso. unfold _fill_total_sheet in F. rewrite Fm in F. congruence.
Qed.

Lemma creation_run_fills_summary_witness :
  exists n out_path output_dir' wb' total',
    process_application [] distinct_group sample_template []
    = Some (n, out_path, output_dir')
    /\ dict_get output_dir' out_path = Some wb'
    /\ _find_total_sheet wb' = Some total'
    /\ cell_value total' (4 + 1) 2 = Some (txt "2")
    /\ cell_value total' (4 + 1) _COL_ESD = Some (txt "E2").
Proof.
  destruct (process_application [] distinct_group sample_template [])
    as [[[n p] d]|] eqn:E; [|vm_compute in E; discriminate].
  pose proof E as E'. vm_compute in E'. inversion E'; subst n p d. clear E'.
  destruct (creation_run_fills_summary _ _ _ _ _ _ _ E eq_refl)
    as (wb' & itf & G & A & B & R).
  { vm_compute. repeat constructor; cbn [In]; intuition discriminate. }
  { intros d Hd. vm_compute in Hd.
    repeat (destruct Hd as [<-|Hd];
            [split; [discriminate
                    | split; [vm_compute; lia | vm_compute; intuition discriminate]]|]).
    destruct Hd. }
  pose proof G as G'. vm_compute in G'. inversion G' as [Ew]. clear G'.
  assert (F : exists t, _find_total_sheet wb' = Some t)
    by (rewrite <- Ew; eexists; vm_compute; reflexivity).
  destruct F as [t F].
  destruct (R t F 1 (txt "2")) as (R1 & R2 & _).
  { rewrite <- Ew. vm_compute. reflexivity. }
  eexists _, _, _, wb', t. split; [reflexivity|]. split; [exact G|].
  split; [exact F|]. split; [exact R1|].
  assert (A2 : dict_get itf (txt "2")
               = Some (nth 1 distinct_group (mk_folder [] false [] []))).
  { apply (A (mk_document (txt "c.xlsx") (Some (txt "2")) CopyOk)
             (nth 1 distinct_group (mk_folder [] false [] []))).
    - vm_compute. auto.
    - reflexivity. }
  rewrite R2. unfold row_texts. rewrite A2. vm_compute. reflexivity.
Defined.

End NewSummary.
